(** * science_fair.py: assigning students to activities by integer programming

    A shallow embedding of [science_fair.py].  The script reads ranked
    student preferences, builds a 0/1 linear program with PuLP, solves it,
    extracts a per-student assignment, writes it to a CSV file and prints
    satisfaction statistics.

    Modelling choices.
    - Python dicts ([activities_dict], [activities_dict_reverse],
      [student_info_dicts], the per-period dicts of decision variables) are
      [gmap]s.  A subscript [d[k]] whose key comes from program input is a
      fallible lookup raising [KeyError]; a subscript whose key comes from
      the very range that populated the dict is the total lookup [!!!], and
      the lemmas [decision_vars_lookup], [activities_dict_reverse_lookup]
      and [STEP3_lookup] show the key present.
    - PuLP is an external library.  An affine expression is the list of its
      (variable, coefficient) terms in the order they were added; PuLP keeps
      one merged coefficient per variable, which [coefficient] recovers.
    - The solver is an oracle from problems to solutions.  Solver values are
      modelled as integers, percentages as exact rationals.
    - Statements about optimal solutions are proved for every feasible
      solution; an optimal solution is feasible ([optimal_feasible]).
    - Effects (reading and writing CSV files, calling the solver, printing)
      go through a small state-and-exception monad over a [world]. *)

From Stdlib Require Import ZArith QArith.
From stdpp Require Import base option list gmap strings fin_maps.

Local Open Scope string_scope.
Local Open Scope list_scope.

(** ** Exceptions and results *)

Inductive exception :=
  | IOError (filename : string)
  | ValueError
  | KeyError (key : string)
  | AssertionError (msg : string)
  | ZeroDivisionError.

Inductive result (A : Type) :=
  | Ok (a : A)
  | Raise (e : exception).
Arguments Ok {A} a.
Arguments Raise {A} e.

Definition rbind {A B} (r : result A) (k : A → result B) : result B :=
  match r with
  | Ok a => k a
  | Raise e => Raise e
  end.

Fixpoint rmapM {A B} (f : A → result B) (l : list A) : result (list B) :=
  match l with
  | [] => Ok []
  | x :: l' => rbind (f x) (λ y, rbind (rmapM f l') (λ ys, Ok (y :: ys)))
  end.

(** ** PuLP: variables, affine expressions, constraints, problems *)

Inductive LpCategory := LpContinuous | LpInteger | LpBinary.

(** The variable created by [LpVariable.dicts(name, indexs, ...)] for the
    index [idx]; [var_name = n] stands for the prefix
    ['period_<n>_decision_variable']. *)
Record LpVariable := mkLpVariable {
  var_name : nat;
  var_index : nat * nat;
  lowBound : Z;
  upBound : Z;
  cat : LpCategory;
}.

Global Instance LpCategory_eq_dec : EqDecision LpCategory.
Proof. solve_decision. Defined.
Global Instance LpVariable_eq_dec : EqDecision LpVariable.
Proof. solve_decision. Defined.
Global Instance LpVariable_inhabited : Inhabited LpVariable :=
  populate (mkLpVariable 0 (0, 0) 0 0 LpContinuous).

Definition LpAffineExpression := list (LpVariable * Z).

Inductive LpSense := LpConstraintLE | LpConstraintEQ | LpConstraintGE.

Record LpConstraint := mkLpConstraint {
  c_expr : LpAffineExpression;
  c_sense : LpSense;
  c_rhs : Z;
}.

Inductive LpDirection := LpMinimize | LpMaximize.

Record LpProblem := mkLpProblem {
  prob_name : string;
  prob_sense : LpDirection;
  constraints : list LpConstraint;
  objective : LpAffineExpression;
}.

(** [LpVariable.dicts]: one variable per index, keyed by the index. *)
Definition LpVariable_dicts (name : nat) (indexs : list (nat * nat))
    (low up : Z) (c : LpCategory) : gmap (nat * nat) LpVariable :=
  foldl (λ d idx, <[idx := mkLpVariable name idx low up c]> d) ∅ indexs.

(** [var * k] *)
Definition times (v : LpVariable) (k : Z) : LpAffineExpression := [(v, k)].

(** [pulp.lpSum] over a list of variables *)
Definition lpSum (vars : list LpVariable) : LpAffineExpression :=
  (λ v, (v, 1%Z)) <$> vars.

(** [pulp.lpSum] over a list of lists of expressions: PuLP recurses into
    nested iterables and adds every term. *)
Definition lpSum_nested (parts : list (list LpAffineExpression))
    : LpAffineExpression :=
  concat (concat parts).

(** The solver's answer: a status and a value for every variable. *)
Record Solution := mkSolution {
  status : Z;
  varValue : LpVariable → Z;
}.

Definition LpStatusNotSolved : Z := 0.
Definition LpStatusOptimal : Z := 1.
Definition LpStatusInfeasible : Z := -1.
Definition LpStatusUnbounded : Z := -2.
Definition LpStatusUndefined : Z := -3.

Fixpoint value (sol : Solution) (e : LpAffineExpression) : Z :=
  match e with
  | [] => 0
  | (v, k) :: e' => (k * varValue sol v + value sol e')%Z
  end.

(** The coefficient PuLP stores for [v] in [e]. *)
Fixpoint coefficient (e : LpAffineExpression) (v : LpVariable) : Z :=
  match e with
  | [] => 0
  | (v', k) :: e' =>
      ((if decide (v' = v) then k else 0) + coefficient e' v)%Z
  end.

Definition holds (sol : Solution) (c : LpConstraint) : Prop :=
  match c_sense c with
  | LpConstraintLE => (value sol (c_expr c) ≤ c_rhs c)%Z
  | LpConstraintEQ => value sol (c_expr c) = c_rhs c
  | LpConstraintGE => (c_rhs c ≤ value sol (c_expr c))%Z
  end.

Global Instance holds_dec sol c : Decision (holds sol c).
Proof. unfold holds. destruct (c_sense c); apply _. Defined.

Definition in_bounds (sol : Solution) (v : LpVariable) : Prop :=
  (lowBound v ≤ varValue sol v ≤ upBound v)%Z.

Global Instance in_bounds_dec sol v : Decision (in_bounds sol v).
Proof. unfold in_bounds. apply _. Defined.

(** The variables of a problem are those that occur in it. *)
Definition variables (prob : LpProblem) : list LpVariable :=
  (c ← constraints prob; fst <$> c_expr c) ++ (fst <$> objective prob).

Definition feasible (prob : LpProblem) (sol : Solution) : Prop :=
  Forall (holds sol) (constraints prob) ∧
  Forall (in_bounds sol) (variables prob).

Global Instance feasible_dec prob sol : Decision (feasible prob sol).
Proof. unfold feasible. apply _. Defined.

Definition optimal (prob : LpProblem) (sol : Solution) : Prop :=
  feasible prob sol ∧
  ∀ sol', feasible prob sol' →
    match prob_sense prob with
    | LpMaximize => (value sol' (objective prob) ≤ value sol (objective prob))%Z
    | LpMinimize => (value sol (objective prob) ≤ value sol' (objective prob))%Z
    end.

(** ** STEP 2: constants *)

Definition ACTIVITIES_LIST : list string :=
  ["100ChartPicture"; "BubbleMania"; "Closeto20";
   "Measuring"; "MysteryNumber"; "PicoPhonyZilch";
   "PuzzleinaBag"; "RacetoaFlat"; "Salute";
   "ShapeCodes"; "SteppingStones"].

Definition NUM_ACTIVITIES : nat := length ACTIVITIES_LIST.
Definition NUM_PERIODS : nat := 3.
Definition MIN_NUM_IN_ACTIVITY : Z := 5.
Definition MAX_NUM_IN_ACTIVITY : Z := 9.

(** ** STEP 3: student preferences *)

Definition enumerate {A} (l : list A) : list (nat * A) := imap pair l.

Definition activities_dict : gmap string nat :=
  foldl (λ d '(n, activity), <[activity := n]> d) ∅ (enumerate ACTIVITIES_LIST).

Definition activities_dict_reverse : gmap nat string :=
  foldl (λ d '(n, activity), <[n := activity]> d) ∅ (enumerate ACTIVITIES_LIST).

Record student_info := mkStudent {
  choices : list nat;
  choices_full_names : list string;
  name : string;
  assignments : list string;
}.

Global Instance student_info_inhabited : Inhabited student_info :=
  populate (mkStudent [] [] "" []).

Definition getitem (d : gmap string nat) (c : string) : result nat :=
  match d !! c with
  | Some n => Ok n
  | None => Raise (KeyError c)
  end.

(** The body of the loop of STEP 3 for one row. *)
Definition student_of_row (row : list string) : result student_info :=
  match row with
  | [first_name; last_name; choice1; choice2; choice3; choice4] =>
      let name := String.append last_name (String.append ", " first_name) in
      let choices := [choice1; choice2; choice3; choice4] in
      rbind (rmapM (getitem activities_dict) choices) (λ ids,
      Ok (mkStudent ids choices name []))
  | _ => Raise ValueError
  end.

Fixpoint STEP3_loop (rows : list (nat * list string))
    (student_info_dicts : gmap nat student_info)
    : result (gmap nat student_info) :=
  match rows with
  | [] => Ok student_info_dicts
  | (i, row) :: rows' =>
      rbind (student_of_row row) (λ d,
      STEP3_loop rows' (<[i := d]> student_info_dicts))
  end.

Definition STEP3 (student_choice_data : list (list string))
    : result (gmap nat student_info) :=
  STEP3_loop (enumerate student_choice_data) ∅.

Close Scope Q_scope.

(** ** STEPS 4-6: the problem *)

Section Model.
Variable NUM_STUDENTS : nat.
Variable student_info_dicts : gmap nat student_info.

(** STEP 5 *)
Definition decision_var_matrix : list (nat * nat) :=
  i ← seq 0 NUM_STUDENTS; j ← seq 0 NUM_ACTIVITIES; [(i, j)].

Definition decision_vars_list : list (gmap (nat * nat) LpVariable) :=
  (λ i, LpVariable_dicts (i + 1) decision_var_matrix 0 1 LpBinary)
    <$> seq 0 NUM_PERIODS.

(** CONSTRAINT 1: each student must be in one and only one activity per
    period *)
Definition CONSTRAINT_1 : list LpConstraint :=
  decision_vars ← decision_vars_list;
  i ← seq 0 NUM_STUDENTS;
  let vars_to_sum :=
    (λ j, decision_vars !!! (i, j)) <$> seq 0 NUM_ACTIVITIES in
  [mkLpConstraint (lpSum vars_to_sum) LpConstraintEQ 1].

(** CONSTRAINT 2: a student cannot repeat an activity *)
Definition CONSTRAINT_2 : list LpConstraint :=
  i ← seq 0 NUM_STUDENTS;
  j ← seq 0 NUM_ACTIVITIES;
  let vars_to_sum :=
    (λ decision_vars : gmap (nat * nat) LpVariable, decision_vars !!! (i, j))
      <$> decision_vars_list in
  [mkLpConstraint (lpSum vars_to_sum) LpConstraintLE 1].

(** CONSTRAINT 3: each activity must have a minimum number of students *)
Definition CONSTRAINT_3 : list LpConstraint :=
  decision_vars ← decision_vars_list;
  j ← seq 0 NUM_ACTIVITIES;
  let vars_to_sum :=
    (λ i, decision_vars !!! (i, j)) <$> seq 0 NUM_STUDENTS in
  [mkLpConstraint (lpSum vars_to_sum) LpConstraintGE MIN_NUM_IN_ACTIVITY].

(** CONSTRAINT 4: each activity can only have up to a maximum number of
    students *)
Definition CONSTRAINT_4 : list LpConstraint :=
  decision_vars ← decision_vars_list;
  j ← seq 0 NUM_ACTIVITIES;
  let vars_to_sum :=
    (λ i, decision_vars !!! (i, j)) <$> seq 0 NUM_STUDENTS in
  [mkLpConstraint (lpSum vars_to_sum) LpConstraintLE MAX_NUM_IN_ACTIVITY].

(** CONSTRAINT 5: each student must get 3 of their 4 choices *)
Definition CONSTRAINT_5 : list LpConstraint :=
  i ← seq 0 NUM_STUDENTS;
  let vars_to_sum :=
    decision_vars ← decision_vars_list;
    j ← choices (student_info_dicts !!! i);
    [decision_vars !!! (i, j)] in
  [mkLpConstraint (lpSum vars_to_sum) LpConstraintEQ 3].

(** The four terms one student adds to the objective for one period.  The
    unpacking [choice1, choice2, choice3, choice4 = ...] needs exactly
    four choices, which STEP 3 guarantees ([STEP3_lookup]). *)
Definition objective_parts_of (decision_vars : gmap (nat * nat) LpVariable)
    (i : nat) : list (list LpAffineExpression) :=
  match choices (student_info_dicts !!! i) with
  | [choice1; choice2; choice3; choice4] =>
      [[times (decision_vars !!! (i, choice1)) 1000];
       [times (decision_vars !!! (i, choice2)) 100];
       [times (decision_vars !!! (i, choice3)) 10];
       [times (decision_vars !!! (i, choice4)) 1]]
  | _ => []
  end.

Definition objective_function_parts : list (list LpAffineExpression) :=
  decision_vars ← decision_vars_list;
  i ← seq 0 NUM_STUDENTS;
  objective_parts_of decision_vars i.

(** [prob], after every [prob += ...] of STEPS 4 to 6. *)
Definition prob : LpProblem :=
  mkLpProblem "StudentClass" LpMaximize
    (CONSTRAINT_1 ++ CONSTRAINT_2 ++ CONSTRAINT_3 ++ CONSTRAINT_4
       ++ CONSTRAINT_5)
    (lpSum_nested objective_function_parts).
End Model.

(** ** STEP 8: extraction *)

Definition append_assignment (a : string) (d : student_info) : student_info :=
  mkStudent (choices d) (choices_full_names d) (name d) (assignments d ++ [a]).

Section Extraction.
Variable NUM_STUDENTS : nat.
Variable solution : Solution.

(** The body of the innermost loop; [decision_vars_list] is the list
    built in STEP 5. *)
Definition extract_body
    (decision_vars_list : list (gmap (nat * nat) LpVariable))
    (period i j : nat) (student_info_dicts : gmap nat student_info)
    : gmap nat student_info :=
  if decide (varValue solution
               ((decision_vars_list !!! period) !!! (i, j)) = 1%Z)
  then alter (append_assignment (activities_dict_reverse !!! j)) i
         student_info_dicts
  else student_info_dicts.

Definition STEP8_extract (student_info_dicts : gmap nat student_info)
    : gmap nat student_info :=
  let decision_vars_list := decision_vars_list NUM_STUDENTS in
  foldl (λ d period,
    foldl (λ d i,
      foldl (λ d j, extract_body decision_vars_list period i j d)
        d (seq 0 NUM_ACTIVITIES))
      d (seq 0 NUM_STUDENTS))
    student_info_dicts (seq 0 NUM_PERIODS).

Definition result_row (student_dict : student_info) : result (list string) :=
  match choices_full_names student_dict with
  | [choice1; choice2; choice3; choice4] =>
      match assignments student_dict with
      | [assignment1; assignment2; assignment3] =>
          Ok [name student_dict; choice1; choice2; choice3; choice4;
              assignment1; assignment2; assignment3]
      | _ => Raise ValueError
      end
  | _ => Raise ValueError
  end.

Definition STEP8_results (student_info_dicts : gmap nat student_info)
    : result (list (list string)) :=
  rmapM (λ i, result_row (student_info_dicts !!! i)) (seq 0 NUM_STUDENTS).
End Extraction.

Definition headers : list string :=
  ["name"; "choice1"; "choice2"; "choice3"; "choice4";
   "assignment1"; "assignment2"; "assignment3"; "assignment4"].

(** ** STEP 9: sanity check *)

Definition got (choice : string) (assignments : list string) : nat :=
  if decide (choice ∈ assignments) then 1 else 0.

Record totals := mkTotals {
  total_got_choice1 : nat;
  total_got_choice2 : nat;
  total_got_choice3 : nat;
  total_got_choice4 : nat;
  total_got_3_of_4 : nat;
}.

(** One iteration of the loop of STEP 9; it reads only the names of the
    student's choices and the student's assignments.  The unpacking of the
    choices cannot fail here: STEP 8 has unpacked the same list before. *)
Definition STEP9_body (d : student_info) (t : totals) : totals :=
  match choices_full_names d with
  | [choice1; choice2; choice3; choice4] =>
      let got_choice1 := got choice1 (assignments d) in
      let got_choice2 := got choice2 (assignments d) in
      let got_choice3 := got choice3 (assignments d) in
      let got_choice4 := got choice4 (assignments d) in
      mkTotals (total_got_choice1 t + got_choice1)
               (total_got_choice2 t + got_choice2)
               (total_got_choice3 t + got_choice3)
               (total_got_choice4 t + got_choice4)
               (if decide (got_choice1 + got_choice2 + got_choice3
                             + got_choice4 = 3)
                then total_got_3_of_4 t + 1 else total_got_3_of_4 t)
  | _ => t
  end.

Definition STEP9 (NUM_STUDENTS : nat)
    (student_info_dicts : gmap nat student_info) : totals :=
  foldl (λ t i, STEP9_body (student_info_dicts !!! i) t)
    (mkTotals 0 0 0 0 0) (seq 0 NUM_STUDENTS).

(** ** The script as a whole: effects *)

Inductive output_line :=
  | print_Z (label : string) (v : Z)
  | print_Q (label : string) (v : Q).

Record world := mkWorld {
  files : gmap string (list (list string));
  solver_requests : list LpProblem;
  stdout : list output_line;
}.

Definition M (A : Type) : Type := world → result A * world.

Global Instance M_ret : MRet M := λ A a w, (Ok a, w).
Global Instance M_bind : MBind M := λ A B k m w,
  match m w with
  | (Ok a, w') => k a w'
  | (Raise e, w') => (Raise e, w')
  end.

Definition raise {A} (e : exception) : M A := λ w, (Raise e, w).

Definition lift {A} (r : result A) : M A := λ w, (r, w).

Definition print (l : output_line) : M unit := λ w,
  (Ok (), mkWorld (files w) (solver_requests w) (stdout w ++ [l])).

Definition read_in_csv_to_list (filename : string) (headers : bool)
    : M (list (list string)) := λ w,
  let start_row := if headers then 1 else 0 in
  match files w !! filename with
  | Some data => (Ok (drop start_row data), w)
  | None => (Raise (IOError filename), w)
  end.

Definition write_list_to_csv (filename : string) (data : list (list string))
    (headers : option (list string)) : M unit := λ w,
  let rows :=
    match headers with
    | Some (h :: hs) => [h :: hs]
    | _ => []
    end ++ data in
  (Ok (), mkWorld (<[filename := rows]> (files w)) (solver_requests w)
            (stdout w)).

Definition assert (b : bool) (msg : string) : M unit :=
  if b then mret () else raise (AssertionError msg).

(** [float(total) / NUM_STUDENTS * 100] *)
Definition percent (total NUM_STUDENTS : nat) : M Q :=
  if decide (NUM_STUDENTS = 0) then raise ZeroDivisionError
  else mret (inject_Z (Z.of_nat total) / inject_Z (Z.of_nat NUM_STUDENTS)
               * 100)%Q.

Section Script.
(** The solver behind [prob.solve()]. *)
Variable solver : LpProblem → Solution.

Definition solve (prob : LpProblem) : M Solution := λ w,
  (Ok (solver prob),
   mkWorld (files w) (solver_requests w ++ [prob]) (stdout w)).

Definition script : M unit :=
  (* STEP 1 *)
  student_choice_data ← read_in_csv_to_list "student_choices.csv" true;
  (* STEP 2 *)
  let NUM_STUDENTS := length student_choice_data in
  (* STEP 3 *)
  student_info_dicts ← lift (STEP3 student_choice_data);
  (* STEPS 4-6 *)
  let prob := prob NUM_STUDENTS student_info_dicts in
  (* STEP 7 *)
  solution ← solve prob;
  let solution_found := status solution in
  assert (bool_decide (solution_found = 1%Z)) "solution not found";;
  print (print_Z "Objective value:" (value solution (objective prob)));;
  (* STEP 8 *)
  let student_info_dicts :=
    STEP8_extract NUM_STUDENTS solution student_info_dicts in
  results ← lift (STEP8_results NUM_STUDENTS student_info_dicts);
  write_list_to_csv "assignment_outputs.csv" results (Some headers);;
  (* STEP 9 *)
  let t := STEP9 NUM_STUDENTS student_info_dicts in
  p1 ← percent (total_got_choice1 t) NUM_STUDENTS;
  print (print_Q "percent who got choice 1:" p1);;
  p2 ← percent (total_got_choice2 t) NUM_STUDENTS;
  print (print_Q "percent who got choice 2:" p2);;
  p3 ← percent (total_got_choice3 t) NUM_STUDENTS;
  print (print_Q "percent who got choice 3:" p3);;
  p4 ← percent (total_got_choice4 t) NUM_STUDENTS;
  print (print_Q "percent who got choice 4:" p4);;
  p5 ← percent (total_got_3_of_4 t) NUM_STUDENTS;
  print (print_Q "percent who got 3 of 4 choices:" p5).

(** A run starts with the input files, no solver request and no output. *)
Definition run (input : gmap string (list (list string)))
    : result unit * world :=
  script (mkWorld input [] []).
End Script.

(** ** Vocabulary of the statements *)

Definition Zsum (l : list Z) : Z := foldr Z.add 0%Z l.

(** [decision_vars_list[period][(i, j)]], the variable of the spec's
    triple (period, student, activity); see [decision_vars_lookup]. *)
Definition decision_var (period i j : nat) : LpVariable :=
  mkLpVariable (period + 1) (i, j) 0 1 LpBinary.

Definition add_assignments (l : list string) (d : student_info)
    : student_info :=
  mkStudent (choices d) (choices_full_names d) (name d) (assignments d ++ l).

(** The activities whose variable is 1 for a student in a period, and the
    names the periods contribute in turn. *)
Definition ones (sol : Solution) (period i : nat) : list nat :=
  filter (λ j, varValue sol (decision_var period i j) = 1%Z)
    (seq 0 NUM_ACTIVITIES).

Definition picked (sol : Solution) (i : nat) : list string :=
  period ← seq 0 NUM_PERIODS;
  (λ j, activities_dict_reverse !!! j) <$> ones sol period i.

(** The number of students whose assignment in [period] is [activity]. *)
Definition attendance (NUM_STUDENTS : nat)
    (student_info_dicts : gmap nat student_info) (period : nat)
    (activity : string) : nat :=
  length (filter (λ i, assignments (student_info_dicts !!! i) !! period
                       = Some activity) (seq 0 NUM_STUDENTS)).

(** The weights of the objective, by rank. *)
Definition weights : list Z := [1000; 100; 10; 1]%Z.

(** ** Reference inputs *)

(** Fifty-five students; student [i] ranks the four activities that follow
    position [i] in the catalog, and the solver sends student [i] to
    activity [i + period] (modulo the catalog size) in each period. *)
Module Rotation.
Definition activity (n : nat) : string :=
  ACTIVITIES_LIST !!! (n mod NUM_ACTIVITIES).

Definition row (i : nat) : list string :=
  ["Ada"; "Lovelace"; activity i; activity (i + 1); activity (i + 2);
   activity (i + 3)].

Definition student_choice_data : list (list string) := row <$> seq 0 55.

Definition csv : list (list string) :=
  ["first_name"; "last_name"; "choice1"; "choice2"; "choice3"; "choice4"]
    :: student_choice_data.

Definition input : gmap string (list (list string)) :=
  {[ "student_choices.csv" := csv ]}.

Definition student_info_dicts : gmap nat student_info :=
  match STEP3 student_choice_data with
  | Ok d => d
  | Raise _ => ∅
  end.

Definition solution : Solution :=
  mkSolution LpStatusOptimal (λ v,
    if decide (snd (var_index v)
               = (fst (var_index v) + (var_name v - 1)) mod NUM_ACTIVITIES)
    then 1%Z else 0%Z).

Definition solver (_ : LpProblem) : Solution := solution.
End Rotation.

(** One student and a solver that breaks its contract: status optimal, no
    activity in the first period, two in the second, one in the third. *)
Module Broken.
Definition student_choice_data : list (list string) :=
  [["Ada"; "Lovelace"; "Salute"; "Measuring"; "Closeto20"; "BubbleMania"]].

Definition csv : list (list string) :=
  ["first_name"; "last_name"; "choice1"; "choice2"; "choice3"; "choice4"]
    :: student_choice_data.

Definition input : gmap string (list (list string)) :=
  {[ "student_choices.csv" := csv ]}.

Definition student_info_dicts : gmap nat student_info :=
  {[ 0 := mkStudent [8; 3; 2; 1]
            ["Salute"; "Measuring"; "Closeto20"; "BubbleMania"]
            "Lovelace, Ada" [] ]}.

Definition solution : Solution :=
  mkSolution LpStatusOptimal (λ v,
    if decide (v = decision_var 1 0 0 ∨ v = decision_var 1 0 1
               ∨ v = decision_var 2 0 2)
    then 1%Z else 0%Z).

Definition solver (_ : LpProblem) : Solution := solution.

(** The same student, with solvers that report failure. *)
Definition infeasible (_ : LpProblem) : Solution :=
  mkSolution LpStatusInfeasible (λ _, 0%Z).

Definition undefined (_ : LpProblem) : Solution :=
  mkSolution LpStatusUndefined (λ _, 0%Z).
End Broken.

(** The number of variables of student [i] that are 1, over all periods. *)
Definition num_ones (sol : Solution) (i : nat) : nat :=
  length (period ← seq 0 NUM_PERIODS; ones sol period i).

(** The five lines STEP 9 prints. *)
Definition report (t : totals) (NUM_STUDENTS : nat) : list output_line :=
  let pct (total : nat) : Q :=
    (inject_Z (Z.of_nat total) / inject_Z (Z.of_nat NUM_STUDENTS) * 100)%Q in
  [print_Q "percent who got choice 1:" (pct (total_got_choice1 t));
   print_Q "percent who got choice 2:" (pct (total_got_choice2 t));
   print_Q "percent who got choice 3:" (pct (total_got_choice3 t));
   print_Q "percent who got choice 4:" (pct (total_got_choice4 t));
   print_Q "percent who got 3 of 4 choices:" (pct (total_got_3_of_4 t))].

(** ** Inputs for the error paths *)

Module Malformed.
Definition header : list string :=
  ["first_name"; "last_name"; "choice1"; "choice2"; "choice3"; "choice4"].

Definition good_row : list string :=
  ["Ada"; "Lovelace"; "Salute"; "Measuring"; "Closeto20"; "BubbleMania"].

(** Five fields instead of six. *)
Definition short_row : list string :=
  ["Alan"; "Turing"; "Salute"; "Measuring"; "Closeto20"].

(** The second and the fourth choice are not in the catalog. *)
Definition unknown_row : list string :=
  ["Alan"; "Turing"; "Salute"; "Chess"; "Closeto20"; "Go"].

(** Two activities, each ranked twice. *)
Definition paired_row : list string :=
  ["Alan"; "Turing"; "Salute"; "Salute"; "Measuring"; "Measuring"].

Definition input_short : gmap string (list (list string)) :=
  {[ "student_choices.csv" := [header; good_row; short_row] ]}.

Definition input_unknown : gmap string (list (list string)) :=
  {[ "student_choices.csv" := [header; good_row; unknown_row] ]}.

Definition input_header_only : gmap string (list (list string)) :=
  {[ "student_choices.csv" := [header] ]}.

Definition optimistic (_ : LpProblem) : Solution :=
  mkSolution LpStatusOptimal (λ _, 0%Z).
End Malformed.

(** Whether student [d] obtained the choice of rank [k + 1]. *)
Definition got_rank (k : nat) (d : student_info) : nat :=
  got (choices_full_names d !!! k) (assignments d).

Module Paired.
Definition student_choice_data : list (list string) := [Malformed.paired_row].

Definition student_info_dicts : gmap nat student_info :=
  match STEP3 student_choice_data with
  | Ok d => d
  | Raise _ => ∅
  end.
End Paired.

(** A solver that keeps its contract: it proposes the rotation, and answers
    "optimal" only if the rotation is feasible for the problem it is
    given. *)
Module Checked.
Definition solver (p : LpProblem) : Solution :=
  if decide (feasible p Rotation.solution) then Rotation.solution
  else mkSolution LpStatusInfeasible (λ _, 0%Z).
End Checked.

(** ** Vocabulary of the validator *)

(** The choice of rank [k + 1] of a student is among the student's
    assignments, at whatever position. *)
Definition has_choice (k : nat) (d : student_info) : Prop :=
  choices_full_names d !!! k ∈ assignments d.

Global Instance has_choice_dec k d : Decision (has_choice k d).
Proof. unfold has_choice. apply _. Defined.

(** How many of the four ranks of a student are matched. *)
Definition num_matches (d : student_info) : nat :=
  length (filter (λ k, has_choice k d) (seq 0 4)).

(** How many of the students 0 .. NUM_STUDENTS - 1 satisfy [P]. *)
Definition count_students (P : student_info → Prop)
    `{!∀ d, Decision (P d)} (NUM_STUDENTS : nat)
    (student_info_dicts : gmap nat student_info) : nat :=
  length (filter (λ i, P (student_info_dicts !!! i)) (seq 0 NUM_STUDENTS)).

(** * Verification *)

Lemma optimal_feasible prob sol : optimal prob sol → feasible prob sol.
Proof. by intros [H _]. Qed.

(** ** Sums of 0/1 values *)

Lemma Zsum_cons z l : Zsum (z :: l) = (z + Zsum l)%Z.
Proof. reflexivity. Qed.

Lemma value_cons sol v k e :
  value sol ((v, k) :: e) = (k * varValue sol v + value sol e)%Z.
Proof. reflexivity. Qed.

Lemma value_lpSum sol vars :
  value sol (lpSum vars) = Zsum (varValue sol <$> vars).
Proof.
  induction vars as [|v vars IH]; [done|].
  unfold lpSum in *. rewrite !fmap_cons, value_cons, Zsum_cons, IH. lia.
Qed.

Section Binary.
Context {A : Type} (f : A → Z).

Lemma Zsum_binary_count (l : list A) :
  (∀ x, x ∈ l → (0 ≤ f x ≤ 1)%Z) →
  Zsum (f <$> l) = Z.of_nat (length (filter (λ x, f x = 1%Z) l)).
Proof.
  induction l as [|a l IH]; intros Hb; [done|].
  rewrite fmap_cons, Zsum_cons, IH by (intros; apply Hb; by right).
  assert (0 ≤ f a ≤ 1)%Z as Ha by (apply Hb; by left).
  destruct (decide (f a = 1%Z)) as [E|E].
  - rewrite filter_cons_True by done. simpl length. lia.
  - rewrite filter_cons_False by done. lia.
Qed.

(** A sum of 0/1 values is 1 exactly when one of them is 1. *)
Lemma Zsum_one_singleton (l : list A) :
  (∀ x, x ∈ l → (0 ≤ f x ≤ 1)%Z) →
  Zsum (f <$> l) = 1%Z →
  ∃ x, filter (λ x, f x = 1%Z) l = [x].
Proof.
  intros Hb Hs. rewrite Zsum_binary_count in Hs by done.
  destruct (filter _ l) as [|x [|y r]]; simpl in Hs; try lia. by exists x.
Qed.
End Binary.

(** ** List comprehensions *)

Lemma bind_if_filter {A B} (P : A → Prop) `{∀ x, Decision (P x)}
    (f : A → B) (l : list A) :
  (x ← l; if decide (P x) then [f x] else []) = f <$> filter P l.
Proof.
  induction l as [|a l IH]; [done|].
  rewrite bind_cons, IH. destruct (decide (P a)).
  - by rewrite filter_cons_True.
  - by rewrite filter_cons_False.
Qed.

Lemma bind_only {A B} `{EqDecision A} (a : A) (r : list B) (l : list A) :
  NoDup l → a ∈ l →
  (x ← l; if decide (x = a) then r else []) = r.
Proof.
  induction 1 as [|b l Hb Hnd IH]; intros Hin; [by apply elem_of_nil in Hin|].
  rewrite bind_cons. destruct (decide (b = a)) as [->|Hne].
  - assert ((x ← l; if decide (x = a) then r else []) = []) as ->;
      [|by rewrite app_nil_r].
    clear IH Hin Hnd. induction l as [|c l IH]; [done|].
    rewrite bind_cons. rewrite not_elem_of_cons in Hb. destruct Hb as [Hc Hl].
    rewrite decide_False by done. by apply IH.
  - apply elem_of_cons in Hin as [?|Hin]; [congruence|]. by apply IH.
Qed.

Lemma bind_ext_in {A B} (f g : A → list B) (l : list A) :
  (∀ x, x ∈ l → f x = g x) → l ≫= f = l ≫= g.
Proof.
  induction l as [|a l IH]; intros Hfg; [done|].
  rewrite !bind_cons, Hfg, IH; [done| |by left].
  intros; apply Hfg; by right.
Qed.

Lemma fmap_ext_in {A B} (f g : A → B) (l : list A) :
  (∀ x, x ∈ l → f x = g x) → f <$> l = g <$> l.
Proof.
  intros Hfg. apply list_fmap_ext. intros i x Hx. apply Hfg.
  by eapply list_elem_of_lookup_2.
Qed.

(** ** The dicts of the script *)

Lemma decision_var_inj p i j p' i' j' :
  decision_var p i j = decision_var p' i' j' → p = p' ∧ i = i' ∧ j = j'.
Proof. unfold decision_var. intros [=]. lia. Qed.

Lemma LpVariable_dicts_foldl (name : nat) (low up : Z) (c : LpCategory)
    (indexs : list (nat * nat)) (d : gmap (nat * nat) LpVariable)
    (idx : nat * nat) :
  foldl (λ (d : gmap (nat * nat) LpVariable) idx,
           <[idx := mkLpVariable name idx low up c]> d) d indexs !! idx
  = if decide (idx ∈ indexs) then Some (mkLpVariable name idx low up c)
    else d !! idx.
Proof.
  revert d. induction indexs as [|a l IH]; intros d.
  - rewrite decide_False; [done|]. apply not_elem_of_nil.
  - simpl foldl. rewrite IH. destruct (decide (idx ∈ l)) as [Hin|Hin].
    + rewrite decide_True; [done|]. by right.
    + destruct (decide (a = idx)) as [->|Hne].
      * rewrite lookup_insert_eq, decide_True; [done|]. by left.
      * rewrite lookup_insert_ne by done. rewrite decide_False; [done|].
        rewrite not_elem_of_cons. split; congruence.
Qed.

Lemma elem_of_decision_var_matrix NUM_STUDENTS i j :
  (i, j) ∈ decision_var_matrix NUM_STUDENTS
  ↔ i < NUM_STUDENTS ∧ j < NUM_ACTIVITIES.
Proof.
  unfold decision_var_matrix. rewrite list_elem_of_bind. split.
  - intros (i' & Hj & Hi). apply list_elem_of_bind in Hj as (j' & Hij & Hj).
    apply list_elem_of_singleton in Hij as [= -> ->].
    apply elem_of_seq in Hi, Hj. lia.
  - intros [Hi Hj]. exists i. split; [|apply elem_of_seq; lia].
    apply list_elem_of_bind. exists j. split; [by apply list_elem_of_singleton|].
    apply elem_of_seq; lia.
Qed.

Lemma LpVariable_dicts_lookup NUM_STUDENTS period i j :
  i < NUM_STUDENTS → j < NUM_ACTIVITIES →
  LpVariable_dicts (period + 1) (decision_var_matrix NUM_STUDENTS) 0 1 LpBinary
    !!! (i, j) = decision_var period i j.
Proof.
  intros Hi Hj. rewrite lookup_total_alt. unfold LpVariable_dicts.
  rewrite LpVariable_dicts_foldl, decide_True; [done|].
  by apply elem_of_decision_var_matrix.
Qed.

(** Every subscript [decision_vars_list[period][(i, j)]] the script
    evaluates finds its key. *)
Lemma decision_vars_lookup NUM_STUDENTS period i j :
  period < NUM_PERIODS → i < NUM_STUDENTS → j < NUM_ACTIVITIES →
  (decision_vars_list NUM_STUDENTS !!! period) !!! (i, j)
  = decision_var period i j.
Proof.
  intros Hp Hi Hj.
  rewrite (list_lookup_total_correct _ period
             (LpVariable_dicts (period + 1) (decision_var_matrix NUM_STUDENTS)
                0 1 LpBinary)).
  - by apply LpVariable_dicts_lookup.
  - unfold decision_vars_list.
    by rewrite list_lookup_fmap, lookup_seq_lt.
Qed.

Lemma ACTIVITIES_LIST_NoDup : NoDup ACTIVITIES_LIST.
Proof. apply (bool_decide_unpack _). by vm_compute. Qed.

Lemma activities_dict_reverse_lookup j :
  j < NUM_ACTIVITIES →
  ACTIVITIES_LIST !! j = Some (activities_dict_reverse !!! j).
Proof.
  intros Hj. do 11 (destruct j as [|j]; [by vm_compute|]).
  unfold NUM_ACTIVITIES in Hj. simpl in Hj. lia.
Qed.

Lemma activities_dict_reverse_inj j j' :
  j < NUM_ACTIVITIES → j' < NUM_ACTIVITIES →
  activities_dict_reverse !!! j = activities_dict_reverse !!! j' → j = j'.
Proof.
  intros Hj Hj' E. apply activities_dict_reverse_lookup in Hj, Hj'.
  rewrite E in Hj. eapply NoDup_lookup; eauto using ACTIVITIES_LIST_NoDup.
Qed.

Lemma activities_dict_foldl (l : list (nat * string))
    (d : gmap string nat) c n :
  foldl (λ (d : gmap string nat) '(n, activity), <[activity := n]> d) d l !! c
  = Some n →
  (n, c) ∈ l ∨ d !! c = Some n.
Proof.
  revert d. induction l as [|[m a] l IH]; intros d H; [by right|].
  simpl in H. apply IH in H as [H|H]; [left; by right|].
  destruct (decide (a = c)) as [->|Hne].
  - rewrite lookup_insert_eq in H. injection H as ->. left; by left.
  - rewrite lookup_insert_ne in H by done. by right.
Qed.

(** What [activities_dict[c]] returns is the position of [c] in the
    catalog, which [activities_dict_reverse] maps back to [c]. *)
Lemma activities_dict_Some c n :
  activities_dict !! c = Some n →
  n < NUM_ACTIVITIES ∧ activities_dict_reverse !!! n = c.
Proof.
  intros H. apply activities_dict_foldl in H as [H|H]; [|by rewrite lookup_empty in H].
  apply elem_of_lookup_imap in H as (i & a & [= -> ->] & Hl).
  assert (i < NUM_ACTIVITIES) as Hi by (by apply lookup_lt_Some in Hl).
  split; [done|]. apply activities_dict_reverse_lookup in Hi. congruence.
Qed.

(** ** STEP 3 *)

Lemma rbind_Ok {A B} (r : result A) (k : A → result B) b :
  rbind r k = Ok b → ∃ a, r = Ok a ∧ k a = Ok b.
Proof. destruct r as [a|e]; [|done]. intros; by exists a. Qed.

Lemma rmapM_Ok {A B} (f : A → result B) l ys :
  rmapM f l = Ok ys → Forall2 (λ x y, f x = Ok y) l ys.
Proof.
  revert ys. induction l as [|x l IH]; intros ys H.
  - injection H as <-. constructor.
  - simpl in H. apply rbind_Ok in H as (y & Hy & H).
    apply rbind_Ok in H as (ys' & Hys & [= <-]). constructor; auto.
Qed.

Lemma rmapM_length {A B} (f : A → result B) l ys :
  rmapM f l = Ok ys → length ys = length l.
Proof. intros H. apply rmapM_Ok in H. symmetry. by eapply Forall2_length. Qed.

(** A row is accepted exactly when it has six fields whose four choices
    are in the catalog. *)
Lemma student_of_row_Ok row d :
  student_of_row row = Ok d →
  ∃ first_name last_name choice1 choice2 choice3 choice4 n1 n2 n3 n4,
    row = [first_name; last_name; choice1; choice2; choice3; choice4] ∧
    d = mkStudent [n1; n2; n3; n4] [choice1; choice2; choice3; choice4]
          (String.append last_name (String.append ", " first_name)) [] ∧
    activities_dict !! choice1 = Some n1 ∧
    activities_dict !! choice2 = Some n2 ∧
    activities_dict !! choice3 = Some n3 ∧
    activities_dict !! choice4 = Some n4.
Proof.
  destruct row as [|f [|l [|c1 [|c2 [|c3 [|c4 [|? ?]]]]]]]; try done.
  unfold student_of_row. intros H.
  apply rbind_Ok in H as (ids & Hids & [= <-]).
  apply rmapM_Ok in Hids.
  repeat match goal with
  | H : Forall2 _ (_ :: _) _ |- _ => apply Forall2_cons_inv_l in H as (? & ? & ? & H & ->)
  | H : Forall2 _ [] _ |- _ => apply Forall2_nil_inv_l in H as ->
  end.
  unfold getitem in *.
  repeat match goal with
  | H : match ?o with Some _ => _ | None => _ end = Ok _ |- _ =>
      destruct o eqn:?; [injection H as ->|discriminate H]
  end.
  by eexists _, _, _, _, _, _, _, _, _, _.
Qed.

Lemma STEP3_loop_spec rows k acc dicts :
  STEP3_loop (imap (λ n row, (k + n, row)) rows) acc = Ok dicts →
  (∀ i row, rows !! i = Some row →
     ∃ d, dicts !! (k + i) = Some d ∧ student_of_row row = Ok d) ∧
  (∀ j, j < k → dicts !! j = acc !! j).
Proof.
  revert k acc. induction rows as [|r rows IH]; intros k acc H.
  - injection H as <-. split; [intros i row Hi; by rewrite lookup_nil in Hi|done].
  - rewrite imap_cons in H. simpl in H.
    apply rbind_Ok in H as (d & Hd & H).
    rewrite (imap_ext _ (λ n row, (S k + n, row))) in H
      by (intros; simpl; f_equal; lia).
    apply IH in H as [H1 H2]. split.
    + intros [|i] row Hi.
      * injection Hi as <-. exists d. split; [|done].
        rewrite H2 by lia. by rewrite Nat.add_0_r, lookup_insert_eq.
      * replace (k + S i) with (S k + i) by lia. by apply H1.
    + intros j Hj. rewrite H2 by lia. apply lookup_insert_ne. lia.
Qed.

(** After STEP 3, [student_info_dicts[i]] exists for every row [i] and is
    what [student_of_row] makes of that row. *)
Lemma STEP3_lookup student_choice_data student_info_dicts i row :
  STEP3 student_choice_data = Ok student_info_dicts →
  student_choice_data !! i = Some row →
  ∃ d, student_info_dicts !! i = Some d ∧ student_of_row row = Ok d.
Proof.
  intros H Hi. unfold STEP3, enumerate in H.
  apply (STEP3_loop_spec _ 0) in H as [H _]. by apply H in Hi.
Qed.

(** ** The constraints, with the subscripts resolved *)

Lemma bind_fmap {A B C} (f : A → B) (g : B → list C) (l : list A) :
  (f <$> l) ≫= g = l ≫= (g ∘ f).
Proof. induction l as [|a l IH]; [done|]. by rewrite fmap_cons, !bind_cons, IH. Qed.

Lemma in_seq_0 n k : k ∈ seq 0 n ↔ k < n.
Proof. rewrite elem_of_seq. lia. Qed.

Section Resolved.
Variable NUM_STUDENTS : nat.
Variable student_info_dicts : gmap nat student_info.

Lemma CONSTRAINT_1_eq :
  CONSTRAINT_1 NUM_STUDENTS =
  period ← seq 0 NUM_PERIODS; i ← seq 0 NUM_STUDENTS;
  [mkLpConstraint (lpSum (decision_var period i <$> seq 0 NUM_ACTIVITIES))
     LpConstraintEQ 1].
Proof.
  unfold CONSTRAINT_1, decision_vars_list. rewrite bind_fmap.
  apply bind_ext_in; intros p _. apply bind_ext_in; intros i Hi.
  apply in_seq_0 in Hi. unfold compose.
  rewrite (fmap_ext_in _ (decision_var p i)); [done|].
  intros j Hj. apply in_seq_0 in Hj. by apply LpVariable_dicts_lookup.
Qed.

Lemma CONSTRAINT_2_eq :
  CONSTRAINT_2 NUM_STUDENTS =
  i ← seq 0 NUM_STUDENTS; j ← seq 0 NUM_ACTIVITIES;
  [mkLpConstraint
     (lpSum ((λ period, decision_var period i j) <$> seq 0 NUM_PERIODS))
     LpConstraintLE 1].
Proof.
  unfold CONSTRAINT_2, decision_vars_list.
  apply bind_ext_in; intros i Hi. apply bind_ext_in; intros j Hj.
  apply in_seq_0 in Hi, Hj. rewrite <- list_fmap_compose.
  rewrite (fmap_ext_in _ (λ period, decision_var period i j)); [done|].
  intros p _. unfold compose. by apply LpVariable_dicts_lookup.
Qed.

Lemma CONSTRAINT_3_eq :
  CONSTRAINT_3 NUM_STUDENTS =
  period ← seq 0 NUM_PERIODS; j ← seq 0 NUM_ACTIVITIES;
  [mkLpConstraint
     (lpSum ((λ i, decision_var period i j) <$> seq 0 NUM_STUDENTS))
     LpConstraintGE MIN_NUM_IN_ACTIVITY].
Proof.
  unfold CONSTRAINT_3, decision_vars_list. rewrite bind_fmap.
  apply bind_ext_in; intros p _. apply bind_ext_in; intros j Hj.
  apply in_seq_0 in Hj. unfold compose.
  rewrite (fmap_ext_in _ (λ i, decision_var p i j)); [done|].
  intros i Hi. apply in_seq_0 in Hi. by apply LpVariable_dicts_lookup.
Qed.

Lemma CONSTRAINT_4_eq :
  CONSTRAINT_4 NUM_STUDENTS =
  period ← seq 0 NUM_PERIODS; j ← seq 0 NUM_ACTIVITIES;
  [mkLpConstraint
     (lpSum ((λ i, decision_var period i j) <$> seq 0 NUM_STUDENTS))
     LpConstraintLE MAX_NUM_IN_ACTIVITY].
Proof.
  unfold CONSTRAINT_4, decision_vars_list. rewrite bind_fmap.
  apply bind_ext_in; intros p _. apply bind_ext_in; intros j Hj.
  apply in_seq_0 in Hj. unfold compose.
  rewrite (fmap_ext_in _ (λ i, decision_var p i j)); [done|].
  intros i Hi. apply in_seq_0 in Hi. by apply LpVariable_dicts_lookup.
Qed.

(** From here on the choices of every student are activity ids, as
    STEP 3 leaves them. *)
Hypothesis choices_valid : ∀ i j,
  i < NUM_STUDENTS → j ∈ choices (student_info_dicts !!! i) →
  j < NUM_ACTIVITIES.

Lemma CONSTRAINT_5_eq :
  CONSTRAINT_5 NUM_STUDENTS student_info_dicts =
  i ← seq 0 NUM_STUDENTS;
  [mkLpConstraint
     (lpSum (period ← seq 0 NUM_PERIODS;
             j ← choices (student_info_dicts !!! i);
             [decision_var period i j]))
     LpConstraintEQ 3].
Proof.
  unfold CONSTRAINT_5, decision_vars_list.
  apply bind_ext_in; intros i Hi. apply in_seq_0 in Hi.
  rewrite bind_fmap. unfold compose.
  rewrite (bind_ext_in _ (λ period, j ← choices (student_info_dicts !!! i);
                                    [decision_var period i j])); [done|].
  intros p _. apply bind_ext_in; intros j Hj.
  rewrite LpVariable_dicts_lookup; eauto.
Qed.

Lemma objective_function_parts_eq :
  objective_function_parts NUM_STUDENTS student_info_dicts =
  period ← seq 0 NUM_PERIODS; i ← seq 0 NUM_STUDENTS;
  match choices (student_info_dicts !!! i) with
  | [choice1; choice2; choice3; choice4] =>
      [[times (decision_var period i choice1) 1000];
       [times (decision_var period i choice2) 100];
       [times (decision_var period i choice3) 10];
       [times (decision_var period i choice4) 1]]
  | _ => []
  end.
Proof.
  unfold objective_function_parts, decision_vars_list. rewrite bind_fmap.
  apply bind_ext_in; intros p _. apply bind_ext_in; intros i Hi.
  apply in_seq_0 in Hi. unfold compose, objective_parts_of.
  pose proof (choices_valid i) as Hc.
  destruct (choices (student_info_dicts !!! i))
    as [|c1 [|c2 [|c3 [|c4 [|? ?]]]]]; try done.
  rewrite !LpVariable_dicts_lookup; try done; apply Hc; try done;
    rewrite !elem_of_cons; tauto.
Qed.
End Resolved.

(** ** STEP 8: what the extraction loop leaves in [assignments] *)

Lemma add_assignments_nil d : add_assignments [] d = d.
Proof. destruct d. unfold add_assignments. simpl. by rewrite app_nil_r. Qed.

Lemma add_assignments_app l1 l2 d :
  add_assignments l2 (add_assignments l1 d) = add_assignments (l1 ++ l2) d.
Proof. unfold add_assignments. simpl. by rewrite app_assoc. Qed.

Lemma bind_nil_const {A B} (l : list A) : (x ← l; @nil B) = [].
Proof. by induction l. Qed.

Lemma foldl_extend {X} (g : X → gmap nat student_info → gmap nat student_info)
    (h : X → list string) (i : nat) (l : list X) (d : gmap nat student_info) :
  (∀ x d, x ∈ l → g x d !! i = add_assignments (h x) <$> d !! i) →
  foldl (λ d x, g x d) d l !! i = add_assignments (l ≫= h) <$> d !! i.
Proof.
  revert d. induction l as [|a l IH]; intros d Hg.
  - simpl. destruct (d !! i) as [s|]; [|done]. simpl.
    by rewrite add_assignments_nil.
  - simpl foldl. rewrite IH by (intros; apply Hg; by right).
    rewrite Hg by (by left). rewrite bind_cons.
    destruct (d !! i) as [s|]; [|done]. simpl.
    by rewrite add_assignments_app.
Qed.

Section ExtractionFacts.
Variable NUM_STUDENTS : nat.
Variable sol : Solution.

Lemma extract_body_lookup period i' j d i :
  period < NUM_PERIODS → i' < NUM_STUDENTS → j < NUM_ACTIVITIES →
  extract_body sol (decision_vars_list NUM_STUDENTS) period i' j d !! i
  = add_assignments
      (if decide (i' = i)
       then if decide (varValue sol (decision_var period i j) = 1%Z)
            then [activities_dict_reverse !!! j] else []
       else []) <$> d !! i.
Proof.
  intros Hp Hi Hj. unfold extract_body.
  rewrite decision_vars_lookup by done.
  destruct (decide (i' = i)) as [->|Hne].
  - destruct (decide _).
    + by rewrite lookup_alter_eq.
    + destruct (d !! i); [|done]. simpl. by rewrite add_assignments_nil.
  - destruct (decide _).
    + rewrite lookup_alter_ne by done.
      destruct (d !! i); [|done]. simpl. by rewrite add_assignments_nil.
    + destruct (d !! i); [|done]. simpl. by rewrite add_assignments_nil.
Qed.

(** The extraction loop appends to [student_info_dicts[i]['assignments']]
    the name of every activity whose variable is 1, period by period. *)
Lemma STEP8_extract_lookup student_info_dicts i :
  i < NUM_STUDENTS →
  STEP8_extract NUM_STUDENTS sol student_info_dicts !! i
  = add_assignments (picked sol i) <$> student_info_dicts !! i.
Proof.
  intros Hi. unfold STEP8_extract, picked. cbv zeta.
  apply (foldl_extend
    (λ period d,
      foldl (λ d i',
        foldl (λ d j,
          extract_body sol (decision_vars_list NUM_STUDENTS) period i' j d)
          d (seq 0 NUM_ACTIVITIES)) d (seq 0 NUM_STUDENTS))).
  intros p d Hp. apply in_seq_0 in Hp.
  rewrite (foldl_extend
    (λ i' d, foldl (λ d j,
       extract_body sol (decision_vars_list NUM_STUDENTS) p i' j d)
       d (seq 0 NUM_ACTIVITIES))
    (λ i', if decide (i' = i)
           then (λ j, activities_dict_reverse !!! j) <$> ones sol p i
           else [])).
  - rewrite bind_only; [done|apply NoDup_seq|by apply in_seq_0].
  - intros i' d' Hi'. apply in_seq_0 in Hi'.
    rewrite (foldl_extend
      (λ j d, extract_body sol (decision_vars_list NUM_STUDENTS) p i' j d)
      (λ j, if decide (i' = i)
            then if decide (varValue sol (decision_var p i j) = 1%Z)
                 then [activities_dict_reverse !!! j] else []
            else [])).
    + destruct (decide (i' = i)).
      * unfold ones. by rewrite <- bind_if_filter.
      * by rewrite bind_nil_const.
    + intros j d'' Hj. apply in_seq_0 in Hj.
      by apply extract_body_lookup.
Qed.
End ExtractionFacts.

(** ** Membership of the constraints in the problem *)

Ltac bind_elem a :=
  apply list_elem_of_bind; exists a; split; [|by apply in_seq_0].

Lemma filter_ext_in {A} (P Q : A → Prop) `{∀ x, Decision (P x)}
    `{∀ x, Decision (Q x)} (l : list A) :
  (∀ x, x ∈ l → P x ↔ Q x) → filter P l = filter Q l.
Proof.
  induction l as [|a l IH]; intros HPQ; [done|].
  assert (P a ↔ Q a) as Ha by (apply HPQ; by left).
  rewrite !filter_cons, IH by (intros; apply HPQ; by right).
  destruct (decide (P a)), (decide (Q a)); tauto.
Qed.

Section Loaded.
Variable student_choice_data : list (list string).
Variable student_info_dicts : gmap nat student_info.
Hypothesis Hload : STEP3 student_choice_data = Ok student_info_dicts.

Local Abbreviation NUM_STUDENTS := (length student_choice_data).
Local Abbreviation problem := (prob NUM_STUDENTS student_info_dicts).
Local Abbreviation name_of j := (activities_dict_reverse !!! j).

(** What STEP 3 has stored for student [i]. *)
Lemma loaded i :
  i < NUM_STUDENTS →
  ∃ first_name last_name choice1 choice2 choice3 choice4 n1 n2 n3 n4,
    student_choice_data !! i
    = Some [first_name; last_name; choice1; choice2; choice3; choice4] ∧
    student_info_dicts !! i
    = Some (mkStudent [n1; n2; n3; n4]
              [choice1; choice2; choice3; choice4]
              (String.append last_name (String.append ", " first_name)) []) ∧
    (n1 < NUM_ACTIVITIES ∧ name_of n1 = choice1) ∧
    (n2 < NUM_ACTIVITIES ∧ name_of n2 = choice2) ∧
    (n3 < NUM_ACTIVITIES ∧ name_of n3 = choice3) ∧
    (n4 < NUM_ACTIVITIES ∧ name_of n4 = choice4).
Proof.
  intros Hi. destruct (lookup_lt_is_Some_2 _ _ Hi) as [row Hrow].
  destruct (STEP3_lookup _ _ _ _ Hload Hrow) as (d & Hd & Hr).
  apply student_of_row_Ok in Hr
    as (f & l & c1 & c2 & c3 & c4 & n1 & n2 & n3 & n4 & -> & -> & H1 & H2 & H3 & H4).
  exists f, l, c1, c2, c3, c4, n1, n2, n3, n4.
  do 2 (split; [done|]).
  repeat (split; [by apply activities_dict_Some|]).
  by apply activities_dict_Some.
Qed.

Lemma choices_valid i j :
  i < NUM_STUDENTS → j ∈ choices (student_info_dicts !!! i) →
  j < NUM_ACTIVITIES.
Proof.
  intros Hi Hj.
  destruct (loaded i Hi)
    as (f & l & c1 & c2 & c3 & c4 & n1 & n2 & n3 & n4 & _ & Hd & H1 & H2 & H3 & H4).
  rewrite lookup_total_alt, Hd in Hj. simpl in Hj.
  rewrite !elem_of_cons, elem_of_nil in Hj.
  destruct Hj as [->|[->|[->|[->|[]]]]]; tauto.
Qed.

Lemma CONSTRAINT_1_elem period i :
  period < NUM_PERIODS → i < NUM_STUDENTS →
  mkLpConstraint (lpSum (decision_var period i <$> seq 0 NUM_ACTIVITIES))
    LpConstraintEQ 1 ∈ constraints problem.
Proof.
  intros Hp Hi. unfold prob. cbn [constraints].
  rewrite CONSTRAINT_1_eq, !elem_of_app. left.
  bind_elem period. bind_elem i. by apply list_elem_of_singleton.
Qed.

Lemma CONSTRAINT_2_elem i j :
  i < NUM_STUDENTS → j < NUM_ACTIVITIES →
  mkLpConstraint
    (lpSum ((λ period, decision_var period i j) <$> seq 0 NUM_PERIODS))
    LpConstraintLE 1 ∈ constraints problem.
Proof.
  intros Hi Hj. unfold prob. cbn [constraints].
  rewrite CONSTRAINT_2_eq, !elem_of_app. right; left.
  bind_elem i. bind_elem j. by apply list_elem_of_singleton.
Qed.

Lemma CONSTRAINT_3_elem period j :
  period < NUM_PERIODS → j < NUM_ACTIVITIES →
  mkLpConstraint
    (lpSum ((λ i, decision_var period i j) <$> seq 0 NUM_STUDENTS))
    LpConstraintGE MIN_NUM_IN_ACTIVITY ∈ constraints problem.
Proof.
  intros Hp Hj. unfold prob. cbn [constraints].
  rewrite CONSTRAINT_3_eq, !elem_of_app. right; right; left.
  bind_elem period. bind_elem j. by apply list_elem_of_singleton.
Qed.

Lemma CONSTRAINT_4_elem period j :
  period < NUM_PERIODS → j < NUM_ACTIVITIES →
  mkLpConstraint
    (lpSum ((λ i, decision_var period i j) <$> seq 0 NUM_STUDENTS))
    LpConstraintLE MAX_NUM_IN_ACTIVITY ∈ constraints problem.
Proof.
  intros Hp Hj. unfold prob. cbn [constraints].
  rewrite CONSTRAINT_4_eq, !elem_of_app. right; right; right; left.
  bind_elem period. bind_elem j. by apply list_elem_of_singleton.
Qed.

Lemma CONSTRAINT_5_elem i :
  i < NUM_STUDENTS →
  mkLpConstraint
    (lpSum (period ← seq 0 NUM_PERIODS;
            j ← choices (student_info_dicts !!! i);
            [decision_var period i j]))
    LpConstraintEQ 3 ∈ constraints problem.
Proof.
  intros Hi. unfold prob. cbn [constraints].
  rewrite CONSTRAINT_5_eq by apply choices_valid.
  rewrite !elem_of_app. right; right; right; right.
  bind_elem i. by apply list_elem_of_singleton.
Qed.
End Loaded.

(** ** What a feasible solution satisfies *)

Section Feasible.
Variable student_choice_data : list (list string).
Variable student_info_dicts : gmap nat student_info.
Hypothesis Hload : STEP3 student_choice_data = Ok student_info_dicts.
Variable sol : Solution.

Local Abbreviation NUM_STUDENTS := (length student_choice_data).
Local Abbreviation problem := (prob NUM_STUDENTS student_info_dicts).
Local Abbreviation name_of j := (activities_dict_reverse !!! j).
Local Abbreviation val p i j := (varValue sol (decision_var p i j)).

Hypothesis Hfeas : feasible problem sol.

Lemma feasible_holds c : c ∈ constraints problem → holds sol c.
Proof. destruct Hfeas as [H _]. rewrite Forall_forall in H. apply H. Qed.

Lemma feasible_binary period i j :
  period < NUM_PERIODS → i < NUM_STUDENTS → j < NUM_ACTIVITIES →
  (0 ≤ val period i j ≤ 1)%Z.
Proof.
  intros Hp Hi Hj. destruct Hfeas as [_ H]. rewrite Forall_forall in H.
  apply (H (decision_var period i j)). unfold variables.
  apply elem_of_app. left. apply list_elem_of_bind.
  eexists. split; [|by apply (CONSTRAINT_1_elem _ _ period i)].
  cbn [c_expr]. unfold lpSum. rewrite <- !list_fmap_compose.
  apply list_elem_of_fmap. exists j. split; [done|by apply in_seq_0].
Qed.

Lemma feasible_exclusive period i :
  period < NUM_PERIODS → i < NUM_STUDENTS →
  Zsum ((λ j, val period i j) <$> seq 0 NUM_ACTIVITIES) = 1%Z.
Proof.
  intros Hp Hi.
  pose proof (feasible_holds _ (CONSTRAINT_1_elem _ _ period i Hp Hi)) as H.
  unfold holds in H. cbn [c_sense c_expr c_rhs] in H.
  by rewrite value_lpSum, <- list_fmap_compose in H.
Qed.

Lemma feasible_no_repeat i j :
  i < NUM_STUDENTS → j < NUM_ACTIVITIES →
  (Zsum ((λ period, val period i j) <$> seq 0 NUM_PERIODS) ≤ 1)%Z.
Proof.
  intros Hi Hj.
  pose proof (feasible_holds _ (CONSTRAINT_2_elem _ _ i j Hi Hj)) as H.
  unfold holds in H. cbn [c_sense c_expr c_rhs] in H.
  by rewrite value_lpSum, <- list_fmap_compose in H.
Qed.

Lemma feasible_capacity period j :
  period < NUM_PERIODS → j < NUM_ACTIVITIES →
  (MIN_NUM_IN_ACTIVITY
     ≤ Zsum ((λ i, val period i j) <$> seq 0 NUM_STUDENTS)
     ≤ MAX_NUM_IN_ACTIVITY)%Z.
Proof.
  intros Hp Hj.
  pose proof (feasible_holds _ (CONSTRAINT_3_elem _ _ period j Hp Hj)) as H3.
  pose proof (feasible_holds _ (CONSTRAINT_4_elem _ _ period j Hp Hj)) as H4.
  unfold holds in H3, H4. cbn [c_sense c_expr c_rhs] in H3, H4.
  rewrite value_lpSum, <- list_fmap_compose in H3, H4. by split.
Qed.

Lemma feasible_preference i :
  i < NUM_STUDENTS →
  Zsum (varValue sol <$>
          (period ← seq 0 NUM_PERIODS;
           j ← choices (student_info_dicts !!! i);
           [decision_var period i j])) = 3%Z.
Proof.
  intros Hi.
  pose proof (feasible_holds _ (CONSTRAINT_5_elem _ _ Hload i Hi)) as H.
  unfold holds in H. cbn [c_sense c_expr c_rhs] in H.
  by rewrite value_lpSum in H.
Qed.

Lemma elem_of_ones period i j :
  j ∈ ones sol period i ↔ val period i j = 1%Z ∧ j < NUM_ACTIVITIES.
Proof. unfold ones. by rewrite list_elem_of_filter, in_seq_0. Qed.

(** Exactly one variable of a student is 1 in each period. *)
Lemma feasible_ones period i :
  period < NUM_PERIODS → i < NUM_STUDENTS →
  ∃ j, ones sol period i = [j].
Proof.
  intros Hp Hi. apply (Zsum_one_singleton (λ j, val period i j)).
  - intros j Hj. apply in_seq_0 in Hj. by apply feasible_binary.
  - by apply feasible_exclusive.
Qed.

Lemma feasible_picked i :
  i < NUM_STUDENTS →
  ∃ j0 j1 j2,
    ones sol 0 i = [j0] ∧ ones sol 1 i = [j1] ∧ ones sol 2 i = [j2] ∧
    picked sol i = [name_of j0; name_of j1; name_of j2].
Proof.
  intros Hi.
  destruct (feasible_ones 0 i) as [j0 H0]; [unfold NUM_PERIODS; lia|done|].
  destruct (feasible_ones 1 i) as [j1 H1]; [unfold NUM_PERIODS; lia|done|].
  destruct (feasible_ones 2 i) as [j2 H2]; [unfold NUM_PERIODS; lia|done|].
  exists j0, j1, j2. do 3 (split; [done|]).
  unfold picked. change (seq 0 NUM_PERIODS) with [0; 1; 2].
  rewrite !bind_cons, H0, H1, H2. done.
Qed.

(** The extracted record of student [i]. *)
Lemma feasible_extract i :
  i < NUM_STUDENTS →
  ∃ d j0 j1 j2,
    student_info_dicts !! i = Some d ∧ assignments d = [] ∧
    ones sol 0 i = [j0] ∧ ones sol 1 i = [j1] ∧ ones sol 2 i = [j2] ∧
    STEP8_extract NUM_STUDENTS sol student_info_dicts !!! i
    = mkStudent (choices d) (choices_full_names d) (name d)
        [name_of j0; name_of j1; name_of j2].
Proof.
  intros Hi.
  destruct (loaded _ _ Hload i Hi)
    as (f & l & c1 & c2 & c3 & c4 & n1 & n2 & n3 & n4 & _ & Hd & _).
  destruct (feasible_picked i Hi) as (j0 & j1 & j2 & H0 & H1 & H2 & Hp).
  eexists _, j0, j1, j2. split; [exact Hd|]. split; [done|].
  do 3 (split; [done|]).
  rewrite lookup_total_alt, STEP8_extract_lookup, Hd, Hp by done. done.
Qed.

(** A variable is 1 exactly for the activity extracted in its period. *)
Lemma val_singleton period i j j' :
  period < NUM_PERIODS → i < NUM_STUDENTS → j < NUM_ACTIVITIES →
  ones sol period i = [j'] →
  (val period i j = 1%Z ↔ j = j') ∧ (j ≠ j' → val period i j = 0%Z).
Proof.
  intros Hp Hi Hj Ho.
  pose proof (elem_of_ones period i j) as E. rewrite Ho in E.
  rewrite list_elem_of_singleton in E.
  pose proof (feasible_binary period i j Hp Hi Hj).
  split; [tauto|]. intros Hne.
  destruct (decide (val period i j = 1%Z)); [|lia]. tauto.
Qed.

Lemma ones_lt period i j :
  ones sol period i = [j] → j < NUM_ACTIVITIES ∧ val period i j = 1%Z.
Proof.
  intros Ho. pose proof (elem_of_ones period i j) as E. rewrite Ho in E.
  rewrite list_elem_of_singleton in E. tauto.
Qed.

(** No activity is extracted for two periods of one student. *)
Lemma feasible_distinct i p q jp jq :
  i < NUM_STUDENTS → p < NUM_PERIODS → q < NUM_PERIODS → p ≠ q →
  ones sol p i = [jp] → ones sol q i = [jq] → jp ≠ jq.
Proof.
  intros Hi Hp Hq Hpq Hjp Hjq ->.
  apply ones_lt in Hjp as [Hlt Hvp]. apply ones_lt in Hjq as [_ Hvq].
  pose proof (feasible_no_repeat i jq Hi Hlt) as Hs.
  pose proof (feasible_binary 0 i jq).
  pose proof (feasible_binary 1 i jq).
  pose proof (feasible_binary 2 i jq).
  change (seq 0 NUM_PERIODS) with [0; 1; 2] in Hs.
  rewrite !fmap_cons, !Zsum_cons in Hs. unfold NUM_PERIODS in *.
  change (Zsum (_ <$> [])) with 0%Z in Hs.
  destruct p as [|[|[|?]]], q as [|[|[|?]]]; try lia.
Qed.

(** Whether a choice was obtained is the sum of its three variables. *)
Lemma got_val i n j0 j1 j2 :
  i < NUM_STUDENTS → n < NUM_ACTIVITIES →
  ones sol 0 i = [j0] → ones sol 1 i = [j1] → ones sol 2 i = [j2] →
  Z.of_nat (got (name_of n) [name_of j0; name_of j1; name_of j2])
  = (val 0 i n + (val 1 i n + (val 2 i n + 0)))%Z.
Proof.
  intros Hi Hn H0 H1 H2.
  assert (0 < NUM_PERIODS ∧ 1 < NUM_PERIODS ∧ 2 < NUM_PERIODS)
    as (Hp0 & Hp1 & Hp2) by (unfold NUM_PERIODS; lia).
  destruct (val_singleton 0 i n j0 Hp0 Hi Hn H0) as [E0 Z0].
  destruct (val_singleton 1 i n j1 Hp1 Hi Hn H1) as [E1 Z1].
  destruct (val_singleton 2 i n j2 Hp2 Hi Hn H2) as [E2 Z2].
  pose proof (feasible_binary 0 i n Hp0 Hi Hn).
  pose proof (feasible_binary 1 i n Hp1 Hi Hn).
  pose proof (feasible_binary 2 i n Hp2 Hi Hn).
  pose proof (feasible_no_repeat i n Hi Hn) as Hs.
  change (seq 0 NUM_PERIODS) with [0; 1; 2] in Hs.
  rewrite !fmap_cons, !Zsum_cons in Hs.
  change (Zsum (_ <$> [])) with 0%Z in Hs.
  apply ones_lt in H0 as [L0 _], H1 as [L1 _], H2 as [L2 _].
  unfold got. destruct (decide _) as [Hin|Hnin].
  - rewrite !elem_of_cons, elem_of_nil in Hin.
    destruct Hin as [E|[E|[E|[]]]];
      apply activities_dict_reverse_inj in E; try done;
      [apply E0 in E|apply E1 in E|apply E2 in E]; simpl; lia.
  - rewrite !not_elem_of_cons in Hnin. destruct Hnin as (N0 & N1 & N2 & _).
    rewrite Z0, Z1, Z2 by congruence. done.
Qed.
End Feasible.

(** ** The reference inputs are well formed *)

Lemma Rotation_load :
  STEP3 Rotation.student_choice_data = Ok Rotation.student_info_dicts.
Proof. by vm_compute. Qed.

Lemma Rotation_length : length Rotation.student_choice_data = 55.
Proof. reflexivity. Qed.

Lemma Rotation_feasible :
  feasible (prob (length Rotation.student_choice_data)
              Rotation.student_info_dicts) Rotation.solution.
Proof. apply (bool_decide_unpack _). by vm_compute. Qed.

(** * The model *)

(** C3.  For every period and student the problem contains the equality
    constraint "the sum over all activities of the student's variables in
    that period is 1"; this holds of every problem that is built, whether
    or not it has a feasible solution.  Hence, for any feasible (in
    particular any optimal) solution of the problem of a loaded data set,
    the extracted assignment of every student has one entry per period, and
    the entry of a period names the one activity whose variable is 1 for
    the student in that period. *)
Theorem per_period_exclusivity student_choice_data student_info_dicts
    period i :
  period < NUM_PERIODS → i < length student_choice_data →
  mkLpConstraint (lpSum (decision_var period i <$> seq 0 NUM_ACTIVITIES))
    LpConstraintEQ 1
    ∈ constraints (prob (length student_choice_data) student_info_dicts)
  ∧ ∀ sol,
      STEP3 student_choice_data = Ok student_info_dicts →
      feasible (prob (length student_choice_data) student_info_dicts) sol →
      let assigned :=
        assignments (STEP8_extract (length student_choice_data) sol
                       student_info_dicts !!! i) in
      length assigned = NUM_PERIODS
      ∧ ∃ j, j < NUM_ACTIVITIES
          ∧ (∀ j', j' < NUM_ACTIVITIES →
               varValue sol (decision_var period i j') = 1%Z ↔ j' = j)
          ∧ assigned !! period = Some (activities_dict_reverse !!! j).
Proof.
  intros Hp Hi. split; [by apply CONSTRAINT_1_elem|].
  intros sol Hload Hfeas.
  destruct (feasible_extract _ _ Hload sol Hfeas i Hi)
    as (d & j0 & j1 & j2 & Hd & Ha & H0 & H1 & H2 & ->).
  cbn [assignments]. split; [done|].
  assert (∃ j, ones sol period i = [j] ∧
               [activities_dict_reverse !!! j0; activities_dict_reverse !!! j1;
                activities_dict_reverse !!! j2] !! period
               = Some (activities_dict_reverse !!! j)) as (j & Hj & Hl).
  { unfold NUM_PERIODS in Hp. destruct period as [|[|[|?]]]; eauto; lia. }
  exists j. destruct (ones_lt sol period i j Hj) as [Hlt _].
  split; [done|]. split; [|done].
  intros j' Hj'.
  eapply val_singleton; eauto.
Qed.

Lemma per_period_exclusivity_witness :
  mkLpConstraint (lpSum (decision_var 1 7 <$> seq 0 NUM_ACTIVITIES))
    LpConstraintEQ 1
    ∈ constraints (prob (length Rotation.student_choice_data)
                     Rotation.student_info_dicts)
  ∧ let assigned :=
      assignments (STEP8_extract (length Rotation.student_choice_data)
                     Rotation.solution Rotation.student_info_dicts !!! 7) in
    length assigned = NUM_PERIODS
    ∧ ∃ j, j < NUM_ACTIVITIES
        ∧ (∀ j', j' < NUM_ACTIVITIES →
             varValue Rotation.solution (decision_var 1 7 j') = 1%Z ↔ j' = j)
        ∧ assigned !! 1 = Some (activities_dict_reverse !!! j).
Proof.
  assert (1 < NUM_PERIODS) as Hp by (unfold NUM_PERIODS; lia).
  assert (7 < length Rotation.student_choice_data) as Hi
    by (rewrite Rotation_length; lia).
  destruct (per_period_exclusivity Rotation.student_choice_data
              Rotation.student_info_dicts 1 7 Hp Hi) as [Hm Hs].
  split; [exact Hm|].
  exact (Hs Rotation.solution Rotation_load Rotation_feasible).
Defined.

(** C4.  For every student and activity the problem contains the
    constraint "the sum over all periods of the student's variables for that
    activity is at most 1"; this holds of every problem that is built,
    whether or not it has a feasible solution.  Hence, for any feasible (in
    particular any optimal) solution of the problem of a loaded data set, no
    activity occurs twice in the extracted assignment of a student. *)
Theorem no_repeated_activity student_choice_data student_info_dicts i j :
  i < length student_choice_data → j < NUM_ACTIVITIES →
  mkLpConstraint
    (lpSum ((λ period, decision_var period i j) <$> seq 0 NUM_PERIODS))
    LpConstraintLE 1
    ∈ constraints (prob (length student_choice_data) student_info_dicts)
  ∧ ∀ sol,
      STEP3 student_choice_data = Ok student_info_dicts →
      feasible (prob (length student_choice_data) student_info_dicts) sol →
      NoDup (assignments (STEP8_extract (length student_choice_data) sol
                            student_info_dicts !!! i)).
Proof.
  intros Hi Hj. split; [by apply CONSTRAINT_2_elem|].
  intros sol Hload Hfeas.
  destruct (feasible_extract _ _ Hload sol Hfeas i Hi)
    as (d & j0 & j1 & j2 & Hd & Ha & H0 & H1 & H2 & ->).
  cbn [assignments].
  assert (0 < NUM_PERIODS ∧ 1 < NUM_PERIODS ∧ 2 < NUM_PERIODS)
    as (Hp0 & Hp1 & Hp2) by (unfold NUM_PERIODS; lia).
  assert (j0 ≠ j1) as N01 by (eapply (feasible_distinct _ _ sol Hfeas i 0 1); eauto).
  assert (j0 ≠ j2) as N02 by (eapply (feasible_distinct _ _ sol Hfeas i 0 2); eauto).
  assert (j1 ≠ j2) as N12 by (eapply (feasible_distinct _ _ sol Hfeas i 1 2); eauto).
  apply ones_lt in H0 as [L0 _], H1 as [L1 _], H2 as [L2 _].
  assert (activities_dict_reverse !!! j0 ≠ activities_dict_reverse !!! j1)
    as M01 by (intros E; by apply activities_dict_reverse_inj in E).
  assert (activities_dict_reverse !!! j0 ≠ activities_dict_reverse !!! j2)
    as M02 by (intros E; by apply activities_dict_reverse_inj in E).
  assert (activities_dict_reverse !!! j1 ≠ activities_dict_reverse !!! j2)
    as M12 by (intros E; by apply activities_dict_reverse_inj in E).
  apply NoDup_cons. split.
  { rewrite !not_elem_of_cons. split_and!; [done|done|apply not_elem_of_nil]. }
  apply NoDup_cons. split.
  { rewrite !not_elem_of_cons. split_and!; [done|apply not_elem_of_nil]. }
  apply NoDup_singleton.
Qed.

Lemma no_repeated_activity_witness :
  mkLpConstraint
    (lpSum ((λ period, decision_var period 20 4) <$> seq 0 NUM_PERIODS))
    LpConstraintLE 1
    ∈ constraints (prob (length Rotation.student_choice_data)
                     Rotation.student_info_dicts)
  ∧ NoDup (assignments (STEP8_extract (length Rotation.student_choice_data)
                          Rotation.solution Rotation.student_info_dicts
                        !!! 20)).
Proof.
  assert (20 < length Rotation.student_choice_data) as Hi
    by (rewrite Rotation_length; lia).
  assert (4 < NUM_ACTIVITIES) as Hj by (unfold NUM_ACTIVITIES; simpl; lia).
  destruct (no_repeated_activity Rotation.student_choice_data
              Rotation.student_info_dicts 20 4 Hi Hj) as [Hm Hs].
  split; [exact Hm|].
  exact (Hs Rotation.solution Rotation_load Rotation_feasible).
Defined.

(** C5.  For every period and activity the problem contains the two
    constraints "the sum over all students of the variables of that period
    and activity is at least [MIN_NUM_IN_ACTIVITY]" and "... at most
    [MAX_NUM_IN_ACTIVITY]"; this holds of every problem that is built,
    whether or not it has a feasible solution.  Hence, for any feasible (in
    particular any optimal) solution of the problem of a loaded data set,
    the number of students whose extracted assignment in that period is
    that activity lies between the two bounds. *)
Theorem capacity_bounds student_choice_data student_info_dicts period j :
  period < NUM_PERIODS → j < NUM_ACTIVITIES →
  let vars_to_sum :=
    (λ i, decision_var period i j) <$> seq 0 (length student_choice_data) in
  mkLpConstraint (lpSum vars_to_sum) LpConstraintGE MIN_NUM_IN_ACTIVITY
    ∈ constraints (prob (length student_choice_data) student_info_dicts)
  ∧ mkLpConstraint (lpSum vars_to_sum) LpConstraintLE MAX_NUM_IN_ACTIVITY
    ∈ constraints (prob (length student_choice_data) student_info_dicts)
  ∧ ∀ sol,
      STEP3 student_choice_data = Ok student_info_dicts →
      feasible (prob (length student_choice_data) student_info_dicts) sol →
      (MIN_NUM_IN_ACTIVITY
       ≤ Z.of_nat (attendance (length student_choice_data)
                     (STEP8_extract (length student_choice_data) sol
                        student_info_dicts)
                     period (activities_dict_reverse !!! j))
       ≤ MAX_NUM_IN_ACTIVITY)%Z.
Proof.
  intros Hp Hj. cbv zeta.
  split; [by apply CONSTRAINT_3_elem|]. split; [by apply CONSTRAINT_4_elem|].
  intros sol Hload Hfeas.
  unfold attendance.
  rewrite (filter_ext_in _
             (λ i, varValue sol (decision_var period i j) = 1%Z)).
  - rewrite <- (Zsum_binary_count (λ i, varValue sol (decision_var period i j))).
    + eapply feasible_capacity; eauto.
    + intros i Hi. apply in_seq_0 in Hi. eapply feasible_binary; eauto.
  - intros i Hi. apply in_seq_0 in Hi.
    destruct (feasible_extract _ _ Hload sol Hfeas i Hi)
      as (d & j0 & j1 & j2 & Hd & Ha & H0 & H1 & H2 & ->).
    cbn [assignments].
    assert (∃ j', ones sol period i = [j'] ∧
               [activities_dict_reverse !!! j0; activities_dict_reverse !!! j1;
                activities_dict_reverse !!! j2] !! period
               = Some (activities_dict_reverse !!! j')) as (j' & Hj' & ->).
    { unfold NUM_PERIODS in Hp. destruct period as [|[|[|?]]]; eauto; lia. }
    destruct (ones_lt sol period i j' Hj') as [Hlt Hv].
    destruct (val_singleton _ _ sol Hfeas period i j j' Hp Hi Hj Hj') as [E _].
    rewrite E. split.
    + intros [= Heq]. symmetry. by apply activities_dict_reverse_inj.
    + by intros ->.
Qed.

Lemma capacity_bounds_witness :
  let vars_to_sum :=
    (λ i, decision_var 2 i 9)
      <$> seq 0 (length Rotation.student_choice_data) in
  mkLpConstraint (lpSum vars_to_sum) LpConstraintGE MIN_NUM_IN_ACTIVITY
    ∈ constraints (prob (length Rotation.student_choice_data)
                     Rotation.student_info_dicts)
  ∧ mkLpConstraint (lpSum vars_to_sum) LpConstraintLE MAX_NUM_IN_ACTIVITY
    ∈ constraints (prob (length Rotation.student_choice_data)
                     Rotation.student_info_dicts)
  ∧ (MIN_NUM_IN_ACTIVITY
     ≤ Z.of_nat (attendance (length Rotation.student_choice_data)
                   (STEP8_extract (length Rotation.student_choice_data)
                      Rotation.solution Rotation.student_info_dicts)
                   2%nat (activities_dict_reverse !!! 9%nat))
     ≤ MAX_NUM_IN_ACTIVITY)%Z.
Proof.
  assert (2 < NUM_PERIODS) as Hp by (unfold NUM_PERIODS; lia).
  assert (9 < NUM_ACTIVITIES) as Hj by (unfold NUM_ACTIVITIES; simpl; lia).
  destruct (capacity_bounds Rotation.student_choice_data
              Rotation.student_info_dicts 2 9 Hp Hj) as (Hge & Hle & Hs).
  split; [exact Hge|]. split; [exact Hle|].
  exact (Hs Rotation.solution Rotation_load Rotation_feasible).
Defined.

(** For a feasible solution, three of the four names in a student's
    [choices_full_names] occur in the extracted assignments. *)
Lemma feasible_three_of_four student_choice_data student_info_dicts sol i :
  STEP3 student_choice_data = Ok student_info_dicts →
  feasible (prob (length student_choice_data) student_info_dicts) sol →
  i < length student_choice_data →
  ∃ first_name last_name choice1 choice2 choice3 choice4,
    student_choice_data !! i
    = Some [first_name; last_name; choice1; choice2; choice3; choice4]
    ∧ (λ j, activities_dict_reverse !!! j)
        <$> choices (student_info_dicts !!! i)
      = [choice1; choice2; choice3; choice4]
    ∧ let extracted :=
        STEP8_extract (length student_choice_data) sol student_info_dicts
          !!! i in
      choices_full_names extracted = [choice1; choice2; choice3; choice4]
      ∧ got choice1 (assignments extracted) + got choice2 (assignments extracted)
          + got choice3 (assignments extracted)
          + got choice4 (assignments extracted) = 3.
Proof.
  intros Hload Hfeas Hi.
  destruct (loaded _ _ Hload i Hi)
    as (f & l & c1 & c2 & c3 & c4 & n1 & n2 & n3 & n4 & Hrow & Hd
        & [L1 E1] & [L2 E2] & [L3 E3] & [L4 E4]).
  exists f, l, c1, c2, c3, c4. split; [done|].
  pose proof (feasible_preference _ _ Hload sol Hfeas i Hi) as Hs.
  rewrite (lookup_total_correct _ _ _ Hd).
  rewrite (lookup_total_correct _ _ _ Hd) in Hs.
  cbn [choices] in *. split; [by rewrite !fmap_cons, E1, E2, E3, E4|].
  destruct (feasible_extract _ _ Hload sol Hfeas i Hi)
    as (d & j0 & j1 & j2 & Hd' & Ha & H0 & H1 & H2 & Hex).
  rewrite Hd in Hd'. injection Hd' as <-.
  cbv zeta. rewrite Hex. cbn [assignments choices_full_names].
  split; [done|].
  change (seq 0 NUM_PERIODS) with [0; 1; 2] in Hs.
  rewrite !bind_cons in Hs. simpl in Hs.
  pose proof (got_val _ _ sol Hfeas i n1 j0 j1 j2 Hi L1 H0 H1 H2) as G1.
  pose proof (got_val _ _ sol Hfeas i n2 j0 j1 j2 Hi L2 H0 H1 H2) as G2.
  pose proof (got_val _ _ sol Hfeas i n3 j0 j1 j2 Hi L3 H0 H1 H2) as G3.
  pose proof (got_val _ _ sol Hfeas i n4 j0 j1 j2 Hi L4 H0 H1 H2) as G4.
  rewrite E1 in G1. rewrite E2 in G2. rewrite E3 in G3. rewrite E4 in G4.
  unfold Zsum in Hs. simpl in Hs. lia.
Qed.

(** C1.  For every student of a loaded data set the problem that is
    built contains the equality constraint "the sum, over all periods and
    over the four activities of the student's preference list, of the
    student's variables is 3", whether or not the problem has a feasible
    solution; the four activities are those the student's row names, in
    rank order.  Hence, for any feasible (in particular any optimal)
    solution, exactly three of the student's four ranked choices occur in
    the student's extracted assignment. *)
Theorem preference_satisfaction student_choice_data student_info_dicts i :
  STEP3 student_choice_data = Ok student_info_dicts →
  i < length student_choice_data →
  mkLpConstraint
    (lpSum (period ← seq 0 NUM_PERIODS;
            j ← choices (student_info_dicts !!! i);
            [decision_var period i j]))
    LpConstraintEQ 3
    ∈ constraints (prob (length student_choice_data) student_info_dicts)
  ∧ ∃ first_name last_name choice1 choice2 choice3 choice4,
      student_choice_data !! i
      = Some [first_name; last_name; choice1; choice2; choice3; choice4]
      ∧ (λ j, activities_dict_reverse !!! j)
          <$> choices (student_info_dicts !!! i)
        = [choice1; choice2; choice3; choice4]
      ∧ ∀ sol,
          feasible (prob (length student_choice_data) student_info_dicts)
            sol →
          let assigned :=
            assignments (STEP8_extract (length student_choice_data) sol
                           student_info_dicts !!! i) in
          got choice1 assigned + got choice2 assigned + got choice3 assigned
            + got choice4 assigned = 3.
Proof.
  intros Hload Hi. split; [by apply CONSTRAINT_5_elem|].
  destruct (loaded _ _ Hload i Hi)
    as (f & l & c1 & c2 & c3 & c4 & n1 & n2 & n3 & n4 & Hrow & Hd
        & [_ E1] & [_ E2] & [_ E3] & [_ E4]).
  exists f, l, c1, c2, c3, c4. split; [done|]. split.
  { rewrite lookup_total_alt, Hd. simpl. by rewrite E1, E2, E3, E4. }
  intros sol Hfeas.
  destruct (feasible_three_of_four _ _ sol i Hload Hfeas Hi)
    as (f' & l' & c1' & c2' & c3' & c4' & Hrow' & _ & _ & Hgot).
  rewrite Hrow in Hrow'. by injection Hrow' as <- <- <- <- <- <-.
Qed.

Lemma preference_satisfaction_witness :
  mkLpConstraint
    (lpSum (period ← seq 0 NUM_PERIODS;
            j ← choices (Rotation.student_info_dicts !!! 30);
            [decision_var period 30 j]))
    LpConstraintEQ 3
    ∈ constraints (prob (length Rotation.student_choice_data)
                     Rotation.student_info_dicts)
  ∧ ∃ first_name last_name choice1 choice2 choice3 choice4,
      Rotation.student_choice_data !! 30
      = Some [first_name; last_name; choice1; choice2; choice3; choice4]
      ∧ (λ j, activities_dict_reverse !!! j)
          <$> choices (Rotation.student_info_dicts !!! 30)
        = [choice1; choice2; choice3; choice4]
      ∧ let assigned :=
          assignments (STEP8_extract (length Rotation.student_choice_data)
                         Rotation.solution Rotation.student_info_dicts
                       !!! 30) in
        got choice1 assigned + got choice2 assigned + got choice3 assigned
          + got choice4 assigned = 3.
Proof.
  assert (30 < length Rotation.student_choice_data) as Hi
    by (rewrite Rotation_length; lia).
  destruct (preference_satisfaction Rotation.student_choice_data
              Rotation.student_info_dicts 30 Rotation_load Hi)
    as (Hm & f & l & c1 & c2 & c3 & c4 & Hrow & Hn & Hs).
  split; [exact Hm|].
  exists f, l, c1, c2, c3, c4. split; [exact Hrow|]. split; [exact Hn|].
  exact (Hs Rotation.solution Rotation_feasible).
Defined.

(** ** The objective *)

Lemma concat_bind {A B} (f : A → list (list B)) (l : list A) :
  concat (l ≫= f) = l ≫= (λ x, concat (f x)).
Proof.
  induction l as [|a l IH]; [done|].
  by rewrite !bind_cons, concat_app, IH.
Qed.

Lemma coefficient_notin (e : LpAffineExpression) v :
  v ∉ e.*1 → coefficient e v = 0%Z.
Proof.
  induction e as [|[v' k] e IH]; [done|].
  rewrite fmap_cons, not_elem_of_cons. intros [Hne Hnin]. simpl.
  rewrite decide_False by done. by rewrite IH.
Qed.

Section Objective.
Variable student_choice_data : list (list string).
Variable student_info_dicts : gmap nat student_info.
Hypothesis Hload : STEP3 student_choice_data = Ok student_info_dicts.

Local Abbreviation NUM_STUDENTS := (length student_choice_data).

Lemma objective_eq :
  objective (prob NUM_STUDENTS student_info_dicts) =
  period ← seq 0 NUM_PERIODS; i ← seq 0 NUM_STUDENTS;
  zip (decision_var period i <$> choices (student_info_dicts !!! i)) weights.
Proof.
  unfold prob. cbn [objective]. unfold lpSum_nested.
  rewrite objective_function_parts_eq by (by apply choices_valid).
  unfold LpAffineExpression.
  do 2 rewrite concat_bind. apply bind_ext_in; intros p _.
  do 2 rewrite concat_bind. apply bind_ext_in; intros i Hi.
  apply in_seq_0 in Hi.
  destruct (loaded _ _ Hload i Hi)
    as (f & l & c1 & c2 & c3 & c4 & n1 & n2 & n3 & n4 & _ & Hd & _).
  by rewrite (lookup_total_correct _ _ _ Hd).
Qed.

(** Every term of the objective is a variable of a ranked choice. *)
Lemma objective_terms v :
  v ∈ (objective (prob NUM_STUDENTS student_info_dicts)).*1 →
  ∃ period i j,
    j ∈ choices (student_info_dicts !!! i) ∧ v = decision_var period i j.
Proof.
  rewrite objective_eq. intros Hv.
  apply list_elem_of_fmap in Hv as ([v' k] & -> & Hv).
  apply list_elem_of_bind in Hv as (p & Hv & _).
  apply list_elem_of_bind in Hv as (i & Hv & _).
  apply elem_of_zip_l in Hv.
  apply list_elem_of_fmap in Hv as (j & -> & Hj). by exists p, i, j.
Qed.
End Objective.

(** C6.  The problem maximizes; its objective is the sum, over all periods
    and all students, of the variables of the student's four ranked choices
    weighted 1000, 100, 10 and 1 by rank; a variable of an activity that is
    none of the student's choices has coefficient 0. *)
Theorem objective_weights student_choice_data student_info_dicts period i j :
  STEP3 student_choice_data = Ok student_info_dicts →
  period < NUM_PERIODS → i < length student_choice_data →
  j < NUM_ACTIVITIES → j ∉ choices (student_info_dicts !!! i) →
  let prob := prob (length student_choice_data) student_info_dicts in
  prob_sense prob = LpMaximize
  ∧ weights = [1000; 100; 10; 1]%Z
  ∧ length (choices (student_info_dicts !!! i)) = 4
  ∧ objective prob
    = (period ← seq 0 NUM_PERIODS;
       i ← seq 0 (length student_choice_data);
       zip (decision_var period i <$> choices (student_info_dicts !!! i))
         weights)
  ∧ coefficient (objective prob) (decision_var period i j) = 0%Z.
Proof.
  intros Hload Hp Hi Hj Hnin. cbv zeta.
  split; [done|]. split; [done|]. split.
  { destruct (loaded _ _ Hload i Hi)
      as (f & l & c1 & c2 & c3 & c4 & n1 & n2 & n3 & n4 & _ & Hd & _).
    by rewrite (lookup_total_correct _ _ _ Hd). }
  split; [by apply objective_eq|].
  apply coefficient_notin. intros Hv.
  apply (objective_terms _ _ Hload) in Hv as (p' & i' & j' & Hj' & E).
  apply decision_var_inj in E as (_ & -> & ->). done.
Qed.

Lemma objective_weights_witness :
  let prob :=
    prob (length Rotation.student_choice_data) Rotation.student_info_dicts in
  prob_sense prob = LpMaximize
  ∧ weights = [1000; 100; 10; 1]%Z
  ∧ length (choices (Rotation.student_info_dicts !!! 12)) = 4
  ∧ objective prob
    = (period ← seq 0 NUM_PERIODS;
       i ← seq 0 (length Rotation.student_choice_data);
       zip (decision_var period i
              <$> choices (Rotation.student_info_dicts !!! i)) weights)
  ∧ coefficient (objective prob) (decision_var 0 12 7) = 0%Z.
Proof.
  apply (objective_weights Rotation.student_choice_data
           Rotation.student_info_dicts 0 12 7).
  - exact Rotation_load.
  - unfold NUM_PERIODS. lia.
  - rewrite Rotation_length. lia.
  - unfold NUM_ACTIVITIES. simpl. lia.
  - apply (bool_decide_unpack _). by vm_compute.
Defined.

(** * The run *)

(** The script, stage by stage. *)
Lemma run_unfold solver input :
  run solver input =
  match input !! "student_choices.csv" with
  | None => (Raise (IOError "student_choices.csv"), mkWorld input [] [])
  | Some rows =>
      let student_choice_data := drop 1 rows in
      let NUM_STUDENTS := length student_choice_data in
      match STEP3 student_choice_data with
      | Raise e => (Raise e, mkWorld input [] [])
      | Ok student_info_dicts =>
          let prob := prob NUM_STUDENTS student_info_dicts in
          let solution := solver prob in
          if bool_decide (status solution = 1%Z) then
            let line :=
              print_Z "Objective value:" (value solution (objective prob)) in
            let extracted :=
              STEP8_extract NUM_STUDENTS solution student_info_dicts in
            match STEP8_results NUM_STUDENTS extracted with
            | Raise e => (Raise e, mkWorld input [prob] [line])
            | Ok results =>
                let written :=
                  <["assignment_outputs.csv" := headers :: results]> input in
                if decide (NUM_STUDENTS = 0)
                then (Raise ZeroDivisionError, mkWorld written [prob] [line])
                else (Ok (),
                      mkWorld written [prob]
                        (line :: report (STEP9 NUM_STUDENTS extracted)
                                   NUM_STUDENTS))
            end
          else (Raise (AssertionError "solution not found"),
                mkWorld input [prob] [])
      end
  end.
Proof.
  unfold run, script, mbind, M_bind, read_in_csv_to_list. cbn [files].
  destruct (input !! "student_choices.csv") as [rows|]; [|done].
  cbv zeta. unfold lift at 1.
  destruct (STEP3 (drop 1 rows)) as [dicts|e]; [|done].
  unfold solve, assert. cbn [files solver_requests stdout app].
  destruct (bool_decide _); [|done].
  unfold mret, M_ret, print. cbn [files solver_requests stdout app].
  unfold lift.
  destruct (STEP8_results _ _) as [results|e]; [|done].
  unfold write_list_to_csv, percent. cbn [files solver_requests stdout app].
  destruct (decide (length (drop 1 rows) = 0)); done.
Qed.

(** ** Which exceptions the stages raise *)

Lemma rbind_Raise {A B} (r : result A) (k : A → result B) e :
  rbind r k = Raise e → r = Raise e ∨ ∃ a, r = Ok a ∧ k a = Raise e.
Proof.
  destruct r as [a|e']; simpl; intros H.
  - right. exists a. by split.
  - left. by injection H as ->.
Qed.

Lemma rmapM_Raise {A B} (f : A → result B) l e :
  rmapM f l = Raise e → ∃ x, x ∈ l ∧ f x = Raise e.
Proof.
  induction l as [|x l IH]; [done|]. simpl. intros H.
  apply rbind_Raise in H as [H|(y & Hy & H)].
  - exists x. split; [by left|done].
  - apply rbind_Raise in H as [H|(ys & _ & H)]; [|done].
    destruct (IH H) as (x' & Hin & Hx'). exists x'. split; [by right|done].
Qed.

Lemma rmapM_total {A B} (f : A → result B) l :
  (∀ x, x ∈ l → ∃ y, f x = Ok y) → ∃ ys, rmapM f l = Ok ys.
Proof.
  induction l as [|x l IH]; intros Hf; [by exists []|].
  destruct (Hf x) as [y Hy]; [by left|].
  destruct IH as [ys Hys]; [intros; apply Hf; by right|].
  exists (y :: ys). simpl. by rewrite Hy, Hys.
Qed.

Lemma student_of_row_Raise row e :
  student_of_row row = Raise e → e ≠ ZeroDivisionError.
Proof.
  unfold student_of_row.
  destruct row as [|f [|l [|c1 [|c2 [|c3 [|c4 [|? ?]]]]]]];
    try (by intros [= <-]).
  intros H. apply rbind_Raise in H as [H|(? & _ & H)]; [|done].
  apply rmapM_Raise in H as (c & _ & H). unfold getitem in H.
  destruct (activities_dict !! c); [done|]. by injection H as <-.
Qed.

Lemma STEP3_loop_Raise rows acc e :
  STEP3_loop rows acc = Raise e → e ≠ ZeroDivisionError.
Proof.
  revert acc. induction rows as [|[i row] rows IH]; intros acc H; [done|].
  simpl in H. apply rbind_Raise in H as [H|(d & _ & H)].
  - by eapply student_of_row_Raise.
  - by eapply IH.
Qed.

Lemma result_row_Ok d row :
  result_row d = Ok row →
  ∃ choice1 choice2 choice3 choice4 assignment1 assignment2 assignment3,
    choices_full_names d = [choice1; choice2; choice3; choice4] ∧
    assignments d = [assignment1; assignment2; assignment3] ∧
    row = [name d; choice1; choice2; choice3; choice4;
           assignment1; assignment2; assignment3].
Proof.
  unfold result_row.
  destruct (choices_full_names d) as [|c1 [|c2 [|c3 [|c4 [|? ?]]]]]; try done.
  destruct (assignments d) as [|a1 [|a2 [|a3 [|? ?]]]]; try done.
  intros [= <-]. by eexists _, _, _, _, _, _, _.
Qed.

Lemma result_row_Raise d e : result_row d = Raise e → e = ValueError.
Proof.
  unfold result_row.
  destruct (choices_full_names d) as [|c1 [|c2 [|c3 [|c4 [|? ?]]]]];
    try (by intros [= <-]).
  destruct (assignments d) as [|a1 [|a2 [|a3 [|? ?]]]];
    by intros [= <-].
Qed.

(** With four choice names, the unpacking of the assignments decides. *)
Lemma result_row_length d c1 c2 c3 c4 :
  choices_full_names d = [c1; c2; c3; c4] →
  (∃ row, result_row d = Ok row) ↔ length (assignments d) = NUM_PERIODS.
Proof.
  intros Hc. unfold result_row. rewrite Hc. unfold NUM_PERIODS.
  destruct (assignments d) as [|a1 [|a2 [|a3 [|? ?]]]]; simpl;
    split; try done; try (by intros [? ?]); eauto.
Qed.

Lemma STEP8_results_Ok NUM_STUDENTS d results :
  STEP8_results NUM_STUDENTS d = Ok results →
  length results = NUM_STUDENTS ∧
  ∀ i, i < NUM_STUDENTS →
    ∃ row, results !! i = Some row ∧ result_row (d !!! i) = Ok row.
Proof.
  intros H. unfold STEP8_results in H.
  pose proof (rmapM_length _ _ _ H) as Hlen. rewrite length_seq in Hlen.
  split; [done|]. intros i Hi. apply rmapM_Ok in H.
  destruct (Forall2_lookup_l _ _ _ i i H) as (row & Hrow & Hr);
    [by apply lookup_seq_lt|]. by exists row.
Qed.

Lemma STEP8_results_Raise NUM_STUDENTS d e :
  STEP8_results NUM_STUDENTS d = Raise e →
  e = ValueError ∧ ∃ i, i < NUM_STUDENTS ∧ result_row (d !!! i) = Raise ValueError.
Proof.
  intros H. apply rmapM_Raise in H as (i & Hi & H). apply in_seq_0 in Hi.
  pose proof (result_row_Raise _ _ H) as ->. eauto.
Qed.


(** ** Extraction and validation over a whole run *)

Lemma length_bind_fmap {A B C} (f : B → C) (g : A → list B) (l : list A) :
  length (x ← l; f <$> g x) = length (l ≫= g).
Proof.
  induction l as [|a l IH]; [done|].
  by rewrite !bind_cons, !length_app, length_fmap, IH.
Qed.

Lemma length_picked sol i : length (picked sol i) = num_ones sol i.
Proof. unfold picked, num_ones. apply length_bind_fmap. Qed.

(** The record of student [i] after STEP 8, for any solver answer. *)
Lemma extract_loaded student_choice_data student_info_dicts sol i :
  STEP3 student_choice_data = Ok student_info_dicts →
  i < length student_choice_data →
  ∃ first_name last_name choice1 choice2 choice3 choice4 ids,
    student_choice_data !! i
    = Some [first_name; last_name; choice1; choice2; choice3; choice4] ∧
    STEP8_extract (length student_choice_data) sol student_info_dicts !!! i
    = mkStudent ids [choice1; choice2; choice3; choice4]
        (String.append last_name (String.append ", " first_name))
        (picked sol i).
Proof.
  intros Hload Hi.
  destruct (loaded _ _ Hload i Hi)
    as (f & l & c1 & c2 & c3 & c4 & n1 & n2 & n3 & n4 & Hrow & Hd & _).
  exists f, l, c1, c2, c3, c4, [n1; n2; n3; n4]. split; [done|].
  by rewrite lookup_total_alt, STEP8_extract_lookup, Hd.
Qed.

Lemma feasible_nonempty (student_choice_data : list (list string))
    student_info_dicts sol :
  feasible (prob (length student_choice_data) student_info_dicts) sol →
  length student_choice_data ≠ 0.
Proof.
  intros Hfeas Hz.
  assert (0 < NUM_PERIODS) as Hp by (unfold NUM_PERIODS; lia).
  assert (0 < NUM_ACTIVITIES) as Hj by (unfold NUM_ACTIVITIES; simpl; lia).
  pose proof (feasible_capacity _ _ sol Hfeas 0 0 Hp Hj) as [H _].
  rewrite Hz in H. unfold MIN_NUM_IN_ACTIVITY in H. simpl in H. lia.
Qed.

Lemma feasible_results student_choice_data student_info_dicts sol :
  STEP3 student_choice_data = Ok student_info_dicts →
  feasible (prob (length student_choice_data) student_info_dicts) sol →
  ∃ results,
    STEP8_results (length student_choice_data)
      (STEP8_extract (length student_choice_data) sol student_info_dicts)
    = Ok results.
Proof.
  intros Hload Hfeas. apply rmapM_total. intros i Hi. apply in_seq_0 in Hi.
  destruct (extract_loaded _ _ sol i Hload Hi)
    as (f & l & c1 & c2 & c3 & c4 & ids & _ & Hex).
  destruct (feasible_picked _ _ sol Hfeas i Hi) as (j0 & j1 & j2 & _ & _ & _ & Hp).
  rewrite Hex, Hp. by eexists.
Qed.

(** Membership in the assignments does not depend on their order. *)
Lemma got_Permutation choice (a a' : list string) :
  a ≡ₚ a' → got choice a = got choice a'.
Proof.
  intros Hp. unfold got.
  assert (choice ∈ a ↔ choice ∈ a') as E by (by rewrite Hp).
  destruct (decide (choice ∈ a)), (decide (choice ∈ a')); tauto.
Qed.

Lemma STEP9_three_of_four NUM_STUDENTS (d : gmap nat student_info) :
  (∀ i, i < NUM_STUDENTS →
     ∃ c1 c2 c3 c4,
       choices_full_names (d !!! i) = [c1; c2; c3; c4] ∧
       got c1 (assignments (d !!! i)) + got c2 (assignments (d !!! i))
         + got c3 (assignments (d !!! i)) + got c4 (assignments (d !!! i))
       = 3) →
  total_got_3_of_4 (STEP9 NUM_STUDENTS d) = NUM_STUDENTS.
Proof.
  intros H. unfold STEP9.
  assert (∀ l t, (∀ i, i ∈ l → i < NUM_STUDENTS) →
            total_got_3_of_4
              (foldl (λ t i, STEP9_body (d !!! i) t) t l)
            = total_got_3_of_4 t + length l) as Hfold.
  { induction l as [|i l IH]; intros t Hl; [simpl; lia|].
    simpl foldl. rewrite IH by (intros; apply Hl; by right).
    destruct (H i) as (c1 & c2 & c3 & c4 & Hc & Hg); [apply Hl; by left|].
    unfold STEP9_body. rewrite Hc. cbn [total_got_3_of_4].
    rewrite decide_True by done. simpl length. lia. }
  rewrite Hfold by (intros i; by rewrite in_seq_0).
  simpl. by rewrite length_seq.
Qed.

Lemma percent_all n :
  n ≠ 0 →
  (inject_Z (Z.of_nat n) / inject_Z (Z.of_nat n) * 100 == 100)%Q.
Proof.
  intros Hn. field. intros H. unfold Qeq in H. simpl in H. lia.
Qed.

(** A run whose solver answers "optimal" with a feasible solution goes
    through every stage. *)
Lemma run_optimal_feasible solver input rows student_choice_data
    student_info_dicts :
  input !! "student_choices.csv" = Some rows →
  student_choice_data = drop 1 rows →
  STEP3 student_choice_data = Ok student_info_dicts →
  let NUM_STUDENTS := length student_choice_data in
  let prob := prob NUM_STUDENTS student_info_dicts in
  status (solver prob) = LpStatusOptimal →
  feasible prob (solver prob) →
  let extracted :=
    STEP8_extract NUM_STUDENTS (solver prob) student_info_dicts in
  ∃ results,
    STEP8_results NUM_STUDENTS extracted = Ok results ∧
    run solver input
    = (Ok (),
       mkWorld (<["assignment_outputs.csv" := headers :: results]> input)
         [prob]
         (print_Z "Objective value:" (value (solver prob) (objective prob))
            :: report (STEP9 NUM_STUDENTS extracted) NUM_STUDENTS)).
Proof.
  intros Hin -> Hload NUM_STUDENTS pb Hst Hfeas extracted.
  subst NUM_STUDENTS pb extracted.
  destruct (feasible_results _ _ _ Hload Hfeas) as [results Hres].
  exists results. split; [done|].
  rewrite run_unfold, Hin. cbv zeta. rewrite Hload. cbv beta iota.
  rewrite bool_decide_eq_true_2 by done. cbv beta iota.
  rewrite Hres. cbv beta iota.
  rewrite decide_False; [done|]. by eapply feasible_nonempty.
Qed.

Lemma Rotation_input :
  Rotation.input !! "student_choices.csv" = Some Rotation.csv.
Proof. apply lookup_singleton_eq. Qed.

(** * The output *)




(** C10.  A run that gets as far as writing the output file (it ends
    normally, or fails only in the percentages of STEP 9, which come after
    the file is written) writes a header row of 9 column names, the last of
    which is 'assignment4', followed by exactly one row per student, in the
    order of the input.  The row of a student holds the student's name, the
    four choices of the student's input row and the three extracted
    assignments, 8 fields in all: the header is one column longer than every
    data row. *)
Theorem header_one_column_longer solver input :
  fst (run solver input) = Ok ()
  ∨ fst (run solver input) = Raise ZeroDivisionError →
  ∃ rows student_info_dicts header results,
    input !! "student_choices.csv" = Some rows
    ∧ STEP3 (drop 1 rows) = Ok student_info_dicts
    ∧ files (snd (run solver input)) !! "assignment_outputs.csv"
      = Some (header :: results)
    ∧ header = headers
    ∧ length header = 9
    ∧ header !! 8 = Some "assignment4"
    ∧ length results = length (drop 1 rows)
    ∧ (∀ i, i < length (drop 1 rows) →
         ∃ first_name last_name choice1 choice2 choice3 choice4
           assignment1 assignment2 assignment3,
           drop 1 rows !! i
           = Some [first_name; last_name; choice1; choice2; choice3; choice4]
           ∧ picked (solver (prob (length (drop 1 rows)) student_info_dicts))
               i
             = [assignment1; assignment2; assignment3]
           ∧ results !! i
             = Some [String.append last_name (String.append ", " first_name);
                     choice1; choice2; choice3; choice4;
                     assignment1; assignment2; assignment3])
    ∧ Forall (λ row, length row = 8) results
    ∧ Forall (λ row, length header = S (length row)) results.
Proof.
  rewrite run_unfold.
  destruct (input !! "student_choices.csv") as [rows|];
    [|by intros [[=]|[=]]].
  cbv zeta. destruct (STEP3 (drop 1 rows)) as [dicts|e] eqn:Hload.
  2: { intros [[=]|[= ->]]. unfold STEP3 in Hload.
       by apply STEP3_loop_Raise in Hload. }
  destruct (bool_decide _); [|by intros [[=]|[=]]].
  destruct (STEP8_results _ _) as [results|e] eqn:Hres.
  2: { apply STEP8_results_Raise in Hres as [-> _]. by intros [[=]|[=]]. }
  intros _. exists rows, dicts, headers, results.
  apply STEP8_results_Ok in Hres as [Hlen Hres].
  assert (∀ i, i < length (drop 1 rows) →
            ∃ first_name last_name choice1 choice2 choice3 choice4
              assignment1 assignment2 assignment3,
              drop 1 rows !! i
              = Some [first_name; last_name; choice1; choice2; choice3;
                      choice4]
              ∧ picked (solver (prob (length (drop 1 rows)) dicts)) i
                = [assignment1; assignment2; assignment3]
              ∧ results !! i
                = Some [String.append last_name
                          (String.append ", " first_name);
                        choice1; choice2; choice3; choice4;
                        assignment1; assignment2; assignment3]) as Hrow.
  { intros i Hi. destruct (Hres i Hi) as (row & Hi' & Hr).
    destruct (extract_loaded _ _ (solver (prob (length (drop 1 rows)) dicts))
                i Hload Hi)
      as (f & l & c1 & c2 & c3 & c4 & ids & Hin & Hex).
    rewrite Hex in Hr.
    apply result_row_Ok in Hr
      as (c1' & c2' & c3' & c4' & a1 & a2 & a3 & Hc & Ha & ->).
    cbn [choices_full_names assignments name] in Hc, Ha.
    injection Hc as <- <- <- <-.
    by exists f, l, c1, c2, c3, c4, a1, a2, a3. }
  assert (Forall (λ row : list string, length row = 8) results) as Hrows.
  { apply Forall_lookup. intros i row Hi.
    assert (i < length (drop 1 rows)) as Hlt
      by (rewrite <- Hlen; by eapply lookup_lt_Some).
    destruct (Hrow i Hlt)
      as (f & l & c1 & c2 & c3 & c4 & a1 & a2 & a3 & _ & _ & Hi').
    rewrite Hi in Hi'. by injection Hi' as ->. }
  do 2 (split; [done|]). split.
  { destruct (decide _); cbn [snd files]; by rewrite lookup_insert_eq. }
  do 3 (split; [done|]). split; [done|]. split; [done|]. split; [done|].
  eapply Forall_impl; [exact Hrows|]. intros row ->. done.
Qed.

Lemma header_one_column_longer_witness :
  ∃ rows student_info_dicts header results,
    Rotation.input !! "student_choices.csv" = Some rows
    ∧ STEP3 (drop 1 rows) = Ok student_info_dicts
    ∧ files (snd (run Rotation.solver Rotation.input))
        !! "assignment_outputs.csv"
      = Some (header :: results)
    ∧ header = headers
    ∧ length header = 9
    ∧ header !! 8 = Some "assignment4"
    ∧ length results = length (drop 1 rows)
    ∧ (∀ i, i < length (drop 1 rows) →
         ∃ first_name last_name choice1 choice2 choice3 choice4
           assignment1 assignment2 assignment3,
           drop 1 rows !! i
           = Some [first_name; last_name; choice1; choice2; choice3; choice4]
           ∧ picked (Rotation.solver
                       (prob (length (drop 1 rows)) student_info_dicts)) i
             = [assignment1; assignment2; assignment3]
           ∧ results !! i
             = Some [String.append last_name (String.append ", " first_name);
                     choice1; choice2; choice3; choice4;
                     assignment1; assignment2; assignment3])
    ∧ Forall (λ row, length row = 8) results
    ∧ Forall (λ row, length header = S (length row)) results.
Proof.
  apply (header_one_column_longer Rotation.solver Rotation.input).
  left.
  destruct (run_optimal_feasible Rotation.solver Rotation.input Rotation.csv
              Rotation.student_choice_data Rotation.student_info_dicts
              Rotation_input eq_refl Rotation_load eq_refl Rotation_feasible)
    as (results & _ & ->).
  reflexivity.
Defined.

(** * The validator *)

Lemma STEP9_body_perm d d' t :
  choices_full_names d = choices_full_names d' →
  assignments d ≡ₚ assignments d' →
  STEP9_body d t = STEP9_body d' t.
Proof.
  unfold STEP9_body. intros <- Hp.
  destruct (choices_full_names d) as [|c1 [|c2 [|c3 [|c4 [|? ?]]]]];
    try done.
  by rewrite !(got_Permutation _ _ _ Hp).
Qed.

(** STEP 9 reads the choice names and the assignments and nothing else, and
    the assignments only up to their order. *)
Lemma STEP9_perm NUM_STUDENTS (d d' : gmap nat student_info) :
  (∀ i, i < NUM_STUDENTS →
     choices_full_names (d !!! i) = choices_full_names (d' !!! i) ∧
     assignments (d !!! i) ≡ₚ assignments (d' !!! i)) →
  STEP9 NUM_STUDENTS d = STEP9 NUM_STUDENTS d'.
Proof.
  intros H. unfold STEP9. generalize (mkTotals 0 0 0 0 0).
  assert (∀ i, i ∈ seq 0 NUM_STUDENTS → i < NUM_STUDENTS) as Hin
    by (intros i; by rewrite in_seq_0).
  induction (seq 0 NUM_STUDENTS) as [|i l IH]; intros t; [done|].
  simpl. destruct (H i) as [Hc Ha]; [apply Hin; by left|].
  rewrite (STEP9_body_perm _ _ t Hc Ha). apply IH. intros; apply Hin; by right.
Qed.

(** One iteration of STEP 9 in terms of membership. *)
Lemma STEP9_body_counts d t :
  length (choices_full_names d) = 4 →
  STEP9_body d t
  = mkTotals
      (total_got_choice1 t + (if decide (has_choice 0 d) then 1 else 0))
      (total_got_choice2 t + (if decide (has_choice 1 d) then 1 else 0))
      (total_got_choice3 t + (if decide (has_choice 2 d) then 1 else 0))
      (total_got_choice4 t + (if decide (has_choice 3 d) then 1 else 0))
      (total_got_3_of_4 t + (if decide (num_matches d = 3) then 1 else 0)).
Proof.
  intros Hlen. unfold STEP9_body.
  destruct (choices_full_names d) as [|c1 [|c2 [|c3 [|c4 [|? ?]]]]] eqn:Hc;
    try done.
  assert (has_choice 0 d ↔ c1 ∈ assignments d) as E0
    by (unfold has_choice; by rewrite Hc).
  assert (has_choice 1 d ↔ c2 ∈ assignments d) as E1
    by (unfold has_choice; by rewrite Hc).
  assert (has_choice 2 d ↔ c3 ∈ assignments d) as E2
    by (unfold has_choice; by rewrite Hc).
  assert (has_choice 3 d ↔ c4 ∈ assignments d) as E3
    by (unfold has_choice; by rewrite Hc).
  unfold num_matches, got. cbn [seq]. rewrite !filter_cons, filter_nil.
  destruct (decide (has_choice 0 d)), (decide (c1 ∈ assignments d));
    try tauto;
    destruct (decide (has_choice 1 d)), (decide (c2 ∈ assignments d));
    try tauto;
    destruct (decide (has_choice 2 d)), (decide (c3 ∈ assignments d));
    try tauto;
    destruct (decide (has_choice 3 d)), (decide (c4 ∈ assignments d));
    try tauto;
    cbn [length]; repeat case_decide; try lia; f_equal; lia.
Qed.

Lemma STEP9_fold_counts (d : gmap nat student_info) l t :
  (∀ i, i ∈ l → length (choices_full_names (d !!! i)) = 4) →
  foldl (λ t i, STEP9_body (d !!! i) t) t l
  = mkTotals
      (total_got_choice1 t
       + length (filter (λ i, has_choice 0 (d !!! i)) l))
      (total_got_choice2 t
       + length (filter (λ i, has_choice 1 (d !!! i)) l))
      (total_got_choice3 t
       + length (filter (λ i, has_choice 2 (d !!! i)) l))
      (total_got_choice4 t
       + length (filter (λ i, has_choice 3 (d !!! i)) l))
      (total_got_3_of_4 t
       + length (filter (λ i, num_matches (d !!! i) = 3) l)).
Proof.
  revert t. induction l as [|i l IH]; intros t Hl.
  { destruct t. simpl. f_equal; lia. }
  simpl foldl. rewrite IH by (intros; apply Hl; by right).
  rewrite STEP9_body_counts by (apply Hl; by left).
  cbn [total_got_choice1 total_got_choice2 total_got_choice3
         total_got_choice4 total_got_3_of_4].
  rewrite !filter_cons.
  repeat case_decide; cbn [length]; f_equal; lia.
Qed.

(** STEP 9 counts, rank by rank, the students whose choice of that rank is
    among their assignments, and the students with exactly three matched
    ranks. *)
Lemma STEP9_counts NUM_STUDENTS (d : gmap nat student_info) :
  (∀ i, i < NUM_STUDENTS → length (choices_full_names (d !!! i)) = 4) →
  STEP9 NUM_STUDENTS d
  = mkTotals (count_students (has_choice 0) NUM_STUDENTS d)
             (count_students (has_choice 1) NUM_STUDENTS d)
             (count_students (has_choice 2) NUM_STUDENTS d)
             (count_students (has_choice 3) NUM_STUDENTS d)
             (count_students (λ s, num_matches s = 3) NUM_STUDENTS d).
Proof.
  intros H. unfold STEP9, count_students.
  rewrite STEP9_fold_counts by (intros i Hi; apply H; by apply in_seq_0).
  done.
Qed.

(** C8.  STEP 9 recomputes the matches from the extracted assignments, for
    whatever the solver answered: rank by rank it counts the students whose
    choice of that rank is among their assignments, and it counts the
    students with exactly three matched ranks.  It is a function of the
    choice names and the assignments of the students alone (it is not given
    the objective value), and the order of a student's assignments does not
    matter.  In every run whose solver answers "optimal" with a feasible
    solution, the recomputed number of students with exactly 3 of 4 matches
    is the number of students, and the last line printed reports 100
    percent. *)
Theorem validator_three_of_four solver input rows student_choice_data
    student_info_dicts :
  input !! "student_choices.csv" = Some rows →
  student_choice_data = drop 1 rows →
  STEP3 student_choice_data = Ok student_info_dicts →
  let NUM_STUDENTS := length student_choice_data in
  let prob := prob NUM_STUDENTS student_info_dicts in
  (∀ sol,
     let extracted := STEP8_extract NUM_STUDENTS sol student_info_dicts in
     STEP9 NUM_STUDENTS extracted
     = mkTotals
         (count_students (has_choice 0) NUM_STUDENTS extracted)
         (count_students (has_choice 1) NUM_STUDENTS extracted)
         (count_students (has_choice 2) NUM_STUDENTS extracted)
         (count_students (has_choice 3) NUM_STUDENTS extracted)
         (count_students (λ d, num_matches d = 3) NUM_STUDENTS extracted))
  ∧ (∀ d d' : gmap nat student_info,
       (∀ i, i < NUM_STUDENTS →
          choices_full_names (d !!! i) = choices_full_names (d' !!! i) ∧
          assignments (d !!! i) ≡ₚ assignments (d' !!! i)) →
       STEP9 NUM_STUDENTS d = STEP9 NUM_STUDENTS d')
  ∧ (status (solver prob) = LpStatusOptimal →
     feasible prob (solver prob) →
     let extracted :=
       STEP8_extract NUM_STUDENTS (solver prob) student_info_dicts in
     (∀ i, i < NUM_STUDENTS → num_matches (extracted !!! i) = 3)
     ∧ total_got_3_of_4 (STEP9 NUM_STUDENTS extracted) = NUM_STUDENTS
     ∧ ∃ p, last (stdout (snd (run solver input)))
            = Some (print_Q "percent who got 3 of 4 choices:" p)
            ∧ (p == 100)%Q).
Proof.
  intros Hin Hdata Hload NUM_STUDENTS pb.
  assert (∀ sol i, i < NUM_STUDENTS →
            length (choices_full_names
                      (STEP8_extract NUM_STUDENTS sol student_info_dicts
                         !!! i)) = 4) as Hfour.
  { intros sol i Hi.
    destruct (extract_loaded _ _ sol i Hload Hi)
      as (f & l & c1 & c2 & c3 & c4 & ids & _ & Hex).
    fold NUM_STUDENTS in Hex. by rewrite Hex. }
  split; [|split; [apply STEP9_perm|]].
  - intros sol extracted. apply STEP9_counts. apply Hfour.
  - intros Hst Hfeas extracted.
    assert (total_got_3_of_4 (STEP9 NUM_STUDENTS extracted) = NUM_STUDENTS)
      as Htotal.
    { apply STEP9_three_of_four. intros i Hi.
      destruct (feasible_three_of_four _ _ _ i Hload Hfeas Hi)
        as (f & l & c1 & c2 & c3 & c4 & _ & _ & Hc & Hg).
      by exists c1, c2, c3, c4. }
    split; [|split; [done|]].
    + intros i Hi.
      pose proof (STEP9_body_counts (extracted !!! i) (mkTotals 0 0 0 0 0)
                    (Hfour _ i Hi)) as Hb.
      destruct (feasible_three_of_four _ _ _ i Hload Hfeas Hi)
        as (f & l & c1 & c2 & c3 & c4 & _ & _ & Hc & Hg).
      fold NUM_STUDENTS pb extracted in Hc, Hg.
      unfold STEP9_body in Hb. rewrite Hc in Hb. cbv zeta in Hb.
      rewrite decide_True in Hb by done.
      injection Hb as _ _ _ _ Hb. by destruct (decide _).
    + subst extracted pb NUM_STUDENTS.
      destruct (run_optimal_feasible solver input rows _ _ Hin Hdata Hload
                  Hst Hfeas) as (results & _ & ->).
      cbn [snd stdout]. unfold report. cbn [last].
      eexists. split; [reflexivity|].
      rewrite Htotal.
      apply percent_all. by eapply feasible_nonempty.
Qed.

Lemma validator_three_of_four_witness :
  let NUM_STUDENTS := length Rotation.student_choice_data in
  let extracted :=
    STEP8_extract NUM_STUDENTS
      (Rotation.solver (prob NUM_STUDENTS Rotation.student_info_dicts))
      Rotation.student_info_dicts in
  STEP9 NUM_STUDENTS extracted
  = mkTotals (count_students (has_choice 0) NUM_STUDENTS extracted)
             (count_students (has_choice 1) NUM_STUDENTS extracted)
             (count_students (has_choice 2) NUM_STUDENTS extracted)
             (count_students (has_choice 3) NUM_STUDENTS extracted)
             (count_students (λ d, num_matches d = 3) NUM_STUDENTS extracted)
  ∧ (∀ i, i < NUM_STUDENTS → num_matches (extracted !!! i) = 3)
  ∧ total_got_3_of_4 (STEP9 NUM_STUDENTS extracted) = NUM_STUDENTS
  ∧ ∃ p, last (stdout (snd (run Rotation.solver Rotation.input)))
         = Some (print_Q "percent who got 3 of 4 choices:" p)
         ∧ (p == 100)%Q.
Proof.
  destruct (validator_three_of_four Rotation.solver Rotation.input
              Rotation.csv Rotation.student_choice_data
              Rotation.student_info_dicts Rotation_input eq_refl
              Rotation_load) as (Hcount & _ & Hrun).
  split; [exact (Hcount Rotation.solution)|].
  exact (Hrun eq_refl Rotation_feasible).
Defined.

(** * Failures *)

Lemma Broken_input : Broken.input !! "student_choices.csv" = Some Broken.csv.
Proof. apply lookup_singleton_eq. Qed.

Lemma Broken_load :
  STEP3 Broken.student_choice_data = Ok Broken.student_info_dicts.
Proof. by vm_compute. Qed.

(** C7, as the code has it.  Whenever the solver returns a status other
    than optimal, the run stops at the assertion of STEP 7 with the message
    "solution not found": the problem was submitted once, unchanged, nothing
    is extracted, written or printed.  The failure is the same for every
    such status. *)
Theorem non_optimal_is_fatal solver input rows student_choice_data
    student_info_dicts :
  input !! "student_choices.csv" = Some rows →
  student_choice_data = drop 1 rows →
  STEP3 student_choice_data = Ok student_info_dicts →
  status (solver (prob (length student_choice_data) student_info_dicts))
  ≠ LpStatusOptimal →
  run solver input
  = (Raise (AssertionError "solution not found"),
     mkWorld input [prob (length student_choice_data) student_info_dicts] []).
Proof.
  intros Hin -> Hload Hst.
  rewrite run_unfold, Hin. cbv zeta. rewrite Hload. cbv beta iota.
  by rewrite bool_decide_eq_false_2.
Qed.

Lemma non_optimal_is_fatal_witness :
  run Broken.infeasible Broken.input
  = (Raise (AssertionError "solution not found"),
     mkWorld Broken.input
       [prob (length Broken.student_choice_data) Broken.student_info_dicts]
       []).
Proof.
  apply (non_optimal_is_fatal Broken.infeasible Broken.input Broken.csv
           Broken.student_choice_data Broken.student_info_dicts).
  - exact Broken_input.
  - reflexivity.
  - exact Broken_load.
  - by vm_compute.
Defined.

(** C7 as stated fails: a run whose solver reports "infeasible" and a run
    whose solver reports "undefined" (a solver error) end in the same
    exception and the same world, so a caller cannot tell them apart. *)
Lemma failure_kinds_not_distinguished :
  (∀ prob, status (Broken.infeasible prob) = LpStatusInfeasible)
  ∧ (∀ prob, status (Broken.undefined prob) = LpStatusUndefined)
  ∧ LpStatusInfeasible ≠ LpStatusUndefined
  ∧ fst (run Broken.infeasible Broken.input)
    = Raise (AssertionError "solution not found")
  ∧ run Broken.infeasible Broken.input = run Broken.undefined Broken.input.
Proof.
  split; [done|]. split; [done|]. split; [done|].
  split; by vm_compute.
Qed.

(** C2, as the code has it.  For a solution accepted as optimal, STEP 8
    appends to a student's assignments the name of every activity whose
    variable is 1, period by period, and never checks that a (period,
    student) pair has exactly one.  The run fails with [ValueError] (the
    three-way unpacking of the assignments, an exception other than the
    [AssertionError] of a non-optimal status) exactly when, for some student,
    the number of variables equal to 1 over all periods is not 3. *)
Theorem extraction_unchecked solver input rows student_choice_data
    student_info_dicts :
  input !! "student_choices.csv" = Some rows →
  student_choice_data = drop 1 rows →
  STEP3 student_choice_data = Ok student_info_dicts →
  status (solver (prob (length student_choice_data) student_info_dicts))
  = LpStatusOptimal →
  let NUM_STUDENTS := length student_choice_data in
  let sol := solver (prob NUM_STUDENTS student_info_dicts) in
  (∀ i, i < NUM_STUDENTS →
     assignments (STEP8_extract NUM_STUDENTS sol student_info_dicts !!! i)
     = picked sol i
     ∧ length (picked sol i) = num_ones sol i)
  ∧ (fst (run solver input) = Raise ValueError
     ↔ ∃ i, i < NUM_STUDENTS ∧ num_ones sol i ≠ NUM_PERIODS)
  ∧ (∀ msg, ValueError ≠ AssertionError msg).
Proof.
  intros Hin -> Hload Hst. cbv zeta.
  remember (solver (prob (length (drop 1 rows)) student_info_dicts)) as sol
    eqn:Hsol.
  assert (∀ i, i < length (drop 1 rows) →
            ∃ c1 c2 c3 c4,
              choices_full_names
                (STEP8_extract (length (drop 1 rows)) sol student_info_dicts
                 !!! i)
              = [c1; c2; c3; c4] ∧
              assignments
                (STEP8_extract (length (drop 1 rows)) sol student_info_dicts
                 !!! i)
              = picked sol i) as Hex.
  { intros i Hi.
    destruct (extract_loaded _ _ sol i Hload Hi)
      as (f & l & c1 & c2 & c3 & c4 & ids & _ & ->).
    by exists c1, c2, c3, c4. }
  split.
  { intros i Hi. destruct (Hex i Hi) as (? & ? & ? & ? & _ & ->).
    split; [done|apply length_picked]. }
  split; [|done].
  rewrite run_unfold, Hin. cbv zeta. rewrite Hload. cbv beta iota.
  rewrite <- Hsol. rewrite bool_decide_eq_true_2 by done. cbv beta iota.
  destruct (STEP8_results (length (drop 1 rows)) _) as [results|e] eqn:Hres.
  - split.
    + destruct (decide _); by intros [=].
    + intros (i & Hi & Hne). exfalso. apply Hne.
      apply STEP8_results_Ok in Hres as [_ Hrows].
      destruct (Hrows i Hi) as (row & _ & Hr).
      destruct (Hex i Hi) as (c1 & c2 & c3 & c4 & Hc & Ha).
      rewrite <- length_picked, <- Ha.
      apply (result_row_length _ c1 c2 c3 c4 Hc). by exists row.
  - apply STEP8_results_Raise in Hres as (-> & i & Hi & Hr).
    split; [|done]. intros _. exists i. split; [done|].
    destruct (Hex i Hi) as (c1 & c2 & c3 & c4 & Hc & Ha).
    rewrite <- length_picked, <- Ha. intros Hlen.
    apply (result_row_length _ c1 c2 c3 c4 Hc) in Hlen as [row Hrow].
    congruence.
Qed.

Lemma extraction_unchecked_witness :
  let NUM_STUDENTS := length Broken.student_choice_data in
  let sol := Broken.solver (prob NUM_STUDENTS Broken.student_info_dicts) in
  (∀ i, i < NUM_STUDENTS →
     assignments (STEP8_extract NUM_STUDENTS sol Broken.student_info_dicts
                  !!! i)
     = picked sol i
     ∧ length (picked sol i) = num_ones sol i)
  ∧ (fst (run Broken.solver Broken.input) = Raise ValueError
     ↔ ∃ i, i < NUM_STUDENTS ∧ num_ones sol i ≠ NUM_PERIODS)
  ∧ (∀ msg, ValueError ≠ AssertionError msg).
Proof.
  apply (extraction_unchecked Broken.solver Broken.input Broken.csv
           Broken.student_choice_data Broken.student_info_dicts).
  - exact Broken_input.
  - reflexivity.
  - exact Broken_load.
  - reflexivity.
Defined.

(** C2 as stated fails: the solver answers "optimal" with no variable of
    student 0 equal to 1 in period 0 and two of them in period 1, and the
    run ends normally, having written a row for the student. *)
Lemma inconsistency_goes_undetected :
  status (Broken.solver (prob 1 Broken.student_info_dicts)) = LpStatusOptimal
  ∧ ones Broken.solution 0 0 = []
  ∧ ones Broken.solution 1 0 = [0; 1]
  ∧ ones Broken.solution 2 0 = [2]
  ∧ fst (run Broken.solver Broken.input) = Ok ()
  ∧ files (snd (run Broken.solver Broken.input)) !! "assignment_outputs.csv"
    = Some [headers;
            ["Lovelace, Ada"; "Salute"; "Measuring"; "Closeto20";
             "BubbleMania"; "100ChartPicture"; "BubbleMania"; "Closeto20"]].
Proof. repeat split; by vm_compute. Qed.

(** * Further properties of the code *)

(** ** The activity catalog *)

Lemma activities_dict_reverse_foldl (l : list (nat * string))
    (d : gmap nat string) n c :
  foldl (λ (d : gmap nat string) '(n, activity), <[n := activity]> d) d l !! n
  = Some c →
  (n, c) ∈ l ∨ d !! n = Some c.
Proof.
  revert d. induction l as [|[m a] l IH]; intros d H; [by right|].
  simpl in H. apply IH in H as [H|H]; [left; by right|].
  destruct (decide (m = n)) as [->|Hne].
  - rewrite lookup_insert_eq in H. injection H as ->. left; by left.
  - rewrite lookup_insert_ne in H by done. by right.
Qed.

Lemma ACTIVITIES_LIST_lookup n c :
  ACTIVITIES_LIST !! n = Some c →
  activities_dict !! c = Some n ∧ activities_dict_reverse !! n = Some c.
Proof.
  intros H. do 11 (destruct n as [|n]; [injection H as <-; by vm_compute|]).
  done.
Qed.

Lemma activities_dict_iff c n :
  activities_dict !! c = Some n ↔ ACTIVITIES_LIST !! n = Some c.
Proof.
  split; [|by intros H; apply ACTIVITIES_LIST_lookup in H as [? _]].
  intros H. apply activities_dict_foldl in H as [H|H];
    [|by rewrite lookup_empty in H].
  by apply elem_of_lookup_imap in H as (i & a & [= -> ->] & Hl).
Qed.

Lemma activities_dict_reverse_iff n c :
  activities_dict_reverse !! n = Some c ↔ ACTIVITIES_LIST !! n = Some c.
Proof.
  split; [|by intros H; apply ACTIVITIES_LIST_lookup in H as [_ ?]].
  intros H. apply activities_dict_reverse_foldl in H as [H|H];
    [|by rewrite lookup_empty in H].
  by apply elem_of_lookup_imap in H as (i & a & [= -> ->] & Hl).
Qed.

(** X1.  [activities_dict] and [activities_dict_reverse] are inverse to each
    other, and both are the numbering of [ACTIVITIES_LIST]: a name maps to
    [n] exactly when [n] maps to the name, exactly when the name is at
    position [n] of the list. *)
Theorem activities_dicts_inverse c n :
  (activities_dict !! c = Some n ↔ ACTIVITIES_LIST !! n = Some c)
  ∧ (activities_dict_reverse !! n = Some c ↔ ACTIVITIES_LIST !! n = Some c)
  ∧ (activities_dict !! c = Some n ↔ activities_dict_reverse !! n = Some c).
Proof.
  split; [apply activities_dict_iff|].
  split; [apply activities_dict_reverse_iff|].
  by rewrite activities_dict_iff, activities_dict_reverse_iff.
Qed.

(** ** STEP 3: which rows load, and which error a bad row gives *)

Lemma getitem_Ok c n :
  getitem activities_dict c = Ok n ↔ ACTIVITIES_LIST !! n = Some c.
Proof.
  rewrite <- activities_dict_iff. unfold getitem.
  destruct (activities_dict !! c); split; intros [=]; by subst.
Qed.

Lemma getitem_unknown c :
  c ∉ ACTIVITIES_LIST → getitem activities_dict c = Raise (KeyError c).
Proof.
  intros Hc. unfold getitem.
  destruct (activities_dict !! c) as [n|] eqn:E; [|done].
  apply activities_dict_iff in E. exfalso. apply Hc.
  by eapply list_elem_of_lookup_2.
Qed.

Lemma getitem_known c :
  c ∈ ACTIVITIES_LIST → ∃ n, getitem activities_dict c = Ok n.
Proof.
  intros Hc. apply list_elem_of_lookup in Hc as [n Hn]. exists n.
  by apply getitem_Ok.
Qed.

(** X2.  A row is loaded exactly when it has six fields whose last four are
    names of the catalog; the record then holds the positions of the four
    names in rank order, the names themselves, the name
    "last_name, first_name" and no assignment.  Nothing else is checked: the
    four choices need not be distinct. *)
Theorem student_of_row_accepts row d :
  student_of_row row = Ok d ↔
  ∃ first_name last_name choice1 choice2 choice3 choice4 n1 n2 n3 n4,
    row = [first_name; last_name; choice1; choice2; choice3; choice4]
    ∧ ACTIVITIES_LIST !! n1 = Some choice1
    ∧ ACTIVITIES_LIST !! n2 = Some choice2
    ∧ ACTIVITIES_LIST !! n3 = Some choice3
    ∧ ACTIVITIES_LIST !! n4 = Some choice4
    ∧ d = mkStudent [n1; n2; n3; n4] [choice1; choice2; choice3; choice4]
          (String.append last_name (String.append ", " first_name)) [].
Proof.
  split.
  - intros H. apply student_of_row_Ok in H
      as (f & l & c1 & c2 & c3 & c4 & n1 & n2 & n3 & n4 & -> & -> & H1 & H2
          & H3 & H4).
    exists f, l, c1, c2, c3, c4, n1, n2, n3, n4.
    rewrite <- !activities_dict_iff. by repeat split.
  - intros (f & l & c1 & c2 & c3 & c4 & n1 & n2 & n3 & n4 & -> & H1 & H2 & H3
            & H4 & ->).
    apply getitem_Ok in H1, H2, H3, H4.
    unfold student_of_row. cbn [rmapM]. by rewrite H1, H2, H3, H4.
Qed.

(** X3.  A row that does not have exactly six fields raises [ValueError],
    whatever its fields are. *)
Theorem wrong_field_count_is_ValueError row :
  length row ≠ 6 → student_of_row row = Raise ValueError.
Proof.
  intros H. unfold student_of_row.
  by destruct row as [|f [|l [|c1 [|c2 [|c3 [|c4 [|? ?]]]]]]].
Qed.

Lemma wrong_field_count_is_ValueError_witness :
  student_of_row Malformed.short_row = Raise ValueError.
Proof.
  apply (wrong_field_count_is_ValueError Malformed.short_row).
  simpl. lia.
Defined.

Lemma rmapM_first_error {A B} (f : A → result B) known x rest e :
  Forall (λ y, ∃ z, f y = Ok z) known → f x = Raise e →
  rmapM f (known ++ x :: rest) = Raise e.
Proof.
  intros Hk Hx. induction Hk as [|y known [z Hz] _ IH]; simpl.
  - by rewrite Hx.
  - by rewrite Hz, IH.
Qed.

(** X4.  In a row of six fields, the first choice in rank order that is not
    in the catalog raises [KeyError] with that choice as key; later choices
    are not looked at. *)
Theorem unknown_choice_is_KeyError row first_name last_name known c rest :
  row = first_name :: last_name :: known ++ c :: rest →
  length row = 6 →
  Forall (λ k, k ∈ ACTIVITIES_LIST) known →
  c ∉ ACTIVITIES_LIST →
  student_of_row row = Raise (KeyError c).
Proof.
  intros -> Hlen Hknown Hc.
  assert (rmapM (getitem activities_dict) (known ++ c :: rest)
          = Raise (KeyError c)) as Hr.
  { apply rmapM_first_error; [|by apply getitem_unknown].
    eapply Forall_impl; [exact Hknown|]. intros k. apply getitem_known. }
  simpl in Hlen.
  destruct (known ++ c :: rest) as [|c1 [|c2 [|c3 [|c4 [|? ?]]]]] eqn:E;
    simpl in Hlen; try lia.
  unfold student_of_row. by rewrite Hr.
Qed.

Lemma unknown_choice_is_KeyError_witness :
  student_of_row Malformed.unknown_row = Raise (KeyError "Chess").
Proof.
  apply (unknown_choice_is_KeyError Malformed.unknown_row "Alan" "Turing"
           ["Salute"] "Chess" ["Closeto20"; "Go"]).
  - reflexivity.
  - reflexivity.
  - apply (bool_decide_unpack _). by vm_compute.
  - apply (bool_decide_unpack _). by vm_compute.
Defined.

(** The loop of STEP 3 succeeds or fails as loading the rows one after the
    other does. *)
Lemma STEP3_loop_rmapM rows acc :
  match STEP3_loop rows acc, rmapM student_of_row rows.*2 with
  | Ok _, Ok _ => True
  | Raise e, Raise e' => e = e'
  | _, _ => False
  end.
Proof.
  revert acc. induction rows as [|[i row] rows IH]; intros acc; [done|].
  rewrite fmap_cons. cbn [STEP3_loop rmapM snd].
  destruct (student_of_row row) as [d|e]; cbn [rbind]; [|done].
  specialize (IH (<[i := d]> acc)). revert IH.
  by destruct (STEP3_loop rows _), (rmapM student_of_row rows.*2).
Qed.

Lemma enumerate_snd {A} (l : list A) : (enumerate l).*2 = l.
Proof.
  unfold enumerate.
  assert (∀ f : nat → A → nat * A,
            (∀ n a, (f n a).2 = a) → (imap f l).*2 = l) as H.
  { induction l as [|a l IH]; intros f Hf; [done|].
    rewrite imap_cons, fmap_cons, Hf, IH; [done|]. intros n b. apply Hf. }
  by apply H.
Qed.

Lemma rmapM_Raise_first {A B} (f : A → result B) l e :
  rmapM f l = Raise e ↔
  ∃ i x, l !! i = Some x ∧ f x = Raise e
         ∧ Forall (λ y, ∃ z, f y = Ok z) (take i l).
Proof.
  split.
  - induction l as [|a l IH]; [done|]. simpl. intros H.
    destruct (f a) as [b|e'] eqn:Ha; simpl in H.
    + destruct (rmapM f l) as [ys|e'']; [done|]. simpl in H.
      injection H as ->. destruct IH as (i & x & Hi & Hx & Hpre); [done|].
      exists (S i), x. split; [done|]. split; [done|].
      simpl. constructor; [by exists b|done].
    + injection H as ->. exists 0, a. by repeat split.
  - intros (i & x & Hi & Hx & Hpre).
    rewrite <- (take_drop_middle l i x Hi).
    by apply rmapM_first_error.
Qed.

Lemma STEP3_loop_above rows k acc dicts :
  STEP3_loop (imap (λ n row, (k + n, row)) rows) acc = Ok dicts →
  ∀ j : nat, (k + length rows ≤ j)%nat → dicts !! j = acc !! j.
Proof.
  revert k acc. induction rows as [|r rows IH]; intros k acc H j Hj.
  - by injection H as <-.
  - rewrite imap_cons in H. simpl in H.
    apply rbind_Ok in H as (d & Hd & H).
    rewrite (imap_ext _ (λ n row, (S k + n, row))) in H
      by (intros; simpl; f_equal; lia).
    simpl in Hj. rewrite (IH _ _ H) by lia.
    apply lookup_insert_ne. lia.
Qed.

(** X5.  STEP 3 succeeds exactly when every row is loadable, and then
    [student_info_dicts] has exactly the keys 0 .. NUM_STUDENTS - 1, the
    record under [i] being the one made from row [i]. *)
Theorem STEP3_succeeds_iff student_choice_data :
  ((∃ student_info_dicts, STEP3 student_choice_data = Ok student_info_dicts)
   ↔ Forall (λ row, ∃ d, student_of_row row = Ok d) student_choice_data)
  ∧ ∀ student_info_dicts,
      STEP3 student_choice_data = Ok student_info_dicts →
      ∀ i, match student_choice_data !! i with
           | Some row =>
               ∃ d, student_info_dicts !! i = Some d
                    ∧ student_of_row row = Ok d
           | None => student_info_dicts !! i = None
           end.
Proof.
  split.
  - pose proof (STEP3_loop_rmapM (enumerate student_choice_data) ∅) as H.
    rewrite enumerate_snd in H. fold (STEP3 student_choice_data) in H.
    split.
    + intros [dicts Hd]. rewrite Hd in H.
      destruct (rmapM student_of_row student_choice_data) as [ds|] eqn:E;
        [|done].
      apply rmapM_Ok in E. clear -E.
      induction E; constructor; eauto.
    + intros Hall.
      destruct (rmapM_total student_of_row student_choice_data) as [ds E].
      { intros row Hrow. rewrite Forall_forall in Hall. by apply Hall. }
      rewrite E in H. destruct (STEP3 student_choice_data); [eauto|done].
  - intros dicts Hd i.
    destruct (student_choice_data !! i) as [row|] eqn:Hrow.
    + by eapply STEP3_lookup.
    + apply lookup_ge_None in Hrow. unfold STEP3, enumerate in Hd.
      rewrite (STEP3_loop_above _ 0 _ _ Hd i) by (simpl; lia).
      apply lookup_empty.
Qed.

(** X6.  STEP 3 fails with the error of the first row that does not load:
    it raises [e] exactly when some row raises [e] and every row before it
    loads. *)
Theorem STEP3_first_error student_choice_data e :
  STEP3 student_choice_data = Raise e ↔
  ∃ i row,
    student_choice_data !! i = Some row
    ∧ student_of_row row = Raise e
    ∧ Forall (λ r, ∃ d, student_of_row r = Ok d) (take i student_choice_data).
Proof.
  rewrite <- rmapM_Raise_first.
  pose proof (STEP3_loop_rmapM (enumerate student_choice_data) ∅) as H.
  rewrite enumerate_snd in H. fold (STEP3 student_choice_data) in H.
  destruct (STEP3 student_choice_data),
    (rmapM student_of_row student_choice_data); try done.
  split; intros [=]; by subst.
Qed.

(** ** The run: failures and what they leave behind *)

(** X7.  Without the file 'student_choices.csv' the run raises [IOError]
    for that name; the solver is not called and nothing is written or
    printed. *)
Theorem missing_input_is_IOError solver input :
  input !! "student_choices.csv" = None →
  run solver input
  = (Raise (IOError "student_choices.csv"), mkWorld input [] []).
Proof. intros H. by rewrite run_unfold, H. Qed.

Lemma missing_input_is_IOError_witness :
  run Broken.solver ∅
  = (Raise (IOError "student_choices.csv"), mkWorld ∅ [] []).
Proof.
  apply (missing_input_is_IOError Broken.solver ∅). apply lookup_empty.
Defined.

(** X8.  When a row of the input does not load, the run raises the error of
    STEP 3 before any model is submitted: the solver is not called and
    nothing is written or printed. *)
Theorem malformed_input_stops_before_solving solver input rows e :
  input !! "student_choices.csv" = Some rows →
  STEP3 (drop 1 rows) = Raise e →
  run solver input = (Raise e, mkWorld input [] []).
Proof. intros Hin He. rewrite run_unfold, Hin. cbv zeta. by rewrite He. Qed.

Lemma malformed_input_stops_before_solving_witness :
  run Broken.solver Malformed.input_unknown
  = (Raise (KeyError "Chess"), mkWorld Malformed.input_unknown [] []).
Proof.
  apply (malformed_input_stops_before_solving Broken.solver
           Malformed.input_unknown
           [Malformed.header; Malformed.good_row; Malformed.unknown_row]).
  - apply lookup_singleton_eq.
  - by vm_compute.
Defined.

(** X9.  Whatever the input and the solver, a run calls the solver at most
    once, and a request, if there is one, is the problem built from the
    input; the run changes no file other than 'assignment_outputs.csv' (in
    particular it never changes its input file). *)
Theorem run_frame solver input :
  (solver_requests (snd (run solver input)) = []
   ∨ ∃ student_info_dicts,
       STEP3 (drop 1 (default [] (input !! "student_choices.csv")))
       = Ok student_info_dicts
       ∧ solver_requests (snd (run solver input))
         = [prob (length (drop 1 (default []
                                    (input !! "student_choices.csv"))))
              student_info_dicts])
  ∧ ∀ filename,
      filename ≠ "assignment_outputs.csv" →
      files (snd (run solver input)) !! filename = input !! filename.
Proof.
  rewrite run_unfold.
  destruct (input !! "student_choices.csv") as [rows|] eqn:Hin;
    [|split; [by left|done]].
  cbv zeta. cbn [default].
  destruct (STEP3 (drop 1 rows)) as [dicts|e] eqn:Hload;
    [|split; [by left|done]].
  destruct (bool_decide _); [|split; [right; by exists dicts|done]].
  destruct (STEP8_results _ _) as [results|e];
    [|split; [right; by exists dicts|done]].
  destruct (decide _); cbn [snd files solver_requests];
    (split; [right; by exists dicts|]);
    intros f Hf; by rewrite lookup_insert_ne.
Qed.

Lemma STEP3_nil : STEP3 [] = Ok ∅.
Proof. reflexivity. Qed.

(** X10.  With no student row (an input file that is empty or has only its
    header row) and a solver that nevertheless answers "optimal" (the
    problem then asks for 0 >= 5 and has no feasible solution), the run
    writes an output file holding only the header row, prints an objective
    value of 0 and then fails with [ZeroDivisionError] in the first
    percentage. *)
Theorem no_students_is_ZeroDivisionError solver input rows :
  input !! "student_choices.csv" = Some rows →
  (length rows ≤ 1)%nat →
  status (solver (prob 0 ∅)) = LpStatusOptimal →
  run solver input
  = (Raise ZeroDivisionError,
     mkWorld (<["assignment_outputs.csv" := [headers]]> input)
       [prob 0 ∅] [print_Z "Objective value:" 0]).
Proof.
  intros Hin Hlen Hst. rewrite run_unfold, Hin. cbv zeta.
  assert (drop 1 rows = []) as -> by (destruct rows as [|? [|? ?]]; simpl in *; done || lia).
  rewrite STEP3_nil. cbn [length]. cbv beta iota.
  rewrite bool_decide_eq_true_2 by done. reflexivity.
Qed.

Lemma no_students_is_ZeroDivisionError_witness :
  run Malformed.optimistic Malformed.input_header_only
  = (Raise ZeroDivisionError,
     mkWorld (<["assignment_outputs.csv" := [headers]]>
                Malformed.input_header_only)
       [prob 0 ∅] [print_Z "Objective value:" 0]).
Proof.
  apply (no_students_is_ZeroDivisionError Malformed.optimistic
           Malformed.input_header_only [Malformed.header]).
  - apply lookup_singleton_eq.
  - simpl. lia.
  - reflexivity.
Defined.

(** X11.  When the solver answers "optimal" but, for some student, the
    number of variables equal to 1 is not 3, the run fails with [ValueError]
    after the objective value has been printed and before anything is
    written: no output file is produced. *)
Theorem extraction_failure_writes_nothing solver input rows student_choice_data
    student_info_dicts i :
  input !! "student_choices.csv" = Some rows →
  student_choice_data = drop 1 rows →
  STEP3 student_choice_data = Ok student_info_dicts →
  status (solver (prob (length student_choice_data) student_info_dicts))
  = LpStatusOptimal →
  i < length student_choice_data →
  num_ones (solver (prob (length student_choice_data) student_info_dicts)) i
  ≠ NUM_PERIODS →
  run solver input
  = (Raise ValueError,
     mkWorld input [prob (length student_choice_data) student_info_dicts]
       [print_Z "Objective value:"
          (value (solver (prob (length student_choice_data)
                            student_info_dicts))
             (objective (prob (length student_choice_data)
                           student_info_dicts)))]).
Proof.
  intros Hin -> Hload Hst Hi Hne.
  rewrite run_unfold, Hin. cbv zeta. rewrite Hload. cbv beta iota.
  rewrite bool_decide_eq_true_2 by done. cbv beta iota.
  destruct (STEP8_results (length (drop 1 rows)) _) as [results|e] eqn:Hres.
  - exfalso. apply Hne.
    apply STEP8_results_Ok in Hres as [_ Hrows].
    destruct (Hrows i Hi) as (row & _ & Hr).
    destruct (extract_loaded _ _
                (solver (prob (length (drop 1 rows)) student_info_dicts))
                i Hload Hi)
      as (f & l & c1 & c2 & c3 & c4 & ids & _ & Hex).
    assert (choices_full_names
              (STEP8_extract (length (drop 1 rows))
                 (solver (prob (length (drop 1 rows)) student_info_dicts))
                 student_info_dicts !!! i) = [c1; c2; c3; c4]) as Hc
      by (by rewrite Hex).
    assert (assignments
              (STEP8_extract (length (drop 1 rows))
                 (solver (prob (length (drop 1 rows)) student_info_dicts))
                 student_info_dicts !!! i)
            = picked (solver (prob (length (drop 1 rows)) student_info_dicts))
                i) as Ha
      by (by rewrite Hex).
    rewrite <- length_picked, <- Ha.
    apply (result_row_length _ c1 c2 c3 c4 Hc). by exists row.
  - by apply STEP8_results_Raise in Hres as [-> _].
Qed.

Lemma extraction_failure_writes_nothing_witness :
  run Malformed.optimistic Broken.input
  = (Raise ValueError,
     mkWorld Broken.input
       [prob (length Broken.student_choice_data) Broken.student_info_dicts]
       [print_Z "Objective value:"
          (value (Malformed.optimistic
                    (prob (length Broken.student_choice_data)
                       Broken.student_info_dicts))
             (objective (prob (length Broken.student_choice_data)
                           Broken.student_info_dicts)))]).
Proof.
  apply (extraction_failure_writes_nothing Malformed.optimistic Broken.input
           Broken.csv Broken.student_choice_data Broken.student_info_dicts 0).
  - exact Broken_input.
  - reflexivity.
  - exact Broken_load.
  - reflexivity.
  - simpl. lia.
  - by vm_compute.
Defined.

(** ** The size of the problem *)

Lemma Zsum_zero {A} (l : list A) : Zsum ((λ _, 0%Z) <$> l) = 0%Z.
Proof. induction l as [|a l IH]; [done|]. by rewrite fmap_cons, Zsum_cons, IH. Qed.

Lemma Zsum_fmap_add {A} (f g : A → Z) (l : list A) :
  Zsum ((λ a, f a + g a)%Z <$> l) = (Zsum (f <$> l) + Zsum (g <$> l))%Z.
Proof.
  induction l as [|a l IH]; [done|].
  rewrite !fmap_cons, !Zsum_cons, IH. lia.
Qed.

(** Summing by rows or by columns gives the same total. *)
Lemma Zsum_swap {A B} (h : A → B → Z) (la : list A) (lb : list B) :
  Zsum ((λ a, Zsum (h a <$> lb)) <$> la)
  = Zsum ((λ b, Zsum ((λ a, h a b) <$> la)) <$> lb).
Proof.
  induction lb as [|b lb IH]; [apply Zsum_zero|].
  by rewrite fmap_cons, Zsum_cons, <- IH, <- Zsum_fmap_add.
Qed.

Lemma Zsum_bounds {A} (f : A → Z) (lo hi : Z) (l : list A) :
  (∀ x, x ∈ l → (lo ≤ f x ≤ hi)%Z) →
  (lo * Z.of_nat (length l) ≤ Zsum (f <$> l) ≤ hi * Z.of_nat (length l))%Z.
Proof.
  induction l as [|a l IH]; intros Hb; [simpl; lia|].
  rewrite fmap_cons, Zsum_cons. simpl length.
  assert (lo ≤ f a ≤ hi)%Z by (apply Hb; by left).
  assert (lo * Z.of_nat (length l) ≤ Zsum (f <$> l)
          ≤ hi * Z.of_nat (length l))%Z
    by (apply IH; intros; apply Hb; by right).
  lia.
Qed.

Lemma students_between_capacities (student_choice_data : list (list string))
    student_info_dicts sol :
  feasible (prob (length student_choice_data) student_info_dicts) sol →
  (MIN_NUM_IN_ACTIVITY * Z.of_nat NUM_ACTIVITIES
   ≤ Z.of_nat (length student_choice_data)
   ≤ MAX_NUM_IN_ACTIVITY * Z.of_nat NUM_ACTIVITIES)%Z
  ∧ (55 ≤ length student_choice_data ≤ 99)%nat.
Proof.
  intros Hfeas.
  assert (0 < NUM_PERIODS) as Hp by (unfold NUM_PERIODS; lia).
  pose (val := λ i j, varValue sol (decision_var 0 i j)).
  assert (Zsum ((λ i, Zsum (val i <$> seq 0 NUM_ACTIVITIES))
                  <$> seq 0 (length student_choice_data))
          = Z.of_nat (length student_choice_data)) as Hrows.
  { rewrite (fmap_ext_in _ (λ _, 1%Z)).
    - assert (1 * Z.of_nat (length (seq 0 (length student_choice_data)))
              ≤ Zsum ((λ _ : nat, 1%Z) <$> seq 0 (length student_choice_data))
              ≤ 1 * Z.of_nat (length (seq 0 (length student_choice_data))))%Z
        as H by (apply Zsum_bounds; intros; lia).
      rewrite length_seq in H. lia.
    - intros i Hi. apply in_seq_0 in Hi.
      by apply (feasible_exclusive _ _ sol Hfeas 0 i). }
  rewrite Zsum_swap in Hrows.
  pose proof (Zsum_bounds
                (λ j, Zsum ((λ i, val i j)
                              <$> seq 0 (length student_choice_data)))
                MIN_NUM_IN_ACTIVITY MAX_NUM_IN_ACTIVITY
                (seq 0 NUM_ACTIVITIES)) as Hcols.
  rewrite length_seq, Hrows in Hcols.
  assert (MIN_NUM_IN_ACTIVITY * Z.of_nat NUM_ACTIVITIES
          ≤ Z.of_nat (length student_choice_data)
          ≤ MAX_NUM_IN_ACTIVITY * Z.of_nat NUM_ACTIVITIES)%Z as Hb.
  { apply Hcols. intros j Hj. apply in_seq_0 in Hj.
    by apply (feasible_capacity _ _ sol Hfeas 0 j). }
  split; [done|].
  unfold MIN_NUM_IN_ACTIVITY, MAX_NUM_IN_ACTIVITY, NUM_ACTIVITIES in Hb.
  simpl in Hb. lia.
Qed.

(** X12.  The capacity bounds fix the admissible number of students: a
    feasible solution exists only if the number of students lies between
    [MIN_NUM_IN_ACTIVITY * NUM_ACTIVITIES] = 55 and
    [MAX_NUM_IN_ACTIVITY * NUM_ACTIVITIES] = 99. *)
Theorem feasible_bounds_students (student_choice_data : list (list string))
    student_info_dicts sol :
  feasible (prob (length student_choice_data) student_info_dicts) sol →
  (MIN_NUM_IN_ACTIVITY * Z.of_nat NUM_ACTIVITIES
   ≤ Z.of_nat (length student_choice_data)
   ≤ MAX_NUM_IN_ACTIVITY * Z.of_nat NUM_ACTIVITIES)%Z
  ∧ (55 ≤ length student_choice_data ≤ 99)%nat.
Proof. apply students_between_capacities. Qed.

Lemma feasible_bounds_students_witness :
  (MIN_NUM_IN_ACTIVITY * Z.of_nat NUM_ACTIVITIES
   ≤ Z.of_nat (length Rotation.student_choice_data)
   ≤ MAX_NUM_IN_ACTIVITY * Z.of_nat NUM_ACTIVITIES)%Z
  ∧ (55 ≤ length Rotation.student_choice_data ≤ 99)%nat.
Proof.
  apply (feasible_bounds_students Rotation.student_choice_data
           Rotation.student_info_dicts Rotation.solution).
  exact Rotation_feasible.
Defined.

Lemma length_bind_const {A B} (f : A → list B) (n : nat) (l : list A) :
  (∀ x, length (f x) = n) → length (l ≫= f) = length l * n.
Proof.
  intros Hf. induction l as [|a l IH]; [done|].
  rewrite bind_cons, length_app, Hf, IH. simpl. lia.
Qed.

(** X13.  The problem has 15 constraints per student and 66 more: one
    exclusivity constraint per period and student, one no-repeat constraint
    per student and activity, a minimum and a maximum per period and
    activity, and one preference constraint per student. *)
Theorem constraint_count NUM_STUDENTS student_info_dicts :
  length (CONSTRAINT_1 NUM_STUDENTS) = NUM_PERIODS * NUM_STUDENTS
  ∧ length (CONSTRAINT_2 NUM_STUDENTS) = NUM_STUDENTS * NUM_ACTIVITIES
  ∧ length (CONSTRAINT_3 NUM_STUDENTS) = NUM_PERIODS * NUM_ACTIVITIES
  ∧ length (CONSTRAINT_4 NUM_STUDENTS) = NUM_PERIODS * NUM_ACTIVITIES
  ∧ length (CONSTRAINT_5 NUM_STUDENTS student_info_dicts) = NUM_STUDENTS
  ∧ length (constraints (prob NUM_STUDENTS student_info_dicts))
    = 15 * NUM_STUDENTS + 66.
Proof.
  assert (length (decision_vars_list NUM_STUDENTS) = NUM_PERIODS) as Hd
    by (unfold decision_vars_list; by rewrite length_fmap, length_seq).
  assert (length (CONSTRAINT_1 NUM_STUDENTS) = NUM_PERIODS * NUM_STUDENTS)
    as H1.
  { unfold CONSTRAINT_1.
    rewrite (length_bind_const _ (NUM_STUDENTS * 1)), Hd; [lia|].
    intros dv. by rewrite (length_bind_const _ 1), length_seq. }
  assert (length (CONSTRAINT_2 NUM_STUDENTS) = NUM_STUDENTS * NUM_ACTIVITIES)
    as H2.
  { unfold CONSTRAINT_2.
    rewrite (length_bind_const _ (NUM_ACTIVITIES * 1)), length_seq; [lia|].
    intros i. by rewrite (length_bind_const _ 1), length_seq. }
  assert (length (CONSTRAINT_3 NUM_STUDENTS) = NUM_PERIODS * NUM_ACTIVITIES)
    as H3.
  { unfold CONSTRAINT_3.
    rewrite (length_bind_const _ (NUM_ACTIVITIES * 1)), Hd; [lia|].
    intros dv. by rewrite (length_bind_const _ 1), length_seq. }
  assert (length (CONSTRAINT_4 NUM_STUDENTS) = NUM_PERIODS * NUM_ACTIVITIES)
    as H4.
  { unfold CONSTRAINT_4.
    rewrite (length_bind_const _ (NUM_ACTIVITIES * 1)), Hd; [lia|].
    intros dv. by rewrite (length_bind_const _ 1), length_seq. }
  assert (length (CONSTRAINT_5 NUM_STUDENTS student_info_dicts)
          = NUM_STUDENTS) as H5.
  { unfold CONSTRAINT_5.
    rewrite (length_bind_const _ 1), length_seq; [lia|done]. }
  do 5 (split; [done|]).
  unfold prob. cbn [constraints].
  rewrite !length_app, H1, H2, H3, H4, H5.
  unfold NUM_PERIODS, NUM_ACTIVITIES. simpl length. lia.
Qed.

(** X14.  A student who ranks one activity first and second and another
    third and fourth makes the problem infeasible: the preference constraint
    counts each of the two activities twice, so its sum is even and cannot
    be 3. *)
Theorem paired_choices_are_infeasible student_choice_data student_info_dicts
    sol i first_name last_name a b :
  STEP3 student_choice_data = Ok student_info_dicts →
  student_choice_data !! i = Some [first_name; last_name; a; a; b; b] →
  ¬ feasible (prob (length student_choice_data) student_info_dicts) sol.
Proof.
  intros Hload Hrow Hfeas.
  assert (i < length student_choice_data) as Hi by (by eapply lookup_lt_Some).
  destruct (feasible_three_of_four _ _ sol i Hload Hfeas Hi)
    as (f & l & c1 & c2 & c3 & c4 & Hrow' & _ & _ & Hgot).
  rewrite Hrow in Hrow'. injection Hrow' as <- <- <- <- <- <-.
  lia.
Qed.

Lemma paired_choices_are_infeasible_witness :
  ¬ feasible (prob (length Paired.student_choice_data)
                Paired.student_info_dicts) Rotation.solution.
Proof.
  apply (paired_choices_are_infeasible Paired.student_choice_data
           Paired.student_info_dicts Rotation.solution 0 "Alan" "Turing"
           "Salute" "Measuring").
  - by vm_compute.
  - reflexivity.
Defined.

(** ** The variable space *)

Lemma lpSum_fst vars : (lpSum vars).*1 = vars.
Proof.
  unfold lpSum. rewrite <- list_fmap_compose.
  induction vars as [|v vars IH]; [done|]. by rewrite fmap_cons, IH.
Qed.

Ltac crunch_elem :=
  repeat match goal with
  | H : _ ∈ _ ++ _ |- _ => apply elem_of_app in H as [H|H]
  | H : _ ∈ _ ≫= _ |- _ => apply list_elem_of_bind in H as (? & H & ?)
  | H : _ ∈ [_] |- _ => apply list_elem_of_singleton in H; subst
  | H : _ ∈ _ <$> _ |- _ => apply list_elem_of_fmap in H as (? & ? & H); subst
  | H : _ ∈ seq 0 _ |- _ => apply in_seq_0 in H
  end.

(** X15.  The variables of the problem are exactly the variables
    [decision_vars_list[period][(i, j)]] of the NUM_PERIODS x NUM_STUDENTS x
    NUM_ACTIVITIES triples, each a binary variable with bounds 0 and 1: the
    constraints and the objective mention no other variable, and every
    triple occurs. *)
Theorem variable_space student_choice_data student_info_dicts v :
  STEP3 student_choice_data = Ok student_info_dicts →
  (v ∈ variables (prob (length student_choice_data) student_info_dicts)
   ↔ ∃ period i j,
       period < NUM_PERIODS ∧ i < length student_choice_data
       ∧ j < NUM_ACTIVITIES
       ∧ v = mkLpVariable (period + 1) (i, j) 0 1 LpBinary
       ∧ v = (decision_vars_list (length student_choice_data) !!! period)
               !!! (i, j)).
Proof.
  intros Hload.
  assert (∀ period i j,
            period < NUM_PERIODS → i < length student_choice_data →
            j < NUM_ACTIVITIES →
            ∃ period' i' j',
              period' < NUM_PERIODS ∧ i' < length student_choice_data
              ∧ j' < NUM_ACTIVITIES
              ∧ decision_var period i j
                = mkLpVariable (period' + 1) (i', j') 0 1 LpBinary
              ∧ decision_var period i j
                = (decision_vars_list (length student_choice_data) !!! period')
                    !!! (i', j')) as Hok.
  { intros p i j Hp Hi Hj. exists p, i, j.
    rewrite decision_vars_lookup by done. by repeat split. }
  split.
  - unfold variables. intros Hv. apply elem_of_app in Hv as [Hv|Hv].
    + apply list_elem_of_bind in Hv as (c & Hv & Hc).
      unfold prob in Hc. cbn [constraints] in Hc.
      rewrite CONSTRAINT_1_eq, CONSTRAINT_2_eq, CONSTRAINT_3_eq,
        CONSTRAINT_4_eq in Hc.
      rewrite CONSTRAINT_5_eq in Hc by (by apply choices_valid).
      revert Hv. crunch_elem; cbn [c_expr]; rewrite lpSum_fst; intros Hv;
        crunch_elem; apply Hok; try done.
      by eapply choices_valid.
    + rewrite (objective_eq _ _ Hload) in Hv.
      apply list_elem_of_fmap in Hv as ([v' k] & -> & Hv).
      apply list_elem_of_bind in Hv as (p & Hv & Hp).
      apply list_elem_of_bind in Hv as (i & Hv & Hi).
      apply in_seq_0 in Hp, Hi. apply elem_of_zip_l in Hv.
      apply list_elem_of_fmap in Hv as (j & -> & Hj).
      apply Hok; try done. by eapply choices_valid.
  - intros (p & i & j & Hp & Hi & Hj & -> & _).
    unfold variables. apply elem_of_app. left. apply list_elem_of_bind.
    eexists. split; [|by apply (CONSTRAINT_1_elem _ _ p i)].
    cbn [c_expr]. rewrite lpSum_fst.
    apply list_elem_of_fmap. exists j. split; [done|by apply in_seq_0].
Qed.

Lemma variable_space_witness :
  mkLpVariable 3 (54, 10) 0 1 LpBinary
    ∈ variables (prob (length Rotation.student_choice_data)
                   Rotation.student_info_dicts)
  ↔ ∃ period i j,
      period < NUM_PERIODS ∧ i < length Rotation.student_choice_data
      ∧ j < NUM_ACTIVITIES
      ∧ mkLpVariable 3 (54, 10) 0 1 LpBinary
        = mkLpVariable (period + 1) (i, j) 0 1 LpBinary
      ∧ mkLpVariable 3 (54, 10) 0 1 LpBinary
        = (decision_vars_list (length Rotation.student_choice_data) !!! period)
            !!! (i, j).
Proof.
  apply (variable_space Rotation.student_choice_data
           Rotation.student_info_dicts).
  exact Rotation_load.
Defined.

(** ** The objective and the validator *)

Lemma value_app sol e1 e2 :
  value sol (e1 ++ e2) = (value sol e1 + value sol e2)%Z.
Proof.
  induction e1 as [|[v k] e1 IH]; [done|].
  rewrite <- app_comm_cons, !value_cons, IH. lia.
Qed.

Lemma value_bind {A} sol (f : A → LpAffineExpression) (l : list A) :
  value sol (l ≫= f) = Zsum ((λ x, value sol (f x)) <$> l).
Proof.
  induction l as [|a l IH]; [done|].
  by rewrite bind_cons, value_app, fmap_cons, Zsum_cons, IH.
Qed.

Lemma Zsum_weighted {A} (f0 f1 f2 f3 : A → Z) (l : list A) :
  Zsum ((λ a, 1000 * f0 a + 100 * f1 a + 10 * f2 a + f3 a)%Z <$> l)
  = (1000 * Zsum (f0 <$> l) + 100 * Zsum (f1 <$> l) + 10 * Zsum (f2 <$> l)
     + Zsum (f3 <$> l))%Z.
Proof.
  induction l as [|a l IH]; [done|].
  rewrite !fmap_cons, !Zsum_cons, IH. lia.
Qed.

Lemma Zsum_of_nat {A} (f : A → nat) (l : list A) :
  Z.of_nat (sum_list (f <$> l)) = Zsum ((λ x, Z.of_nat (f x)) <$> l).
Proof.
  induction l as [|a l IH]; [done|].
  rewrite !fmap_cons, Zsum_cons, <- IH. simpl. lia.
Qed.

(** What one iteration of STEP 9 adds to the counters. *)
Lemma STEP9_body_totals d t :
  length (choices_full_names d) = 4 →
  total_got_choice1 (STEP9_body d t) = total_got_choice1 t + got_rank 0 d
  ∧ total_got_choice2 (STEP9_body d t) = total_got_choice2 t + got_rank 1 d
  ∧ total_got_choice3 (STEP9_body d t) = total_got_choice3 t + got_rank 2 d
  ∧ total_got_choice4 (STEP9_body d t) = total_got_choice4 t + got_rank 3 d.
Proof.
  intros Hlen. unfold STEP9_body, got_rank.
  destruct (choices_full_names d) as [|c1 [|c2 [|c3 [|c4 [|? ?]]]]];
    try done.
Qed.

Lemma STEP9_fold_totals (d : gmap nat student_info) (l : list nat) t :
  (∀ i, i ∈ l → length (choices_full_names (d !!! i)) = 4) →
  total_got_choice1 (foldl (λ t i, STEP9_body (d !!! i) t) t l)
  = total_got_choice1 t + sum_list ((λ i, got_rank 0 (d !!! i)) <$> l)
  ∧ total_got_choice2 (foldl (λ t i, STEP9_body (d !!! i) t) t l)
    = total_got_choice2 t + sum_list ((λ i, got_rank 1 (d !!! i)) <$> l)
  ∧ total_got_choice3 (foldl (λ t i, STEP9_body (d !!! i) t) t l)
    = total_got_choice3 t + sum_list ((λ i, got_rank 2 (d !!! i)) <$> l)
  ∧ total_got_choice4 (foldl (λ t i, STEP9_body (d !!! i) t) t l)
    = total_got_choice4 t + sum_list ((λ i, got_rank 3 (d !!! i)) <$> l).
Proof.
  revert t. induction l as [|i l IH]; intros t Hl;
    [repeat split; simpl; lia|].
  simpl foldl. rewrite !fmap_cons. cbn [sum_list sum_list_with].
  destruct (IH (STEP9_body (d !!! i) t)) as (H1 & H2 & H3 & H4);
    [intros; apply Hl; by right|].
  destruct (STEP9_body_totals (d !!! i) t) as (B1 & B2 & B3 & B4);
    [apply Hl; by left|].
  rewrite H1, H2, H3, H4, B1, B2, B3, B4. unfold id. lia.
Qed.

Lemma STEP9_totals NUM_STUDENTS (d : gmap nat student_info) :
  (∀ i, i < NUM_STUDENTS → length (choices_full_names (d !!! i)) = 4) →
  total_got_choice1 (STEP9 NUM_STUDENTS d)
  = sum_list ((λ i, got_rank 0 (d !!! i)) <$> seq 0 NUM_STUDENTS)
  ∧ total_got_choice2 (STEP9 NUM_STUDENTS d)
    = sum_list ((λ i, got_rank 1 (d !!! i)) <$> seq 0 NUM_STUDENTS)
  ∧ total_got_choice3 (STEP9 NUM_STUDENTS d)
    = sum_list ((λ i, got_rank 2 (d !!! i)) <$> seq 0 NUM_STUDENTS)
  ∧ total_got_choice4 (STEP9 NUM_STUDENTS d)
    = sum_list ((λ i, got_rank 3 (d !!! i)) <$> seq 0 NUM_STUDENTS).
Proof.
  intros Hlen. unfold STEP9.
  destruct (STEP9_fold_totals d (seq 0 NUM_STUDENTS) (mkTotals 0 0 0 0 0))
    as (H1 & H2 & H3 & H4).
  { intros i Hi. apply Hlen. by apply in_seq_0. }
  by rewrite H1, H2, H3, H4.
Qed.

(** What a student contributes to the objective, over the three periods. *)
Lemma student_value student_choice_data student_info_dicts sol i :
  STEP3 student_choice_data = Ok student_info_dicts →
  feasible (prob (length student_choice_data) student_info_dicts) sol →
  i < length student_choice_data →
  let d := STEP8_extract (length student_choice_data) sol student_info_dicts
             !!! i in
  length (choices_full_names d) = 4
  ∧ got_rank 0 d + got_rank 1 d + got_rank 2 d + got_rank 3 d = 3
  ∧ Zsum ((λ period,
             value sol (zip (decision_var period i
                               <$> choices (student_info_dicts !!! i))
                          weights)) <$> seq 0 NUM_PERIODS)
    = (1000 * Z.of_nat (got_rank 0 d) + 100 * Z.of_nat (got_rank 1 d)
       + 10 * Z.of_nat (got_rank 2 d) + Z.of_nat (got_rank 3 d))%Z.
Proof.
  intros Hload Hfeas Hi. cbv zeta.
  destruct (loaded _ _ Hload i Hi)
    as (f & l & c1 & c2 & c3 & c4 & n1 & n2 & n3 & n4 & _ & Hd
        & [L1 E1] & [L2 E2] & [L3 E3] & [L4 E4]).
  destruct (feasible_extract _ _ Hload sol Hfeas i Hi)
    as (d & j0 & j1 & j2 & Hd' & _ & H0 & H1 & H2 & ->).
  rewrite Hd in Hd'. injection Hd' as <-.
  rewrite (lookup_total_correct _ _ _ Hd).
  unfold got_rank. cbn [choices choices_full_names assignments].
  cbn [lookup_total list_lookup_total].
  pose proof (got_val _ _ sol Hfeas i n1 j0 j1 j2 Hi L1 H0 H1 H2) as G1.
  pose proof (got_val _ _ sol Hfeas i n2 j0 j1 j2 Hi L2 H0 H1 H2) as G2.
  pose proof (got_val _ _ sol Hfeas i n3 j0 j1 j2 Hi L3 H0 H1 H2) as G3.
  pose proof (got_val _ _ sol Hfeas i n4 j0 j1 j2 Hi L4 H0 H1 H2) as G4.
  rewrite E1 in G1. rewrite E2 in G2. rewrite E3 in G3. rewrite E4 in G4.
  pose proof (feasible_preference _ _ Hload sol Hfeas i Hi) as Hs.
  rewrite (lookup_total_correct _ _ _ Hd) in Hs. cbn [choices] in Hs.
  change (seq 0 NUM_PERIODS) with [0; 1; 2] in *.
  rewrite !bind_cons in Hs. simpl in Hs. unfold Zsum in Hs. simpl in Hs.
  split; [done|]. split; [lia|].
  unfold weights. cbn [fmap list_fmap zip zip_with].
  rewrite !Zsum_cons, !value_cons.
  change (value sol []) with 0%Z. change (Zsum []) with 0%Z. lia.
Qed.

Lemma objective_totals student_choice_data student_info_dicts sol :
  STEP3 student_choice_data = Ok student_info_dicts →
  feasible (prob (length student_choice_data) student_info_dicts) sol →
  let NUM_STUDENTS := length student_choice_data in
  let t :=
    STEP9 NUM_STUDENTS (STEP8_extract NUM_STUDENTS sol student_info_dicts) in
  value sol (objective (prob NUM_STUDENTS student_info_dicts))
  = (1000 * Z.of_nat (total_got_choice1 t)
     + 100 * Z.of_nat (total_got_choice2 t)
     + 10 * Z.of_nat (total_got_choice3 t)
     + Z.of_nat (total_got_choice4 t))%Z
  ∧ total_got_choice1 t + total_got_choice2 t + total_got_choice3 t
      + total_got_choice4 t = 3 * NUM_STUDENTS
  ∧ (total_got_choice1 t ≤ NUM_STUDENTS)%nat
  ∧ (total_got_choice2 t ≤ NUM_STUDENTS)%nat
  ∧ (total_got_choice3 t ≤ NUM_STUDENTS)%nat
  ∧ (total_got_choice4 t ≤ NUM_STUDENTS)%nat.
Proof.
  intros Hload Hfeas. cbv zeta.
  set (ex := STEP8_extract (length student_choice_data) sol
               student_info_dicts).
  destruct (STEP9_totals (length student_choice_data) ex)
    as (T1 & T2 & T3 & T4).
  { intros i Hi. by destruct (student_value _ _ sol i Hload Hfeas Hi). }
  rewrite T1, T2, T3, T4, !Zsum_of_nat, <- Zsum_weighted.
  rewrite (objective_eq _ _ Hload), value_bind.
  rewrite (fmap_ext_in _
             (λ period,
                Zsum ((λ i, value sol
                              (zip (decision_var period i
                                      <$> choices (student_info_dicts !!! i))
                                 weights))
                        <$> seq 0 (length student_choice_data))))
    by (intros p _; apply value_bind).
  rewrite <- Zsum_swap.
  assert (∀ k, (sum_list ((λ i, got_rank k (ex !!! i))
                           <$> seq 0 (length student_choice_data))
               ≤ length student_choice_data)%nat) as Hle.
  { intros k. 
    assert (∀ l : list nat,
              (sum_list ((λ i, got_rank k (ex !!! i)) <$> l) ≤ length l)%nat)
      as H.
    { induction l as [|a l IH]; [simpl; lia|].
      rewrite fmap_cons. cbn [sum_list sum_list_with length]. unfold id in *.
      assert (got_rank k (ex !!! a) ≤ 1)%nat
        by (unfold got_rank, got; destruct (decide _); lia).
      lia. }
    specialize (H (seq 0 (length student_choice_data))).
    by rewrite length_seq in H. }
  split.
  { apply f_equal, fmap_ext_in. intros i Hi. apply in_seq_0 in Hi.
    by destruct (student_value _ _ sol i Hload Hfeas Hi) as (_ & _ & ->). }
  split; [|by repeat split].
  apply Nat2Z.inj. rewrite !Nat2Z.inj_add, !Zsum_of_nat.
  rewrite Nat2Z.inj_mul.
  assert (Zsum ((λ i, Z.of_nat (got_rank 0 (ex !!! i))
                      + Z.of_nat (got_rank 1 (ex !!! i))
                      + Z.of_nat (got_rank 2 (ex !!! i))
                      + Z.of_nat (got_rank 3 (ex !!! i)))%Z
                  <$> seq 0 (length student_choice_data))
          = (3 * Z.of_nat (length student_choice_data))%Z) as Hsum.
  { rewrite (fmap_ext_in _ (λ _, 3%Z)).
    - assert (3 * Z.of_nat (length (seq 0 (length student_choice_data)))
              ≤ Zsum ((λ _ : nat, 3%Z) <$> seq 0 (length student_choice_data))
              ≤ 3 * Z.of_nat (length (seq 0 (length student_choice_data))))%Z
        as H by (apply Zsum_bounds; intros; lia).
      rewrite length_seq in H. lia.
    - intros i Hi. apply in_seq_0 in Hi.
      destruct (student_value _ _ sol i Hload Hfeas Hi) as (_ & H & _).
      fold ex in H. lia. }
  rewrite !Zsum_fmap_add in Hsum. change (Z.of_nat 3) with 3%Z. lia.
Qed.

(** X16.  For a feasible solution the objective value that STEP 7 prints is
    recomputed by the counters of STEP 9: it is 1000 times the number of
    students who got their first choice, plus 100, 10 and 1 times the
    numbers for the second, third and fourth choice. *)
Theorem objective_matches_validator student_choice_data student_info_dicts
    sol :
  STEP3 student_choice_data = Ok student_info_dicts →
  feasible (prob (length student_choice_data) student_info_dicts) sol →
  let NUM_STUDENTS := length student_choice_data in
  let t :=
    STEP9 NUM_STUDENTS (STEP8_extract NUM_STUDENTS sol student_info_dicts) in
  value sol (objective (prob NUM_STUDENTS student_info_dicts))
  = (1000 * Z.of_nat (total_got_choice1 t)
     + 100 * Z.of_nat (total_got_choice2 t)
     + 10 * Z.of_nat (total_got_choice3 t)
     + Z.of_nat (total_got_choice4 t))%Z.
Proof.
  intros Hload Hfeas.
  by destruct (objective_totals _ _ sol Hload Hfeas) as [H _].
Qed.

Lemma objective_matches_validator_witness :
  let NUM_STUDENTS := length Rotation.student_choice_data in
  let t :=
    STEP9 NUM_STUDENTS
      (STEP8_extract NUM_STUDENTS Rotation.solution
         Rotation.student_info_dicts) in
  value Rotation.solution
    (objective (prob NUM_STUDENTS Rotation.student_info_dicts))
  = (1000 * Z.of_nat (total_got_choice1 t)
     + 100 * Z.of_nat (total_got_choice2 t)
     + 10 * Z.of_nat (total_got_choice3 t)
     + Z.of_nat (total_got_choice4 t))%Z.
Proof.
  apply (objective_matches_validator Rotation.student_choice_data
           Rotation.student_info_dicts Rotation.solution).
  - exact Rotation_load.
  - exact Rotation_feasible.
Defined.

(** X17.  For a feasible solution the four per-rank counters of STEP 9 add
    up to three times the number of students. *)
Theorem rank_counters_add_up student_choice_data student_info_dicts sol :
  STEP3 student_choice_data = Ok student_info_dicts →
  feasible (prob (length student_choice_data) student_info_dicts) sol →
  let NUM_STUDENTS := length student_choice_data in
  let t :=
    STEP9 NUM_STUDENTS (STEP8_extract NUM_STUDENTS sol student_info_dicts) in
  total_got_choice1 t + total_got_choice2 t + total_got_choice3 t
    + total_got_choice4 t = 3 * NUM_STUDENTS.
Proof.
  intros Hload Hfeas.
  by destruct (objective_totals _ _ sol Hload Hfeas) as (_ & H & _).
Qed.

Lemma rank_counters_add_up_witness :
  let NUM_STUDENTS := length Rotation.student_choice_data in
  let t :=
    STEP9 NUM_STUDENTS
      (STEP8_extract NUM_STUDENTS Rotation.solution
         Rotation.student_info_dicts) in
  total_got_choice1 t + total_got_choice2 t + total_got_choice3 t
    + total_got_choice4 t = 3 * NUM_STUDENTS.
Proof.
  apply (rank_counters_add_up Rotation.student_choice_data
           Rotation.student_info_dicts Rotation.solution).
  - exact Rotation_load.
  - exact Rotation_feasible.
Defined.

Lemma STEP9_body_le d t :
  (total_got_choice1 (STEP9_body d t) ≤ total_got_choice1 t + 1
   ∧ total_got_choice2 (STEP9_body d t) ≤ total_got_choice2 t + 1
   ∧ total_got_choice3 (STEP9_body d t) ≤ total_got_choice3 t + 1
   ∧ total_got_choice4 (STEP9_body d t) ≤ total_got_choice4 t + 1
   ∧ total_got_3_of_4 (STEP9_body d t) ≤ total_got_3_of_4 t + 1)%nat.
Proof.
  unfold STEP9_body.
  destruct (choices_full_names d) as [|c1 [|c2 [|c3 [|c4 [|? ?]]]]];
    try (repeat split; lia).
  cbn [total_got_choice1 total_got_choice2 total_got_choice3
         total_got_choice4 total_got_3_of_4].
  unfold got. repeat destruct (decide _); repeat split; lia.
Qed.

(** X18.  Whatever the assignments, no counter of STEP 9 exceeds the number
    of students, so every percentage printed lies between 0 and 100. *)
Theorem counters_bounded NUM_STUDENTS (d : gmap nat student_info) :
  (total_got_choice1 (STEP9 NUM_STUDENTS d) ≤ NUM_STUDENTS
   ∧ total_got_choice2 (STEP9 NUM_STUDENTS d) ≤ NUM_STUDENTS
   ∧ total_got_choice3 (STEP9 NUM_STUDENTS d) ≤ NUM_STUDENTS
   ∧ total_got_choice4 (STEP9 NUM_STUDENTS d) ≤ NUM_STUDENTS
   ∧ total_got_3_of_4 (STEP9 NUM_STUDENTS d) ≤ NUM_STUDENTS)%nat.
Proof.
  unfold STEP9.
  assert (∀ l t,
            let t' := foldl (λ t i, STEP9_body (d !!! i) t) t l in
            (total_got_choice1 t' ≤ total_got_choice1 t + length l
             ∧ total_got_choice2 t' ≤ total_got_choice2 t + length l
             ∧ total_got_choice3 t' ≤ total_got_choice3 t + length l
             ∧ total_got_choice4 t' ≤ total_got_choice4 t + length l
             ∧ total_got_3_of_4 t' ≤ total_got_3_of_4 t + length l)%nat)
    as Hfold.
  { induction l as [|i l IH]; intros t; cbv zeta; [simpl; lia|].
    simpl foldl. specialize (IH (STEP9_body (d !!! i) t)). cbv zeta in IH.
    pose proof (STEP9_body_le (d !!! i) t). simpl length. lia. }
  specialize (Hfold (seq 0 NUM_STUDENTS) (mkTotals 0 0 0 0 0)).
  cbv zeta in Hfold. rewrite length_seq in Hfold. simpl in Hfold. lia.
Qed.

(** X19.  The objective value of a feasible solution lies between 111 and
    1110 points per student: every student gets three of four choices, at
    worst the last three, at best the first three. *)
Theorem objective_bounds student_choice_data student_info_dicts sol :
  STEP3 student_choice_data = Ok student_info_dicts →
  feasible (prob (length student_choice_data) student_info_dicts) sol →
  (111 * Z.of_nat (length student_choice_data)
   ≤ value sol (objective (prob (length student_choice_data)
                             student_info_dicts))
   ≤ 1110 * Z.of_nat (length student_choice_data))%Z.
Proof.
  intros Hload Hfeas.
  destruct (objective_totals _ _ sol Hload Hfeas)
    as (-> & Hsum & H1 & H2 & H3 & H4).
  lia.
Qed.

Lemma objective_bounds_witness :
  (111 * Z.of_nat (length Rotation.student_choice_data)
   ≤ value Rotation.solution
       (objective (prob (length Rotation.student_choice_data)
                     Rotation.student_info_dicts))
   ≤ 1110 * Z.of_nat (length Rotation.student_choice_data))%Z.
Proof.
  apply (objective_bounds Rotation.student_choice_data
           Rotation.student_info_dicts Rotation.solution).
  - exact Rotation_load.
  - exact Rotation_feasible.
Defined.

(** X20.  A feasible solution worth 1110 points per student (every student
    gets the first, second and third choice) is optimal: no feasible
    solution of the problem has a larger objective value. *)
Theorem top_three_is_optimal student_choice_data student_info_dicts sol :
  STEP3 student_choice_data = Ok student_info_dicts →
  feasible (prob (length student_choice_data) student_info_dicts) sol →
  value sol (objective (prob (length student_choice_data)
                          student_info_dicts))
  = (1110 * Z.of_nat (length student_choice_data))%Z →
  optimal (prob (length student_choice_data) student_info_dicts) sol.
Proof.
  intros Hload Hfeas Hval. split; [done|]. intros sol' Hfeas'.
  change (prob_sense (prob (length student_choice_data) student_info_dicts))
    with LpMaximize. cbv beta iota. rewrite Hval.
  destruct (objective_totals _ _ sol' Hload Hfeas')
    as (-> & Hsum & H1 & H2 & H3 & H4).
  lia.
Qed.

Lemma top_three_is_optimal_witness :
  optimal (prob (length Rotation.student_choice_data)
             Rotation.student_info_dicts) Rotation.solution.
Proof.
  apply (top_three_is_optimal Rotation.student_choice_data
           Rotation.student_info_dicts Rotation.solution).
  - exact Rotation_load.
  - exact Rotation_feasible.
  - by vm_compute.
Defined.

(** ** The run: how it can end *)

Lemma student_of_row_kinds row e :
  student_of_row row = Raise e →
  e = ValueError ∨ ∃ c, e = KeyError c ∧ c ∉ ACTIVITIES_LIST.
Proof.
  unfold student_of_row.
  destruct row as [|f [|l [|c1 [|c2 [|c3 [|c4 [|? ?]]]]]]];
    try (by intros [= <-]; left).
  intros H. apply rbind_Raise in H as [H|(? & _ & H)]; [|done].
  apply rmapM_Raise in H as (c & _ & H). right. exists c.
  destruct (decide (c ∈ ACTIVITIES_LIST)) as [Hc|Hc].
  - apply getitem_known in Hc as [n Hn]. congruence.
  - split; [|done]. rewrite (getitem_unknown _ Hc) in H. by injection H.
Qed.

Lemma STEP3_Raise_row student_choice_data e :
  STEP3 student_choice_data = Raise e →
  ∃ i row, student_choice_data !! i = Some row ∧ student_of_row row = Raise e.
Proof.
  intros H.
  pose proof (STEP3_loop_rmapM (enumerate student_choice_data) ∅) as H'.
  rewrite enumerate_snd in H'. fold (STEP3 student_choice_data) in H'.
  rewrite H in H'.
  destruct (rmapM student_of_row student_choice_data) as [|e'] eqn:Hm;
    [done|]. subst e'.
  apply rmapM_Raise_first in Hm as (i & row & Hi & Hrow & _). eauto.
Qed.

Lemma student_of_row_KeyError row c :
  student_of_row row = Raise (KeyError c) →
  (c ∉ ACTIVITIES_LIST) ∧ length row = 6 ∧ c ∈ drop 2 row.
Proof.
  unfold student_of_row.
  destruct row as [|f [|l [|c1 [|c2 [|c3 [|c4 [|? ?]]]]]]]; try done.
  intros H. apply rbind_Raise in H as [H|(? & _ & H)]; [|done].
  apply rmapM_Raise in H as (c' & Hin & H).
  destruct (decide (c' ∈ ACTIVITIES_LIST)) as [Hc|Hc].
  - apply getitem_known in Hc as [n Hn]. congruence.
  - rewrite (getitem_unknown _ Hc) in H. injection H as ->. done.
Qed.

Lemma student_of_row_ValueError row :
  student_of_row row = Raise ValueError → length row ≠ 6.
Proof.
  unfold student_of_row.
  destruct row as [|f [|l [|c1 [|c2 [|c3 [|c4 [|? ?]]]]]]]; try done.
  intros H. apply rbind_Raise in H as [H|(? & _ & H)]; [|done].
  apply rmapM_Raise in H as (c & _ & H). unfold getitem in H.
  by destruct (activities_dict !! c).
Qed.

(** Whether the unpacking of the assignments succeeds, in terms of the
    solver's values. *)
Lemma results_num_ones student_choice_data student_info_dicts sol :
  STEP3 student_choice_data = Ok student_info_dicts →
  match STEP8_results (length student_choice_data)
          (STEP8_extract (length student_choice_data) sol student_info_dicts)
  with
  | Ok results =>
      ∀ i, i < length student_choice_data → num_ones sol i = NUM_PERIODS
  | Raise e =>
      ∃ i, i < length student_choice_data ∧ num_ones sol i ≠ NUM_PERIODS
  end.
Proof.
  intros Hload.
  assert (∀ i, i < length student_choice_data →
            ∃ c1 c2 c3 c4,
              choices_full_names
                (STEP8_extract (length student_choice_data) sol
                   student_info_dicts !!! i)
              = [c1; c2; c3; c4] ∧
              assignments
                (STEP8_extract (length student_choice_data) sol
                   student_info_dicts !!! i)
              = picked sol i) as Hex.
  { intros i Hi.
    destruct (extract_loaded _ _ sol i Hload Hi)
      as (f & l & c1 & c2 & c3 & c4 & ids & _ & ->).
    by exists c1, c2, c3, c4. }
  destruct (STEP8_results _ _) as [results|e] eqn:Hres.
  - intros i Hi. apply STEP8_results_Ok in Hres as [_ Hrows].
    destruct (Hrows i Hi) as (row & _ & Hr).
    destruct (Hex i Hi) as (c1 & c2 & c3 & c4 & Hc & Ha).
    rewrite <- length_picked, <- Ha.
    apply (result_row_length _ c1 c2 c3 c4 Hc). by exists row.
  - apply STEP8_results_Raise in Hres as (-> & i & Hi & Hr).
    exists i. split; [done|].
    destruct (Hex i Hi) as (c1 & c2 & c3 & c4 & Hc & Ha).
    rewrite <- length_picked, <- Ha. intros Hlen.
    apply (result_row_length _ c1 c2 c3 c4 Hc) in Hlen as [row Hrow].
    congruence.
Qed.

(** X21.  A run ends without an exception only if the input file exists,
    every row is loaded by STEP 3, there is at least one student, the solver
    answers "optimal" and every student has exactly three variables equal
    to 1.  The solver has then been called once, the output file holds the
    header row and one row per student, and the objective line followed by
    the five percentage lines has been printed.  Feasibility of the
    solver's answer is not among the conditions. *)
Theorem normal_termination solver input :
  fst (run solver input) = Ok () →
  ∃ rows student_info_dicts results,
    input !! "student_choices.csv" = Some rows
    ∧ STEP3 (drop 1 rows) = Ok student_info_dicts
    ∧ (1 < length rows)%nat
    ∧ let NUM_STUDENTS := length (drop 1 rows) in
      let prob := prob NUM_STUDENTS student_info_dicts in
      let extracted :=
        STEP8_extract NUM_STUDENTS (solver prob) student_info_dicts in
      status (solver prob) = LpStatusOptimal
      ∧ (∀ i, i < NUM_STUDENTS → num_ones (solver prob) i = NUM_PERIODS)
      ∧ length results = NUM_STUDENTS
      ∧ snd (run solver input)
        = mkWorld (<["assignment_outputs.csv" := headers :: results]> input)
            [prob]
            (print_Z "Objective value:" (value (solver prob) (objective prob))
               :: report (STEP9 NUM_STUDENTS extracted) NUM_STUDENTS).
Proof.
  rewrite run_unfold.
  destruct (input !! "student_choices.csv") as [rows|]; [|done].
  cbv zeta.
  destruct (STEP3 (drop 1 rows)) as [dicts|e] eqn:Hload; [|done].
  destruct (bool_decide _) eqn:Hst; [|done].
  apply bool_decide_eq_true_1 in Hst.
  pose proof (results_num_ones (drop 1 rows) dicts
                (solver (prob (length (drop 1 rows)) dicts)) Hload) as Hones.
  destruct (STEP8_results _ _) as [results|e] eqn:Hres; [|done].
  destruct (decide (length (drop 1 rows) = 0)) as [H0|H0]; [done|].
  intros _. exists rows, dicts, results.
  rewrite length_drop in H0.
  repeat split; try done; [lia|].
  by apply STEP8_results_Ok in Hres as [? _].
Qed.

Lemma normal_termination_witness :
  ∃ rows student_info_dicts results,
    Rotation.input !! "student_choices.csv" = Some rows
    ∧ STEP3 (drop 1 rows) = Ok student_info_dicts
    ∧ (1 < length rows)%nat
    ∧ let NUM_STUDENTS := length (drop 1 rows) in
      let prob := prob NUM_STUDENTS student_info_dicts in
      let extracted :=
        STEP8_extract NUM_STUDENTS (Rotation.solver prob) student_info_dicts in
      status (Rotation.solver prob) = LpStatusOptimal
      ∧ (∀ i, i < NUM_STUDENTS →
           num_ones (Rotation.solver prob) i = NUM_PERIODS)
      ∧ length results = NUM_STUDENTS
      ∧ snd (run Rotation.solver Rotation.input)
        = mkWorld
            (<["assignment_outputs.csv" := headers :: results]>
               Rotation.input)
            [prob]
            (print_Z "Objective value:"
               (value (Rotation.solver prob) (objective prob))
               :: report (STEP9 NUM_STUDENTS extracted) NUM_STUDENTS).
Proof.
  apply (normal_termination Rotation.solver Rotation.input).
  destruct (run_optimal_feasible Rotation.solver Rotation.input Rotation.csv
              Rotation.student_choice_data Rotation.student_info_dicts
              Rotation_input eq_refl Rotation_load eq_refl Rotation_feasible)
    as (results & _ & ->).
  reflexivity.
Defined.

(** X22.  What the exceptions of the script's own statements tell about a
    run.  A [KeyError] names a choice of some six-field input row that is
    not in the catalog, and nothing was submitted, printed or written.  A
    [ValueError] comes either from an input row that does not have six
    fields (nothing submitted, printed or written) or, after an "optimal"
    answer, from a student whose number of variables equal to 1 is not
    three (no file written).  An [AssertionError] carries "solution not
    found" and means that the solver's status was not "optimal"; the
    problem was submitted and nothing printed or written.
    [ZeroDivisionError] means that there was no student row and the solver
    answered "optimal"; the output file then holds the header row alone. *)
Theorem failure_diagnosis solver input :
  (∀ c, fst (run solver input) = Raise (KeyError c) →
     (c ∉ ACTIVITIES_LIST)
     ∧ (∃ rows i row,
          input !! "student_choices.csv" = Some rows
          ∧ drop 1 rows !! i = Some row
          ∧ length row = 6 ∧ c ∈ drop 2 row)
     ∧ snd (run solver input) = mkWorld input [] [])
  ∧ (fst (run solver input) = Raise ValueError →
     (∃ rows i row,
        input !! "student_choices.csv" = Some rows
        ∧ drop 1 rows !! i = Some row
        ∧ length row ≠ 6
        ∧ snd (run solver input) = mkWorld input [] [])
     ∨ (∃ rows student_info_dicts i,
          input !! "student_choices.csv" = Some rows
          ∧ STEP3 (drop 1 rows) = Ok student_info_dicts
          ∧ let prob := prob (length (drop 1 rows)) student_info_dicts in
            status (solver prob) = LpStatusOptimal
            ∧ i < length (drop 1 rows)
            ∧ num_ones (solver prob) i ≠ NUM_PERIODS
            ∧ files (snd (run solver input)) = input))
  ∧ (∀ msg, fst (run solver input) = Raise (AssertionError msg) →
     msg = "solution not found"
     ∧ ∃ rows student_info_dicts,
         input !! "student_choices.csv" = Some rows
         ∧ STEP3 (drop 1 rows) = Ok student_info_dicts
         ∧ let prob := prob (length (drop 1 rows)) student_info_dicts in
           status (solver prob) ≠ LpStatusOptimal
           ∧ snd (run solver input) = mkWorld input [prob] [])
  ∧ (fst (run solver input) = Raise ZeroDivisionError →
     ∃ rows,
       input !! "student_choices.csv" = Some rows
       ∧ (length rows ≤ 1)%nat
       ∧ status (solver (prob 0 ∅)) = LpStatusOptimal
       ∧ files (snd (run solver input))
         = <["assignment_outputs.csv" := [headers]]> input).
Proof.
  rewrite run_unfold.
  destruct (input !! "student_choices.csv") as [rows|];
    [|by repeat split; intros; simplify_eq].
  cbv zeta.
  destruct (STEP3 (drop 1 rows)) as [dicts|e] eqn:Hload.
  - pose proof (results_num_ones (drop 1 rows) dicts
                  (solver (prob (length (drop 1 rows)) dicts)) Hload)
      as Hones.
    destruct (bool_decide _) eqn:Hst.
    + apply bool_decide_eq_true_1 in Hst.
      destruct (STEP8_results _ _) as [results|e] eqn:Hres.
      * destruct (decide (length (drop 1 rows) = 0)) as [H0|H0];
          [|by repeat split; intros; simplify_eq].
        split; [by intros; simplify_eq|]. split; [by intros; simplify_eq|].
        split; [by intros; simplify_eq|]. intros _.
        exists rows. split; [done|].
        pose proof H0 as Hnil. apply length_zero_iff_nil in Hnil.
        rewrite Hnil in Hload. rewrite STEP3_nil in Hload.
        injection Hload as <-.
        rewrite H0 in Hst, Hres. rewrite length_drop in H0.
        split; [lia|]. split; [done|].
        cbn [snd files]. by injection Hres as <-.
      * apply STEP8_results_Raise in Hres as (-> & _).
        split; [by intros; simplify_eq|]. split.
        2: { split; by intros; simplify_eq. }
        intros _. right. destruct Hones as (i & Hi & Hne).
        by exists rows, dicts, i.
    + apply bool_decide_eq_false_1 in Hst.
      split; [by intros; simplify_eq|]. split; [by intros; simplify_eq|].
      split; [|by intros; simplify_eq].
      intros msg [= <-]. split; [done|]. by exists rows, dicts.
  - apply STEP3_Raise_row in Hload as (i & row & Hi & Hrow).
    split; [|split; [|split]].
    + intros c [= ->]. apply student_of_row_KeyError in Hrow as (? & ? & ?).
      split; [done|]. split; [|done]. by exists rows, i, row.
    + intros [= ->]. left. apply student_of_row_ValueError in Hrow.
      by exists rows, i, row.
    + intros msg [= ->]. exfalso.
      destruct (student_of_row_kinds _ _ Hrow) as [?|(? & ? & _)]; done.
    + intros [= ->]. by apply student_of_row_Raise in Hrow.
Qed.

Lemma Checked_sound p :
  status (Checked.solver p) = LpStatusOptimal → feasible p (Checked.solver p).
Proof. unfold Checked.solver. by destruct (decide _). Qed.

(** X23.  With a solver that answers "optimal" only together with a feasible
    solution, two of the failures cannot happen: the run never raises
    [ZeroDivisionError], and a [ValueError] can only come from a row of the
    input (never from unpacking the assignments).  With fewer than 55 or
    more than 99 students such a run ends in the [AssertionError], after the
    solver was called and before anything is printed or written. *)
Theorem sound_solver_failures solver input :
  (∀ p, status (solver p) = LpStatusOptimal → feasible p (solver p)) →
  fst (run solver input) ≠ Raise ZeroDivisionError
  ∧ (fst (run solver input) = Raise ValueError →
     ∃ rows, input !! "student_choices.csv" = Some rows
             ∧ STEP3 (drop 1 rows) = Raise ValueError)
  ∧ (∀ rows student_info_dicts,
       input !! "student_choices.csv" = Some rows →
       STEP3 (drop 1 rows) = Ok student_info_dicts →
       ¬ (55 ≤ length (drop 1 rows) ≤ 99)%nat →
       run solver input
       = (Raise (AssertionError "solution not found"),
          mkWorld input [prob (length (drop 1 rows)) student_info_dicts] [])).
Proof.
  intros Hsound.
  assert (∀ rows dicts,
            input !! "student_choices.csv" = Some rows →
            STEP3 (drop 1 rows) = Ok dicts →
            status (solver (prob (length (drop 1 rows)) dicts))
            = LpStatusOptimal →
            fst (run solver input) = Ok ()) as Hok.
  { intros rows dicts Hin Hload Hst.
    destruct (run_optimal_feasible solver input rows (drop 1 rows) dicts
                Hin eq_refl Hload Hst (Hsound _ Hst)) as (results & _ & ->).
    done. }
  repeat split.
  - intros Hz. rewrite run_unfold in Hz.
    destruct (input !! "student_choices.csv") as [rows|] eqn:Hin; [|done].
    cbv zeta in Hz.
    destruct (STEP3 (drop 1 rows)) as [dicts|e] eqn:Hload.
    + destruct (bool_decide _) eqn:Hst; [|done].
      apply bool_decide_eq_true_1 in Hst.
      specialize (Hok rows dicts eq_refl Hload Hst).
      rewrite run_unfold, Hin in Hok. cbv zeta in Hok.
      rewrite Hload, bool_decide_eq_true_2 in Hok by done. congruence.
    + injection Hz as ->. by apply STEP3_loop_Raise in Hload.
  - intros Hv. rewrite run_unfold in Hv.
    destruct (input !! "student_choices.csv") as [rows|] eqn:Hin; [|done].
    exists rows. split; [done|]. cbv zeta in Hv.
    destruct (STEP3 (drop 1 rows)) as [dicts|e] eqn:Hload;
      [|by injection Hv as ->].
    destruct (bool_decide _) eqn:Hst; [|done].
    apply bool_decide_eq_true_1 in Hst.
    specialize (Hok rows dicts eq_refl Hload Hst).
    rewrite run_unfold, Hin in Hok. cbv zeta in Hok.
    rewrite Hload, bool_decide_eq_true_2 in Hok by done. congruence.
  - intros rows dicts Hin Hload Hrange.
    rewrite run_unfold, Hin. cbv zeta. rewrite Hload.
    rewrite bool_decide_eq_false_2; [done|].
    intros Hst. apply Hrange.
    by destruct (students_between_capacities (drop 1 rows) dicts _
                   (Hsound _ Hst)) as [_ H].
Qed.

Lemma sound_solver_failures_witness :
  fst (run Checked.solver Broken.input) ≠ Raise ZeroDivisionError
  ∧ run Checked.solver Broken.input
    = (Raise (AssertionError "solution not found"),
       mkWorld Broken.input
         [prob (length Broken.student_choice_data) Broken.student_info_dicts]
         []).
Proof.
  destruct (sound_solver_failures Checked.solver Broken.input Checked_sound)
    as (Hz & _ & Ha).
  split; [exact Hz|].
  apply (Ha Broken.csv Broken.student_info_dicts).
  - exact Broken_input.
  - exact Broken_load.
  - intros [H _]. simpl in H. lia.
Defined.
